(** * The Markem-Imaje printer client (imaje.py): codec and session

    A shallow embedding of [src/imaje.py].  Python values are modelled as
    follows.

    - [str] built by the module itself (commands, dictionary keys, the
      two-character hex items of a response) is a Rocq [string]; a command
      such as the Python literal ["\\x30\\x00"] is the Rocq string
      ["\x30\x00"], because Rocq strings have no backslash escapes.
    - [bytes] is a [list byte].
    - text decoded from the wire ([bytes.decode("utf-8")]) is a list of
      code points, [text].
    - [int] is [Z]; a [float] is denoted by the exact rational it rounds
      (see [pyfloat]).
    - a raised exception is the [Raise] outcome of [result]; functions that
      talk to the printer run in the state-and-error monad [M] over the
      [world]: the frames handed to the socket, the lines printed and
      the outcomes of the coming connection attempts. *)

From Stdlib Require Import ZArith NArith QArith Ascii String List Lia.
From Stdlib Require Import Strings.Byte.
From stdpp Require Import base option list gmap strings.

Local Open Scope string_scope.
Local Open Scope list_scope.

(** ** Exceptions and outcomes *)

(** The exception classes the module can meet.  [OSError] stands for any
    failure of the socket calls. *)
Inductive exn : Type :=
  | IndexError
  | KeyError
  | ValueError
  | TypeError
  | AttributeError
  | UnicodeDecodeError
  | OSError.

Inductive result (A : Type) : Type :=
  | Ok (a : A)
  | Raise (e : exn).
Arguments Ok {A} a.
Arguments Raise {A} e.

#[global] Instance result_ret : MRet result := fun A a => Ok a.
#[global] Instance result_bind : MBind result := fun A B f m =>
  match m with
  | Ok a => f a
  | Raise e => Raise e
  end.
#[global] Instance result_fmap : FMap result := fun A B f m =>
  match m with
  | Ok a => Ok (f a)
  | Raise e => Raise e
  end.

Definition is_ok {A} (r : result A) : bool :=
  match r with Ok _ => true | Raise _ => false end.

(** [mapM] for [result]: evaluation of a list comprehension whose item
    expression may raise; the first failure wins. *)
Fixpoint result_mapM {A B} (f : A → result B) (l : list A) : result (list B) :=
  match l with
  | [] => Ok []
  | x :: l' => y ← f x; ys ← result_mapM f l'; Ok (y :: ys)
  end.

(** ** Characters, digits and number formatting *)

Abbreviation text := (list N).

Definition text_of (s : string) : text :=
  map N_of_ascii (list_ascii_of_string s).

Definition chr (n : N) : ascii := ascii_of_N n.

(** Value of a character as a digit in bases up to 36 ([0-9a-zA-Z]). *)
Definition digit_value (c : N) : option N :=
  if ((48 <=? c) && (c <=? 57))%N then Some (c - 48)%N
  else if ((97 <=? c) && (c <=? 122))%N then Some (c - 87)%N
  else if ((65 <=? c) && (c <=? 90))%N then Some (c - 55)%N
  else None.

Definition is_digit_in (base : N) (c : N) : bool :=
  match digit_value c with
  | Some v => (v <? base)%N
  | None => false
  end.

(** Lower-case digit character of a value below 36. *)
Definition digit_char (v : N) : ascii :=
  if (v <? 10)%N then chr (48 + v) else chr (87 + v).

Fixpoint to_digits (fuel : nat) (base n : N) (acc : string) : string :=
  match fuel with
  | O => acc
  | S fuel' =>
      let acc' := String (digit_char (n mod base)) acc in
      if (n / base =? 0)%N then acc' else to_digits fuel' base (n / base) acc'
  end.

(** The digits of [n] in [base] (at least 2), most significant first;
    ["0"] for zero. *)
Definition digits (base n : N) : string :=
  to_digits (S (N.size_nat n)) base n "".

Fixpoint replicate_char (n : nat) (c : ascii) : string :=
  match n with
  | O => ""
  | S n' => String c (replicate_char n' c)
  end.

(** [str.zfill(width)] on a string without sign. *)
Definition zfill (width : nat) (s : string) : string :=
  replicate_char (width - String.length s) "0" +:+ s.

(** [format(n, "0<width>x")]: lower-case hex, zero padded to [width]
    columns; the sign of a negative number takes one of the columns. *)
Definition format_x (width : nat) (n : Z) : string :=
  if (n <? 0)%Z
  then String "-" (zfill (width - 1) (digits 16 (Z.abs_N n)))
  else zfill width (digits 16 (Z.abs_N n)).

(** [format(n, "0<width>d")] for the non-negative fields of [strftime]. *)
Definition format_d (width : nat) (n : N) : string :=
  zfill width (digits 10 n).

(** ** [int(s, base)] and [float(s)] on text *)

(** The Unicode spaces from code point 127 on ([str.isspace]). *)
Definition is_unicode_space (c : N) : bool :=
  ((c =? 133) || (c =? 160) || (c =? 5760)
   || (8192 <=? c) && (c <=? 8202) || (c =? 8232) || (c =? 8233)
   || (c =? 8239) || (c =? 8287) || (c =? 12288))%N.

(** The decimal digits of Unicode (general category Nd; Unicode 14.0, the
    table of CPython 3.11): each entry is the code point of a digit zero,
    and the nine code points after it are the digits one to nine of the
    same script. *)
Definition unicode_zeros : list N :=
  [48; 1632; 1776; 1984; 2406; 2534; 2662; 2790; 2918; 3046; 3174; 3302;
   3430; 3558; 3664; 3792; 3872; 4160; 4240; 6112; 6160; 6470; 6608; 6784;
   6800; 6992; 7088; 7232; 7248; 42528; 43216; 43264; 43472; 43504; 43600;
   44016; 65296; 66720; 68912; 69734; 69872; 69942; 70096; 70384; 70736;
   70864; 71248; 71360; 71472; 71904; 72016; 72784; 73040; 73120; 92768;
   92864; 93008; 120782; 120792; 120802; 120812; 120822; 123200; 123632;
   125264; 130032]%N.

(** The value of a decimal digit of any script. *)
Definition unicode_decimal (c : N) : option N :=
  (λ zero, c - zero)%N
  <$> List.find (λ zero, (zero <=? c) && (c <=? zero + 9))%N unicode_zeros.

(** What [int] and [float] do to a [str] before they read it: a code
    point from 127 on becomes a space when it is a Unicode space, the
    ASCII digit of its value when it is a decimal digit of another script,
    and otherwise a question mark, at which the text is cut.  (An
    all-ASCII text is left as it is; with the character 127 in it, it is
    rejected afterwards either way.) *)
Fixpoint to_ascii_decimal (s : text) : text :=
  match s with
  | [] => []
  | c :: s' =>
      if (c <? 127)%N then c :: to_ascii_decimal s'
      else if is_unicode_space c then 32%N :: to_ascii_decimal s'
      else match unicode_decimal c with
           | Some d => (48 + d)%N :: to_ascii_decimal s'
           | None => [63%N]
           end
  end.

(** Blank characters skipped around a number, after that step: tab to
    carriage return, and the space. *)
Definition is_space (c : N) : bool :=
  ((9 <=? c) && (c <=? 13) || (c =? 32))%N.

Fixpoint lstrip (s : text) : text :=
  match s with
  | c :: s' => if is_space c then lstrip s' else s
  | [] => []
  end.

Definition strip (s : text) : text := rev (lstrip (rev (lstrip s))).

(** Digits with single underscores between them: returns the value, or
    fails on an empty run, a leading, doubled or trailing underscore, or a
    character that is no digit of the base.  [prev_us] tells whether the
    previous character was an underscore, [seen] whether a digit was
    read. *)
Fixpoint digit_run (base : N) (s : text) (acc : N) (prev_us seen : bool)
  : option N :=
  match s with
  | [] => if seen && negb prev_us then Some acc else None
  | c :: s' =>
      if (c =? 95)%N then
        if prev_us || negb seen then None
        else digit_run base s' acc true seen
      else
        match digit_value c with
        | Some v =>
            if (v <? base)%N
            then digit_run base s' (acc * base + v)%N false true
            else None
        | None => None
        end
  end.

Definition split_sign (s : text) : bool * text :=
  match s with
  | 45%N :: s' => (true, s')
  | 43%N :: s' => (false, s')
  | _ => (false, s)
  end.

Definition apply_sign (neg : bool) (n : N) : Z :=
  if neg then (- Z.of_N n)%Z else Z.of_N n.

(** [int(s, base)] for base 10 or 16: digits and spaces of other scripts
    brought to ASCII, blanks stripped, an optional sign, for base 16 an
    optional [0x] prefix that may be followed by one underscore, then the
    digits.  (The limit of 4300 digits on a decimal text is out of reach
    of the few characters this module reads.) *)
Definition py_int (base : N) (s : text) : result Z :=
  let '(neg, s1) := split_sign (strip (to_ascii_decimal s)) in
  let s2 :=
    match s1 with
    | 48%N :: x :: s' =>
        if ((base =? 16) && ((x =? 120) || (x =? 88)))%N
        then match s' with 95%N :: s'' => s'' | _ => s' end
        else s1
    | _ => s1
    end in
  match digit_run base s2 0 false false with
  | Some n => Ok (apply_sign neg n)
  | None => Raise ValueError
  end.

(** A Python [float].  [Fin q] denotes the double that the rational [q]
    rounds to (to nearest, ties to even), [q] kept in lowest terms;
    [Fin 0] is the positive zero and [NegZero] the negative one.  Parsing
    a decimal literal is correctly rounded in IEEE 754, so it is exact on
    the denoted rational; so is a division whose dividend is itself a
    double, as are the whole numbers below 100 that this module
    divides. *)
Inductive pyfloat : Type :=
  | Fin (q : Q)
  | NegZero
  | Inf (neg : bool)
  | NaN.

Definition float_of_ratio (num : Z) (den : positive) : pyfloat :=
  Fin (Qred (num # den)).

(** [x / n] for a float [x] and a positive integer [n]. *)
Definition float_div (x : pyfloat) (n : positive) : pyfloat :=
  match x with
  | Fin q => Fin (Qred (q / (Zpos n # 1)))
  | other => other
  end.

Definition is_dec_digit (c : N) : bool := ((48 <=? c) && (c <=? 57))%N.

(** Underscores in a float literal must stand between two digits; they
    are removed before the number is read. *)
Fixpoint drop_underscores (s : text) (prev : option N) : option text :=
  match s with
  | [] => match prev with Some 95%N => None | _ => Some [] end
  | c :: s' =>
      if (c =? 95)%N then
        match prev with
        | Some p => if is_dec_digit p then drop_underscores s' (Some c)
                    else None
        | None => None
        end
      else
        match prev with
        | Some 95%N => if is_dec_digit c
                       then cons c <$> drop_underscores s' (Some c)
                       else None
        | _ => cons c <$> drop_underscores s' (Some c)
        end
  end.

(** Longest prefix of decimal digits: its value, its length, the rest. *)
Fixpoint take_digits (s : text) (acc : N) (len : nat) : N * nat * text :=
  match s with
  | c :: s' =>
      if is_dec_digit c then take_digits s' (acc * 10 + (c - 48))%N (S len)
      else (acc, len, s)
  | [] => (acc, len, [])
  end.

Definition lower (c : N) : N :=
  if ((65 <=? c) && (c <=? 90))%N then (c + 32)%N else c.

Definition scale10 (m : Z) (e : Z) : pyfloat :=
  if (0 <=? e)%Z then float_of_ratio (m * 10 ^ e) 1
  else float_of_ratio m (Z.to_pos (10 ^ (- e))).

(** The float written by a sign, the digits of a mantissa and a decimal
    exponent: a mantissa of zeros after a minus sign is the negative
    zero. *)
Definition signed_scale10 (neg : bool) (mant : N) (e : Z) : pyfloat :=
  if neg && (mant =? 0)%N then NegZero
  else scale10 (apply_sign neg mant) e.

(** [float(s)]: digits and spaces of other scripts brought to ASCII,
    blanks stripped; an optional sign; [inf], [infinity] or [nan] in any
    case; or decimal digits with an optional point and an optional
    exponent, at least one digit in the mantissa. *)
Definition py_float (s : text) : result pyfloat :=
  match drop_underscores (strip (to_ascii_decimal s)) None with
  | None => Raise ValueError
  | Some s0 =>
      let '(neg, s1) := split_sign s0 in
      let word := map lower s1 in
      if decide (word = text_of "inf" ∨ word = text_of "infinity")
      then Ok (Inf neg)
      else if decide (word = text_of "nan") then Ok NaN
      else
        let '(ip, ilen, r1) := take_digits s1 0 0 in
        let '(mant, flen, r2) :=
          match r1 with
          | 46%N :: r => take_digits r ip 0
          | _ => (ip, 0%nat, r1)
          end in
        if (ilen + flen =? 0)%nat then Raise ValueError
        else
          match r2 with
          | [] => Ok (signed_scale10 neg mant (- Z.of_nat flen))
          | e :: r3 =>
              if (lower e =? 101)%N then
                let '(eneg, r4) := split_sign r3 in
                match take_digits r4 0 0 with
                | (ev, S _, []) =>
                    Ok (signed_scale10 neg mant
                          (apply_sign eneg ev - Z.of_nat flen))
                | _ => Raise ValueError
                end
              else Raise ValueError
          end
  end.

(** ** String functions of the library used by the module *)

(** [s.split(r"\x")]: the pieces of [s] between the occurrences of the
    two characters backslash, x, scanned from the left.  [cur] is the
    piece being read. *)
Fixpoint split_backslash_x (s : string) (cur : string) : list string :=
  match s with
  | "" => [cur]
  | String "\" (String "x" rest) => cur :: split_backslash_x rest ""
  | String c s' => split_backslash_x s' (cur +:+ String c "")
  end.

Fixpoint concat_strings (l : list string) : string :=
  match l with
  | [] => ""
  | s :: l' => s +:+ concat_strings l'
  end.

(** A slice [l[i:j]] with 0 <= i <= j: out-of-range bounds are clipped. *)
Definition slice {A} (i j : nat) (l : list A) : list A :=
  take (j - i) (drop i l).

(** Indexing [l[i]] with i >= 0. *)
Definition index {A} (l : list A) (i : nat) : result A :=
  match l !! i with
  | Some x => Ok x
  | None => Raise IndexError
  end.

Definition byte_of_code (n : N) : byte :=
  default x00 (Byte.of_N n).

(** [s.encode()]: UTF-8 of a string whose characters are the code points
    0 to 255. *)
Fixpoint encode_utf8 (s : string) : list N :=
  match s with
  | "" => []
  | String c s' =>
      let n := N_of_ascii c in
      if (n <? 128)%N then n :: encode_utf8 s'
      else (192 + n / 64)%N :: (128 + n mod 64)%N :: encode_utf8 s'
  end.

Definition hex_value (c : N) : option N :=
  match digit_value c with
  | Some v => if (v <? 16)%N then Some v else None
  | None => None
  end.

Definition hex_pair (a b : N) : option N :=
  match hex_value a, hex_value b with
  | Some x, Some y => Some (16 * x + y)%N
  | _, _ => None
  end.

Definition is_oct_digit (c : N) : bool := ((48 <=? c) && (c <=? 55))%N.

(** [bytes.decode("unicode_escape")]: a byte other than a backslash is
    the Latin-1 character of that value; after a backslash come the
    escapes of Python string literals.  An unknown escape keeps its
    backslash and is followed by its character as it is.  The named escape [\N{...}] needs the table of character
    names and is rejected here; the module never builds one. *)
Fixpoint decode_unicode_escape (s : list N) : result (list N) :=
  let go := decode_unicode_escape in
  match s with
      | [] => Ok []
      | 92%N :: [] => Raise UnicodeDecodeError
      | 92%N :: c :: r =>
          if (c =? 10)%N then go r
          else if (c =? 92)%N || (c =? 39)%N || (c =? 34)%N
          then cons c <$> go r
          else if (c =? 97)%N then cons 7%N <$> go r
          else if (c =? 98)%N then cons 8%N <$> go r
          else if (c =? 102)%N then cons 12%N <$> go r
          else if (c =? 110)%N then cons 10%N <$> go r
          else if (c =? 114)%N then cons 13%N <$> go r
          else if (c =? 116)%N then cons 9%N <$> go r
          else if (c =? 118)%N then cons 11%N <$> go r
          else if (c =? 120)%N then
            match r with
            | a :: b :: r' =>
                match hex_pair a b with
                | Some v => cons v <$> go r'
                | None => Raise UnicodeDecodeError
                end
            | _ => Raise UnicodeDecodeError
            end
          else if (c =? 117)%N then
            match r with
            | a :: b :: c1 :: d :: r' =>
                match hex_pair a b, hex_pair c1 d with
                | Some h, Some l => cons (256 * h + l)%N <$> go r'
                | _, _ => Raise UnicodeDecodeError
                end
            | _ => Raise UnicodeDecodeError
            end
          else if (c =? 85)%N then
            match r with
            | a :: b :: c1 :: d :: e :: f :: g :: h :: r' =>
                match hex_pair a b, hex_pair c1 d, hex_pair e f, hex_pair g h
                with
                | Some w, Some x, Some y, Some z =>
                    let v := (((256 * w + x) * 256 + y) * 256 + z)%N in
                    if (v <=? 1114111)%N then cons v <$> go r'
                    else Raise UnicodeDecodeError
                | _, _, _, _ => Raise UnicodeDecodeError
                end
            | _ => Raise UnicodeDecodeError
            end
          else if (c =? 78)%N then Raise UnicodeDecodeError
          else if is_oct_digit c then
            match r with
            | d :: r1 =>
                if is_oct_digit d then
                  match r1 with
                  | e :: r2 =>
                      if is_oct_digit e
                      then cons (((c - 48) * 8 + (d - 48)) * 8 + (e - 48))%N
                             <$> go r2
                      else cons ((c - 48) * 8 + (d - 48))%N <$> go r1
                  | [] => Ok [((c - 48) * 8 + (d - 48))%N]
                  end
                else cons (c - 48)%N <$> go r
            | [] => Ok [(c - 48)%N]
            end
          else (λ l, 92%N :: c :: l) <$> go r
      | c :: r => cons c <$> go r
      end.

(** [str.encode("raw_unicode_escape")]: a code point below 256 is one
    byte, a larger one is written as a [\u] or [\U] escape. *)
Definition encode_raw_unicode_escape (s : list N) : list byte :=
  flat_map
    (λ c,
      if (c <? 256)%N then [byte_of_code c]
      else
        let esc := if (c <? 65536)%N
                   then "\u" +:+ format_x 4 (Z.of_N c)
                   else "\U" +:+ format_x 8 (Z.of_N c) in
        map byte_of_code (text_of esc))
    s.

(** [bytes.fromhex(s)]: pairs of hex digits, blanks allowed between the
    pairs. *)
Fixpoint fromhex (s : text) : result (list byte) :=
  match s with
  | [] => Ok []
  | c :: s' =>
      if ((c =? 32) || (9 <=? c) && (c <=? 13))%N then fromhex s'
      else
        match s' with
        | d :: s'' =>
            match hex_pair c d with
            | Some v => cons (byte_of_code v) <$> fromhex s''
            | None => Raise ValueError
            end
        | [] => Raise ValueError
        end
  end.

Definition is_cont (b : N) : bool := ((128 <=? b) && (b <=? 191))%N.

(** [bytes.decode("utf-8")], strict: no overlong forms, no surrogates,
    nothing above U+10FFFF. *)
Fixpoint decode_utf8 (s : list N) : result text :=
  let go := decode_utf8 in
  match s with
      | [] => Ok []
      | a :: r =>
          if (a <? 128)%N then cons a <$> go r
          else if ((194 <=? a) && (a <=? 223))%N then
            match r with
            | b :: r' =>
                if is_cont b
                then cons ((a - 192) * 64 + (b - 128))%N <$> go r'
                else Raise UnicodeDecodeError
            | _ => Raise UnicodeDecodeError
            end
          else if ((224 <=? a) && (a <=? 239))%N then
            match r with
            | b :: c :: r' =>
                let lo := if (a =? 224)%N then 160%N else 128%N in
                let hi := if (a =? 237)%N then 159%N else 191%N in
                if ((lo <=? b) && (b <=? hi))%N && is_cont c
                then cons (((a - 224) * 64 + (b - 128)) * 64 + (c - 128))%N
                       <$> go r'
                else Raise UnicodeDecodeError
            | _ => Raise UnicodeDecodeError
            end
          else if ((240 <=? a) && (a <=? 244))%N then
            match r with
            | b :: c :: d :: r' =>
                let lo := if (a =? 240)%N then 144%N else 128%N in
                let hi := if (a =? 244)%N then 143%N else 191%N in
                if ((lo <=? b) && (b <=? hi))%N && is_cont c && is_cont d
                then cons ((((a - 240) * 64 + (b - 128)) * 64 + (c - 128))
                           * 64 + (d - 128))%N <$> go r'
                else Raise UnicodeDecodeError
            | _ => Raise UnicodeDecodeError
            end
          else Raise UnicodeDecodeError
      end.

(** [re.sub(r"[^0-9]", "", data)]: only the characters 0 to 9 stay. *)
Definition keep_digits (data : text) : text := filter (λ c, is_dec_digit c = true) data.

(** [s.replace(",", ".")]. *)
Definition replace_comma (s : text) : text :=
  map (λ c, if (c =? 44)%N then 46%N else c) s.

(** [s[i]] on a string. *)
Definition char_at (s : string) (i : nat) : result ascii :=
  match String.get i s with
  | Some c => Ok c
  | None => Raise IndexError
  end.

(** [needle in s]. *)
Fixpoint contains (needle s : string) : bool :=
  if String.prefix needle s then true
  else match s with
       | "" => false
       | String _ s' => contains needle s'
       end.

(** [bin(n)[2:]]: the binary digits of a number that is not negative; for
    a negative one the slice cuts [-0b...] after the zero. *)
Definition bin_tail (n : Z) : string :=
  if (n <? 0)%Z then String "b" (digits 2 (Z.abs_N n))
  else digits 2 (Z.abs_N n).

(** ** class Utils *)

(** What [Printer.send_command] returns: the list of two-character hex
    items of the received bytes, or the exception object it caught. *)
Inductive response : Type :=
  | RList (items : list string)
  | RExn (e : exn).

Module Utils.

Definition string_to_byte (s : string) : result (list byte) :=
  encode_raw_unicode_escape <$> decode_unicode_escape (encode_utf8 s).

Definition dec_to_hex (number : Z) : string := format_x 2 number.

Definition hex_to_text (hex_string : string) : result text :=
  bs ← fromhex (text_of hex_string);
  decode_utf8 (map Byte.to_N bs).

Definition extract_response_code (r : response) : result bool :=
  match r with
  | RList items =>
      first ← index items 0;
      Ok (bool_decide (first = "06"))
  | RExn _ => Ok false
  end.

Definition calculate_checksum (command : string) : result string :=
  let hex_array := tail (split_backslash_x command "") in
  check_sum_dec ←
    foldl (λ acc hex_num,
             check ← acc;
             n ← py_int 16 (text_of ("0x" +:+ hex_num));
             Ok (Z.lxor check n))
          (Ok 0%Z) hex_array;
  Ok (command +:+ "\x" +:+ dec_to_hex check_sum_dec).

End Utils.

(** ** The outside world *)

(** The frames handed to the socket, oldest first, the lines written by
    [print], and the outcomes of the coming calls of [socket.connect], the
    next one first: [Some e] when the call raises [e] (so does a failure
    of [socket.socket] before it), [None] when the connection is made.
    Past the end of the list every connection is made. *)
Record world : Type := World {
  frames : list (list byte);
  printed : list string;
  connects : list (option exn);
}.

(** The printer behind a connection that was made: given every frame
    handed to the socket so far, the last one being the current request,
    either the bytes that [recv] returns or the exception of a socket call
    that failed after the frame was handed over ([send], [recv] or
    [close]). *)
Definition transport : Type := list (list byte) → result (list byte).

Definition M (A : Type) : Type := world → result A * world.

#[global] Instance M_ret : MRet M := fun A a w => (Ok a, w).
#[global] Instance M_bind : MBind M := fun A B f m w =>
  match m w with
  | (Ok a, w') => f a w'
  | (Raise e, w') => (Raise e, w')
  end.

Definition lift {A} (r : result A) : M A := fun w => (r, w).

Definition print (line : string) : M unit := fun w =>
  (Ok tt, {| frames := frames w; printed := printed w ++ [line];
             connects := connects w |}).

(** Nothing sent, nothing printed, a network that connects. *)
Definition initial_world : world :=
  {| frames := []; printed := []; connects := [] |}.

(** ** [datetime] *)

(** A [datetime]: the six fields that the format of this module prints,
    the microseconds and the time zone, [None] for a naive value (the
    offset from UTC in minutes stands for the [tzinfo] object of an aware
    one; the module never consults it).  [strftime] with the format of
    this module prints neither of the last two, and [strptime] gives back
    a naive value with microsecond 0.  The attribute [fold], which
    comparison ignores, is left out. *)
Record datetime : Type := Datetime {
  year : Z;
  month : Z;
  day : Z;
  hour : Z;
  minute : Z;
  second : Z;
  microsecond : Z;
  tzinfo : option Z;
}.

#[global] Instance datetime_eq_dec : EqDecision datetime.
Proof. solve_decision. Defined.

Definition is_leap (y : Z) : bool :=
  ((y mod 4 =? 0) && (negb (y mod 100 =? 0) || (y mod 400 =? 0)))%Z.

Definition days_in_month (y m : Z) : Z :=
  if (m =? 2)%Z then (if is_leap y then 29 else 28)%Z
  else if ((m =? 4) || (m =? 6) || (m =? 9) || (m =? 11))%Z then 30%Z
  else 31%Z.

(** The range checks of the [datetime] constructor. *)
Definition valid_datetime (d : datetime) : bool :=
  ((1 <=? year d) && (year d <=? 9999)
   && (1 <=? month d) && (month d <=? 12)
   && (1 <=? day d) && (day d <=? days_in_month (year d) (month d))
   && (0 <=? hour d) && (hour d <=? 23)
   && (0 <=? minute d) && (minute d <=? 59)
   && (0 <=? second d) && (second d <=? 59)
   && (0 <=? microsecond d) && (microsecond d <=? 999999))%Z.

(** [datetime(y, mo, d, h, mi, s, 0)], as [strptime] calls the constructor
    for a format without fraction and zone. *)
Definition make_datetime (y mo d h mi s : Z) : result datetime :=
  let dt := Datetime y mo d h mi s 0 None in
  if valid_datetime dt then Ok dt else Raise ValueError.

(** [date_time.strftime("\\x%S\\x%M\\x%H\\x%d\\x%m\\x%y")]. *)
Definition strftime_command (d : datetime) : string :=
  let two (n : Z) := format_d 2 (Z.to_N n) in
  "\x" +:+ two (second d) +:+ "\x" +:+ two (minute d) +:+
  "\x" +:+ two (hour d) +:+ "\x" +:+ two (day d) +:+
  "\x" +:+ two (month d) +:+ "\x" +:+ two (year d mod 100)%Z.

(** *** [strptime]: the regular expression of a format

    A directive is a group of alternatives tried in the order they are
    written; an alternative is a sequence of character classes.  The
    groups are matched one after the other with backtracking, as [re.match]
    does: the result is the first way, in that order of preference, to
    match a prefix of the text. *)
Definition char_class : Type := N → bool.
Definition alternative : Type := list char_class.
Definition group : Type := list alternative.

Definition one (c : string) : char_class :=
  λ x, bool_decide ([x] = text_of c).
Definition range (lo hi : string) : char_class :=
  λ x, match text_of lo, text_of hi with
       | [l], [h] => ((l <=? x) && (x <=? h))%N
       | _, _ => false
       end.
Definition any_digit : char_class := is_dec_digit.

Fixpoint match_alternative (a : alternative) (s : text) : option (text * text) :=
  match a, s with
  | [], _ => Some ([], s)
  | cl :: a', c :: s' =>
      if cl c
      then match match_alternative a' s' with
           | Some (m, r) => Some (c :: m, r)
           | None => None
           end
      else None
  | _ :: _, [] => None
  end.

Fixpoint first_some {A B} (f : A → option B) (l : list A) : option B :=
  match l with
  | [] => None
  | x :: l' => match f x with
               | Some y => Some y
               | None => first_some f l'
               end
  end.

Fixpoint match_groups (gs : list group) (s : text) : option (list text * text) :=
  match gs with
  | [] => Some ([], s)
  | g :: gs' =>
      first_some
        (λ a, match match_alternative a s with
              | Some (m, r) =>
                  match match_groups gs' r with
                  | Some (ms, r') => Some (m :: ms, r')
                  | None => None
                  end
              | None => None
              end)
        g
  end.

(** The groups of the directives used by the module. *)
Definition re_S : group :=
  [[one "6"; range "0" "1"]; [range "0" "5"; any_digit]; [any_digit]].
Definition re_M : group :=
  [[range "0" "5"; any_digit]; [any_digit]].
Definition re_H : group :=
  [[one "2"; range "0" "3"]; [range "0" "1"; any_digit]; [any_digit]].
Definition re_d : group :=
  [[one "3"; range "0" "1"]; [range "1" "2"; any_digit];
   [one "0"; range "1" "9"]; [range "1" "9"]; [one " "; range "1" "9"]].
Definition re_m : group :=
  [[one "1"; range "0" "2"]; [one "0"; range "1" "9"]; [range "1" "9"]].
Definition re_y : group :=
  [[any_digit; any_digit]].

(** [datetime.strptime(date_string, "%S%M%H%d%m%y")]: the text must be
    matched to its end; a two-digit year up to 68 is in the 2000s, a later
    one in the 1900s; the fields must pass the checks of the constructor.
    Every failure is a [ValueError]. *)
Definition strptime_SMHdmy (date_string : text) : result datetime :=
  match match_groups [re_S; re_M; re_H; re_d; re_m; re_y] date_string with
  | Some ([gS; gM; gH; gd; gm; gy], []) =>
      s ← py_int 10 gS;
      mi ← py_int 10 gM;
      h ← py_int 10 gH;
      d ← py_int 10 gd;
      mo ← py_int 10 gm;
      y ← py_int 10 gy;
      let y4 := if (y <=? 68)%Z then (y + 2000)%Z else (y + 1900)%Z in
      make_datetime y4 mo d h mi s
  | _ => Raise ValueError
  end.

(** ** class Printer *)

(** The dictionary returned by [get_parameters]; its keys are fixed. *)
Record parameters : Type := Parameters {
  motor_speed : Z;
  pressure : pyfloat;
  visco_filling_times : Z;
  additive_added : Z;
  average_jet_speed : pyfloat;
  temperature_of_electronics : Z;
  temperature_of_ink_circuit : Z;
}.

(** Subscripting and iterating what [send_command] returned: an exception
    object supports neither. *)
Definition resp_items (r : response) : result (list string) :=
  match r with
  | RList items => Ok items
  | RExn _ => Raise TypeError
  end.

Definition resp_slice (i j : nat) (r : response) : result (list string) :=
  slice i j <$> resp_items r.

Definition resp_index (r : response) (i : nat) : result string :=
  items ← resp_items r; index items i.

(** [jet_id > count] where [count] may be [None]: ordering an [int] and
    [None] is a [TypeError]. *)
Definition gt_count (jet_id : Z) (count : option Z) : result bool :=
  match count with
  | Some n => Ok (n <? jet_id)%Z
  | None => Raise TypeError
  end.

Definition available_status : gmap string string :=
  {[ "00" := "Jet stopped";
     "01" := "Jet in start-up phase";
     "02" := "Jet in refresh";
     "03" := "Jet in stability check";
     "04" := "Jet in solvent feed";
     "05" := "Jet in nozzle unclog";
     "06" := "Adjustment";
     "07" := "Jet running" ]}.

(** [d[key]]. *)
Definition dict_get {V} (d : gmap string V) (key : string) : result V :=
  match d !! key with
  | Some v => Ok v
  | None => Raise KeyError
  end.

(** [windows[i][j]]: a bit character of the [i]-th binary string. *)
Definition bit_at (windows : list string) (i j : nat) : result ascii :=
  w ← index windows i; char_at w j.

(** The fourteen entries of one jet, in the order of the dictionary
    display. *)
Definition jet_entries (jet_id : nat) (faults : list string)
  : result (list (string * ascii)) :=
  let key name := "j" +:+ digits 10 (N.of_nat jet_id) +:+ name in
  a ← bit_at faults 0 7;
  b ← bit_at faults 0 2;
  c ← bit_at faults 0 1;
  d ← bit_at faults 1 3;
  e ← bit_at faults 1 2;
  f ← bit_at faults 1 1;
  g ← bit_at faults 1 0;
  h ← bit_at faults 2 7;
  i ← bit_at faults 2 6;
  j ← bit_at faults 2 5;
  k ← bit_at faults 2 4;
  l ← bit_at faults 2 3;
  m ← bit_at faults 2 2;
  n ← bit_at faults 2 1;
  Ok [ (key "_printing_hardware_fault", a);
       (key "_frame_generator_fault", b);
       (key "_char_generator_fault", c);
       (key "_cover_fault", d);
       (key "_EHV_fault", e);
       (key "_recovery", f);
       (key "_phase_detection", g);
       (key "_not_present", h);
       (key "_communication_cpu_printer", i);
       (key "_printing_speed_fault", j);
       (key "_DTOP_filtering", k);
       (key "_no_message_to_print", l);
       (key "_incorrect_char_generator_n", m);
       (key "_DTOP_printing", n) ].

(** The nineteen entries of the printer itself. *)
Definition printer_entries (printer_faults : list string)
  : result (list (string * ascii)) :=
  a ← bit_at printer_faults 0 7;
  b ← bit_at printer_faults 0 6;
  c ← bit_at printer_faults 0 5;
  d ← bit_at printer_faults 0 4;
  e ← bit_at printer_faults 0 3;
  f ← bit_at printer_faults 0 2;
  g ← bit_at printer_faults 0 1;
  h ← bit_at printer_faults 0 0;
  i ← bit_at printer_faults 1 2;
  j ← bit_at printer_faults 1 1;
  k ← bit_at printer_faults 1 0;
  l ← bit_at printer_faults 2 7;
  m ← bit_at printer_faults 2 6;
  n ← bit_at printer_faults 2 5;
  o ← bit_at printer_faults 2 4;
  p ← bit_at printer_faults 2 3;
  q ← bit_at printer_faults 2 2;
  r ← bit_at printer_faults 2 1;
  s ← bit_at printer_faults 2 0;
  Ok [ ("ink_level_low", a);
       ("pressure_error", b);
       ("cpu_hw_error", c);
       ("memory_lost", d);
       ("head_1_faulty", e);
       ("head_2_faulty", f);
       ("motor_cycle_fault", g);
       ("pigmented_ink_circuit_fault", h);
       ("autodating_fault", i);
       ("ram_fault", j);
       ("rom_fault", k);
       ("v24_fault", l);
       ("recovery_tank_too_full", m);
       ("ink_tank_too_full", n);
       ("accu_empty", o);
       ("temp_fault", p);
       ("viscosity_fault", q);
       ("fan_fault", r);
       ("additive_fault", s) ].

(** [d.update(entries)]: later entries win. *)
Definition dict_update {V} (d : gmap string V) (entries : list (string * V))
  : gmap string V :=
  foldl (λ acc kv, <[kv.1 := kv.2]> acc) d entries.

(** [for jet_id, faults in enumerate(jet_faults): faults_dict.update(...)],
    counting from [jet_id]. *)
Fixpoint update_jets (jet_id : nat) (jet_faults : list (list string))
    (faults_dict : gmap string ascii) : result (gmap string ascii) :=
  match jet_faults with
  | [] => Ok faults_dict
  | faults :: rest =>
      entries ← jet_entries jet_id faults;
      update_jets (S jet_id) rest (dict_update faults_dict entries)
  end.

(** The warnings printed by the operations on a jet. *)
Definition warning_set_variables : string :=
  "Attention, it seems that you are trying to set the external " +:+
  "variables from a non-existent jet! This can lead to dramatic " +:+
  "problems!".
Definition warning_get_counter : string :=
  "Attention, it seems that you are trying to get the jet " +:+
  "counter of a non-existent jet. This can lead to " +:+
  "unpredictable problems.".
Definition warning_reset_counter : string :=
  "Attention, it seems that you are trying to reset the jet " +:+
  "counter of a non-existent jet. This can lead to " +:+
  "unpredictable problems.".
Definition warning_get_status : string :=
  "Attention, it seems that you are trying to get the status of " +:+
  "a non-existent jet. This can lead to unpredictable problems.".

Module Printer.
Section Session.

(** The printer at [self.ip], [self.port], seen through the socket. *)
Variable net : transport.

(** Everything inside the [try] block, in the order of the calls.
    [connect] comes first: when it raises, nothing is handed to the
    socket.  Then the argument of [send] is evaluated, [string_to_byte] of
    the command, and the bytes are handed to [send].  Whatever raises
    inside the block, a socket call or [string_to_byte], is caught and
    returned as a value.  [recv(1024)] returns at most 1024 bytes. *)
Definition send_command (command : string) : M response := fun w =>
  let w0 := {| frames := frames w; printed := printed w;
               connects := tail (connects w) |} in
  match connects w with
  | Some e :: _ => (Ok (RExn e), w0)
  | _ =>
      match Utils.string_to_byte command with
      | Raise e => (Ok (RExn e), w0)
      | Ok frame =>
          let w' := {| frames := frames w ++ [frame]; printed := printed w;
                       connects := tail (connects w) |} in
          match net (frames w') with
          | Raise e => (Ok (RExn e), w')
          | Ok received =>
              (Ok (RList (map (λ x, format_x 2 (Z.of_N (Byte.to_N x)))
                              (take 1024 received))), w')
          end
      end
  end.

(** Frame a command with its checksum, send it and return the reply. *)
Definition send_checked (command : string) : M response :=
  framed ← lift (Utils.calculate_checksum command);
  send_command framed.

Definition get_v24_dialog : M bool :=
  r ← send_command "\x05";
  lift (Utils.extract_response_code r).

Definition start_stop_printer (mode : Z) : M bool :=
  r ← send_checked ("\x30\x00\x01\x" +:+ Utils.dec_to_hex mode);
  lift (Utils.extract_response_code r).

(** The part of [get_autodating_table] after the exchange. *)
Definition autodating_table_of (r : response)
  : result (bool * option datetime) :=
  ack ← Utils.extract_response_code r;
  if ack : bool then
    window ← resp_slice 4 26 r;
    data ← Utils.hex_to_text (concat_strings window);
    let date_string := keep_digits data in
    autodating_table ← strptime_SMHdmy date_string;
    Ok (true, Some autodating_table)
  else Ok (false, None).

Definition get_autodating_table : M (bool * option datetime) :=
  r ← send_command "\xD6\x00\x00\xD6";
  lift (autodating_table_of r).

Definition set_autodating_table (date_time : datetime) : M bool :=
  r ← send_checked ("\xC8\x00\x07" +:+ strftime_command date_time +:+ "\x20");
  lift (Utils.extract_response_code r).

(** The part of [get_printer_faults] after the exchange. *)
Definition printer_faults_of (r : response)
  : result (bool * option (gmap string ascii)) :=
  ack ← Utils.extract_response_code r;
  if ack : bool then
    items ← resp_items r;
    response_bin ←
      result_mapM (λ i, n ← py_int 16 (text_of i); Ok (zfill 8 (bin_tail n)))
                  items;
    let printer_faults := slice 4 7 response_bin in
    let jet_faults :=
      [ slice 7 10 response_bin; slice 10 13 response_bin;
        slice 13 16 response_bin; slice 16 19 response_bin ] in
    entries ← printer_entries printer_faults;
    faults_dict ← update_jets 0 jet_faults (dict_update ∅ entries);
    Ok (true, Some faults_dict)
  else Ok (false, None).

Definition get_printer_faults : M (bool * option (gmap string ascii)) :=
  r ← send_command "\x3B\x00\x00\x3B";
  lift (printer_faults_of r).

Definition reset_printer_faults : M bool :=
  r ← send_command "\x3C\x00\x00\x3C";
  lift (Utils.extract_response_code r).

(** The loop of [get_number_of_available_jets] over the items of the
    dictionary.  The only failure the loop can meet is the [ValueError]
    of [int(value)], so its outcome does not depend on the order of the
    items. *)
Definition count_not_present (faults : gmap string ascii) : result Z :=
  let items :=
    filter (λ kv, contains "not_present" kv.1 = true) (map_to_list faults) in
  values ← result_mapM (λ kv, py_int 10 [N_of_ascii kv.2]) items;
  Ok (Z.of_nat (length (filter (λ v, v = 0%Z) values))).

Definition get_number_of_available_jets : M (bool * option Z) :=
  printer_faults ← get_printer_faults;
  match printer_faults with
  | (true, Some faults) =>
      count ← lift (count_not_present faults);
      mret (true, Some count)
  | (true, None) => lift (Raise AttributeError)
  | (false, _) => mret (false, None)
  end.

(** The advisory check at the head of the four operations on a jet. *)
Definition warn_if_unknown_jet (jet_id : Z) (warning : string) : M unit :=
  available ← get_number_of_available_jets;
  beyond ← lift (gt_count jet_id (snd available));
  if beyond : bool then print warning else mret tt.

Definition set_external_variable (jet_id : Z) (variables : list text)
  : M bool :=
  _ ← warn_if_unknown_jet jet_id warning_set_variables;
  let '(variables_hex, content_length) :=
    foldl (λ (acc : string * Z) (variable : text),
             let '(variables_hex, content_length) := acc in
             let variable_hex :=
               concat_strings
                 (map (λ c, "\x" +:+ format_x 2 (Z.of_N c)) variable) in
             (variables_hex +:+ "\x12" +:+ variable_hex +:+ "\x12",
              (content_length + Z.of_nat (length variable) + 2)%Z))
          ("", 1%Z) variables in
  let content_length := format_x 4 content_length in
  r ← send_checked
        ("\x5B" +:+
         "\x" +:+ String.substring 0 2 content_length +:+
         "\x" +:+ String.substring 2 (String.length content_length - 2)
                    content_length +:+
         "\x" +:+ Utils.dec_to_hex jet_id +:+
         variables_hex);
  lift (Utils.extract_response_code r).

(** The part of [get_jet_counter] after the exchange. *)
Definition jet_counter_of (r : response) : result (bool * Z) :=
  ack ← Utils.extract_response_code r;
  if ack : bool then
    window ← resp_slice 4 13 r;
    counter_data ← Utils.hex_to_text (concat_strings window);
    counter ← py_int 10 counter_data;
    Ok (true, counter)
  else Ok (false, 0%Z).

Definition get_jet_counter (jet_id : Z) : M (bool * Z) :=
  _ ← warn_if_unknown_jet jet_id warning_get_counter;
  r ← send_checked ("\x39\x00\x01\x" +:+ Utils.dec_to_hex jet_id);
  lift (jet_counter_of r).

Definition reset_jet_counter (jet_id : Z) : M bool :=
  _ ← warn_if_unknown_jet jet_id warning_reset_counter;
  r ← send_checked ("\x3A\x00\x01\x" +:+ Utils.dec_to_hex jet_id);
  lift (Utils.extract_response_code r).

(** The part of [get_jet_status] after the exchange. *)
Definition jet_status_of (r : response) : result (bool * option string) :=
  ack ← Utils.extract_response_code r;
  if ack : bool then
    code ← resp_index r 4;
    status ← dict_get available_status code;
    Ok (true, Some status)
  else Ok (false, None).

Definition get_jet_status (jet_id : Z) : M (bool * option string) :=
  _ ← warn_if_unknown_jet jet_id warning_get_status;
  r ← send_checked ("\x32\x00\x01\x" +:+ Utils.dec_to_hex jet_id);
  lift (jet_status_of r).

(** The part of [get_jet_speed] after the exchange. *)
Definition jet_speed_of (r : response) : result (bool * option pyfloat) :=
  ack ← Utils.extract_response_code r;
  if ack : bool then
    raw ← resp_index r 4;
    speed ← py_float (text_of raw);
    Ok (true, Some (float_div speed 10))
  else Ok (false, None).

Definition get_jet_speed (jet_id : Z) : M (bool * option pyfloat) :=
  r ← send_checked ("\x33\x00\x01\x" +:+ Utils.dec_to_hex jet_id);
  lift (jet_speed_of r).

(** The part of [get_parameters] after the exchange. *)
Definition parameters_of (r : response) : result (bool * option parameters) :=
  ack ← Utils.extract_response_code r;
  if ack : bool then
    window ← resp_slice 4 30 r;
    data ← Utils.hex_to_text (concat_strings window);
    ms ← py_int 10 (slice 0 4 data);
    pr ← py_float (replace_comma (slice 5 9 data));
    vf ← py_int 10 (slice 10 12 data);
    aa ← py_int 10 (slice 13 15 data);
    js ← py_float (replace_comma (slice 16 20 data));
    te ← py_int 10 (slice 21 23 data);
    ti ← py_int 10 (slice 24 26 data);
    Ok (true, Some (Parameters ms pr vf aa js te ti))
  else Ok (false, None).

Definition get_parameters : M (bool * option parameters) :=
  r ← send_command "\x20\x00\x00\x20";
  lift (parameters_of r).

End Session.
End Printer.

(** ** Vocabulary of the statements *)

(** The two hex digits of a byte, as the module writes them. *)
Definition hex2 (b : byte) : string :=
  Utils.dec_to_hex (Z.of_N (Byte.to_N b)).

(** A byte sequence written as a command of the module: every byte as
    backslash, x and its two hex digits. *)
Definition escape (B : list byte) : string :=
  concat_strings (map (λ b, "\x" +:+ hex2 b) B).

(** The XOR of the bytes, in order, from an accumulator of zero. *)
Definition xor_bytes (B : list byte) : N :=
  foldl (λ acc b, N.lxor acc (Byte.to_N b)) 0%N B.

(** What [send_command] makes of the received bytes. *)
Definition hex_items (received : list byte) : response :=
  RList (map hex2 (take 1024 received)).

(** The character of bit [i] of a byte, bit 0 being the least
    significant. *)
Definition bit_char (b : byte) (i : N) : ascii :=
  if N.testbit (Byte.to_N b) i then "1"%char else "0"%char.

(** The eight bit characters of a byte, most significant first. *)
Definition bits8 (b : byte) : string :=
  String (bit_char b 7) (String (bit_char b 6) (String (bit_char b 5)
  (String (bit_char b 4) (String (bit_char b 3) (String (bit_char b 2)
  (String (bit_char b 1) (String (bit_char b 0) ""))))))).

(** The nineteen faults of the printer: the name, the byte of the
    three-byte window and the bit of that byte (bit 0 least significant)
    the fault is read from. *)
Definition device_fault_table : list (string * nat * N) :=
  [ ("ink_level_low", 0%nat, 0%N);
    ("pressure_error", 0%nat, 1%N);
    ("cpu_hw_error", 0%nat, 2%N);
    ("memory_lost", 0%nat, 3%N);
    ("head_1_faulty", 0%nat, 4%N);
    ("head_2_faulty", 0%nat, 5%N);
    ("motor_cycle_fault", 0%nat, 6%N);
    ("pigmented_ink_circuit_fault", 0%nat, 7%N);
    ("autodating_fault", 1%nat, 5%N);
    ("ram_fault", 1%nat, 6%N);
    ("rom_fault", 1%nat, 7%N);
    ("v24_fault", 2%nat, 0%N);
    ("recovery_tank_too_full", 2%nat, 1%N);
    ("ink_tank_too_full", 2%nat, 2%N);
    ("accu_empty", 2%nat, 3%N);
    ("temp_fault", 2%nat, 4%N);
    ("viscosity_fault", 2%nat, 5%N);
    ("fan_fault", 2%nat, 6%N);
    ("additive_fault", 2%nat, 7%N) ].

(** The fourteen faults of a jet: the name after the jet prefix, the byte
    of the jet's three-byte window and the bit of that byte (bit 0 least
    significant) the fault is read from. *)
Definition jet_fault_table : list (string * nat * N) :=
  [ ("_printing_hardware_fault", 0%nat, 0%N);
    ("_frame_generator_fault", 0%nat, 5%N);
    ("_char_generator_fault", 0%nat, 6%N);
    ("_cover_fault", 1%nat, 4%N);
    ("_EHV_fault", 1%nat, 5%N);
    ("_recovery", 1%nat, 6%N);
    ("_phase_detection", 1%nat, 7%N);
    ("_not_present", 2%nat, 0%N);
    ("_communication_cpu_printer", 2%nat, 1%N);
    ("_printing_speed_fault", 2%nat, 2%N);
    ("_DTOP_filtering", 2%nat, 3%N);
    ("_no_message_to_print", 2%nat, 4%N);
    ("_incorrect_char_generator_n", 2%nat, 5%N);
    ("_DTOP_printing", 2%nat, 6%N) ].

(** The key of a jet fault: [f"j{jet_id}{name}"]. *)
Definition jet_key (jet_id : nat) (name : string) : string :=
  "j" +:+ digits 10 (N.of_nat jet_id) +:+ name.

Definition nth_byte (l : list byte) (i : nat) : byte :=
  default x00 (l !! i).

(** The entries a table gives for a three-byte window. *)
Definition table_entries (key : string → string)
    (table : list (string * nat * N)) (window : list byte)
  : list (string * ascii) :=
  map (λ e, (key e.1.1, bit_char (nth_byte window e.1.2) e.2)) table.

(** The entries of the two tables for the fifteen fault bytes of a reply:
    three bytes of the printer, then three bytes for each of the jets 0
    to 3. *)
Definition fault_entries (payload : list byte) : list (string * ascii) :=
  table_entries id device_fault_table (slice 0 3 payload)
  ++ flat_map
       (λ jet_id, table_entries (jet_key jet_id) jet_fault_table
                    (slice (3 + 3 * jet_id) (6 + 3 * jet_id) payload))
       [0; 1; 2; 3]%nat.

Definition faults_by_table (payload : list byte) : gmap string ascii :=
  list_to_map (fault_entries payload).

(** The 19 + 4 * 14 keys of a complete fault dictionary. *)
Definition fault_names : list string :=
  map (λ e, e.1.1) device_fault_table
  ++ flat_map (λ jet_id, map (λ e, jet_key jet_id e.1.1) jet_fault_table)
       [0; 1; 2; 3]%nat.

(** The number of jets, among the four, whose [not_present] entry is the
    character 0. *)
Definition jets_present (faults : gmap string ascii) : Z :=
  Z.of_nat (length (filter (λ jet_id,
    faults !! jet_key jet_id "_not_present" = Some "0"%char)
    [0; 1; 2; 3]%nat)).

(** The frame a command becomes: checksum appended, then turned into
    bytes. *)
Definition frame_of (command : string) : result (list byte) :=
  framed ← Utils.calculate_checksum command;
  Utils.string_to_byte framed.

(** The exception of the next call of [connect], when it is to fail. *)
Definition refused (w : world) : option exn :=
  match connects w with
  | Some e :: _ => Some e
  | _ => None
  end.

(** The world after a call of [connect] that failed: nothing was handed
    to the socket. *)
Definition after_refusal (w : world) : world :=
  {| frames := frames w; printed := printed w;
     connects := tail (connects w) |}.

(** The world after a connection was made and a frame handed to the
    socket. *)
Definition after_send (frame : list byte) (w : world) : world :=
  {| frames := frames w ++ [frame]; printed := printed w;
     connects := tail (connects w) |}.

(** What [send_command] returns for that frame once the connection is
    made. *)
Definition reply_of (net : transport) (frame : list byte) (w : world)
  : response :=
  match net (frames w ++ [frame]) with
  | Ok received => hex_items received
  | Raise e => RExn e
  end.

(** What [send_command] returns for that frame, and the world it leaves,
    whether the connection is made or not. *)
Definition returned (net : transport) (frame : list byte) (w : world)
  : response :=
  match refused w with
  | Some e => RExn e
  | None => reply_of net frame w
  end.

Definition after_call (frame : list byte) (w : world) : world :=
  match refused w with
  | Some _ => after_refusal w
  | None => after_send frame w
  end.

(** The frame of the fault query. *)
Definition fault_query : list byte := [x3b; x00; x00; x3b].

(** The world after a line has been printed. *)
Definition after_print (line : string) (w : world) : world :=
  {| frames := frames w; printed := printed w ++ [line];
     connects := connects w |}.

(** The frame of a command on a jet: opcode, length 00 01, the jet byte
    and the checksum. *)
Definition jet_frame (opcode jet : byte) : list byte :=
  [opcode; x00; x01; jet; byte_of_code (xor_bytes [opcode; x00; x01; jet])].

(** A reply that is no acknowledgement: an exception object, or a list
    whose first item is not 06. *)
Definition not_acknowledged (r : response) : Prop :=
  match r with
  | RExn _ => True
  | RList [] => False
  | RList (first :: _) => first ≠ "06"
  end.

(** The frames of the date query and of the parameter query. *)
Definition date_query : list byte := [xd6; x00; x00; xd6].
Definition parameter_query : list byte := [x20; x00; x00; x20].

(** A printer that answers the fault query (the first frame) with a reply
    without faults and every later frame with [reply]. *)
Definition healthy_then (reply : list byte) : transport :=
  λ sent,
    match sent with
    | [_] => Ok [x06; x00; x00; x00; x00; x00; x00; x00; x00; x00; x00; x00;
                 x00; x00; x00; x00; x00; x00; x00]
    | _ => Ok reply
    end.

(** A number 0 to 99 as one byte whose two hex digits are its two
    decimal digits (packed BCD). *)
Definition bcd (n : Z) : byte :=
  byte_of_code (Z.to_N (16 * (n / 10) + n mod 10)).

(** The six date bytes of the set command: seconds, minutes, hours, day,
    month, year in the century. *)
Definition date_bytes (d : datetime) : list byte :=
  map bcd [second d; minute d; hour d; day d; month d; (year d mod 100)%Z].

(** The seven payload bytes announced by the length field 00 07. *)
Definition date_payload (d : datetime) : list byte :=
  date_bytes d ++ [x20].

(** The frame of the set command. *)
Definition set_date_frame (d : datetime) : list byte :=
  let body := [xc8; x00; x07] ++ date_payload d in
  body ++ [byte_of_code (xor_bytes body)].

(** The twelve digits of a date as the reply must carry them: the hex
    digits of the six date bytes, as characters. *)
Definition date_digits (d : datetime) : text :=
  text_of (concat_strings (map hex2 (date_bytes d))).

(** A date and time to the second, naive: what the six printed fields
    determine. *)
Definition to_the_second (d : datetime) : datetime :=
  Datetime (year d) (month d) (day d) (hour d) (minute d) (second d) 0 None.

(** A group takes the two digits of a number in its range, whatever
    follows, when the rest of the expression matches what follows. *)
Definition takes_two_digits (g : group) (lo hi : Z) (n : Z) : Prop :=
  (lo <= n <= hi)%Z →
  ∀ (k : text → option (list text * text)) rest ms r',
    k rest = Some (ms, r') →
    first_some
      (λ a, match match_alternative a (text_of (hex2 (bcd n)) ++ rest) with
            | Some (m, r) =>
                match k r with
                | Some (ms, r') => Some (m :: ms, r')
                | None => None
                end
            | None => None
            end)
      g
    = Some (text_of (hex2 (bcd n)) :: ms, r').

(** The labels of the status bytes 0 to 7. *)
Definition status_labels : list string :=
  [ "Jet stopped"; "Jet in start-up phase"; "Jet in refresh";
    "Jet in stability check"; "Jet in solvent feed";
    "Jet in nozzle unclog"; "Adjustment"; "Jet running" ].

(** The two hex digits of a byte as numbers. *)
Definition high_digit (b : byte) : N := (Byte.to_N b / 16)%N.
Definition low_digit (b : byte) : N := (Byte.to_N b mod 16)%N.

(** The world after the advisory check of a jet operation that followed
    a fault query leaving the world [w1]: the warning is printed when the
    jet number is above the number of jets found. *)
Definition after_check (faults : gmap string ascii) (jet_id : Z)
    (warning : string) (w1 : world) : world :=
  if (jets_present faults <? jet_id)%Z then after_print warning w1 else w1.

(** The number written by a list of decimal digits, most significant
    first, and the ASCII bytes of those digits. *)
Definition digits_value (ds : list N) : N :=
  foldl (λ acc d, acc * 10 + d)%N 0%N ds.
Definition digit_bytes (ds : list N) : list byte :=
  map (λ d, byte_of_code (48 + d)) ds.

(** The frame of [set_external_variable] when fewer than 256 bytes
    follow the length field: 5B, the length bytes 00 and the number of
    bytes up to the checksum, the jet byte, each variable between two
    bytes 12, and the checksum. *)
Definition variables_frame (jet : byte) (variables : list (list byte))
  : list byte :=
  let body := jet :: flat_map (λ v, x12 :: v ++ [x12]) variables in
  let head := [x5b; x00; byte_of_code (N.of_nat (length body))] in
  (head ++ body) ++ [byte_of_code (xor_bytes (head ++ body))].

(** The ASCII bytes of a decimal field of the parameters: the digits
    before the comma, the comma, the digits after it. *)
Definition decimal_bytes (whole part : list N) : list byte :=
  digit_bytes whole ++ x2c :: digit_bytes part.

(** The number that such a field writes: its digits read as one number,
    over ten to the number of digits after the comma. *)
Definition decimal_value (whole part : list N) : pyfloat :=
  float_of_ratio (Z.of_N (digits_value (whole ++ part)))
                 (Z.to_pos (10 ^ Z.of_nat (length part))).

(** * Properties *)

(** ** Checksum and framing *)

Lemma lxor_below_256 (a b : N) :
  (a < 256 → b < 256 → N.lxor a b < 256)%N.
Proof.
  intros Ha Hb.
  destruct (N.eq_dec a 0%N) as [->|Ha0]; [by rewrite N.lxor_0_l|].
  destruct (N.eq_dec b 0%N) as [->|Hb0]; [by rewrite N.lxor_0_r|].
  destruct (N.eq_dec (N.lxor a b) 0%N) as [->|Hx]; [lia|].
  change 256%N with (2 ^ 8)%N in *.
  apply N.log2_lt_pow2; [lia|].
  apply N.log2_lt_pow2 in Ha; [|lia].
  apply N.log2_lt_pow2 in Hb; [|lia].
  pose proof (N.log2_lxor a b). lia.
Qed.

Lemma xor_bytes_from (B : list byte) (acc : N) :
  (acc < 256)%N →
  (foldl (λ acc b, N.lxor acc (Byte.to_N b)) acc B < 256)%N.
Proof.
  revert acc. induction B as [|b B IH]; intros acc Hacc; simpl; [done|].
  apply IH, lxor_below_256; [done|].
  pose proof (Byte.to_N_bounded b). lia.
Qed.

Lemma xor_bytes_below_256 (B : list byte) : (xor_bytes B < 256)%N.
Proof. apply xor_bytes_from. lia. Qed.

Lemma hex2_of_code (n : N) :
  (n < 256)%N → Utils.dec_to_hex (Z.of_N n) = hex2 (byte_of_code n).
Proof.
  intros Hn. unfold hex2, byte_of_code.
  destruct (Byte.of_N n) as [b|] eqn:Hb.
  - apply Byte.to_of_N in Hb. simpl. by rewrite Hb.
  - apply Byte.of_N_None_iff in Hb. lia.
Qed.

(** A pair of hex digits moves into the piece being read. *)
Lemma split_hex2 (b : byte) (s : string) :
  split_backslash_x (hex2 b +:+ s) "" = split_backslash_x s (hex2 b).
Proof. destruct b; reflexivity. Qed.

Lemma split_escape (B : list byte) (cur : string) :
  split_backslash_x (escape B) cur = cur :: map hex2 B.
Proof.
  revert cur. induction B as [|b B IH]; intros cur; [done|].
  change (escape (b :: B)) with (String "\" (String "x" (hex2 b +:+ escape B))).
  cbn [split_backslash_x]. by rewrite split_hex2, IH.
Qed.

Lemma int_hex2 (b : byte) :
  py_int 16 (text_of ("0x" +:+ hex2 b)) = Ok (Z.of_N (Byte.to_N b)).
Proof. destruct b; reflexivity. Qed.

Lemma checksum_fold (B : list byte) (acc : N) :
  foldl (λ acc hex_num,
           check ← acc;
           n ← py_int 16 (text_of ("0x" +:+ hex_num));
           Ok (Z.lxor check n))
        (Ok (Z.of_N acc)) (map hex2 B)
  = Ok (Z.of_N (foldl (λ acc b, N.lxor acc (Byte.to_N b)) acc B)).
Proof.
  revert acc. induction B as [|b B IH]; intros acc; [done|].
  cbn [map foldl]. rewrite int_hex2. cbn [mbind result_bind].
  rewrite <- N2Z.inj_lxor. apply IH.
Qed.

Lemma calculate_checksum_escape (B : list byte) :
  Utils.calculate_checksum (escape B)
  = Ok (escape B +:+ "\x" +:+ Utils.dec_to_hex (Z.of_N (xor_bytes B))).
Proof.
  unfold Utils.calculate_checksum. rewrite split_escape. cbn [tail].
  change (Ok 0%Z) with (Ok (A:=Z) (Z.of_N 0)).
  rewrite checksum_fold. reflexivity.
Qed.

Lemma string_app_cons (x : ascii) (a b : string) :
  String x a +:+ b = String x (a +:+ b).
Proof. reflexivity. Qed.

Lemma string_app_assoc (a b c : string) : (a +:+ b) +:+ c = a +:+ (b +:+ c).
Proof.
  induction a as [|x a IH]; [done|]. by rewrite !string_app_cons, IH.
Qed.

Lemma string_app_empty_r (a : string) : a +:+ "" = a.
Proof.
  induction a as [|x a IH]; [done|]. by rewrite string_app_cons, IH.
Qed.

Lemma concat_strings_app (l1 l2 : list string) :
  concat_strings (l1 ++ l2) = concat_strings l1 +:+ concat_strings l2.
Proof.
  induction l1 as [|s l1 IH]; [done|].
  cbn [app concat_strings]. by rewrite IH, string_app_assoc.
Qed.

Lemma escape_app (B C : list byte) : escape (B ++ C) = escape B +:+ escape C.
Proof. unfold escape. by rewrite map_app, concat_strings_app. Qed.

Lemma unescape_hex2 (b : byte) (s : string) :
  decode_unicode_escape (encode_utf8 (String "\" (String "x" (hex2 b +:+ s))))
  = cons (Byte.to_N b) <$> decode_unicode_escape (encode_utf8 s).
Proof. destruct b; reflexivity. Qed.

Lemma byte_of_code_to_N (b : byte) : byte_of_code (Byte.to_N b) = b.
Proof. unfold byte_of_code. by rewrite Byte.of_to_N. Qed.

Lemma to_N_byte_of_code (n : N) :
  (n < 256)%N → Byte.to_N (byte_of_code n) = n.
Proof.
  intros Hn. unfold byte_of_code.
  destruct (Byte.of_N n) as [b|] eqn:Hb.
  - by apply Byte.to_of_N in Hb.
  - apply Byte.of_N_None_iff in Hb. lia.
Qed.

Lemma string_to_byte_escape (B : list byte) :
  Utils.string_to_byte (escape B) = Ok B.
Proof.
  unfold Utils.string_to_byte.
  assert (decode_unicode_escape (encode_utf8 (escape B))
          = Ok (map Byte.to_N B)) as ->.
  { induction B as [|b B IH]; [done|].
    change (escape (b :: B))
      with (String "\" (String "x" (hex2 b +:+ escape B))).
    by rewrite unescape_hex2, IH. }
  cbn [fmap result_fmap]. f_equal.
  unfold encode_raw_unicode_escape.
  induction B as [|b B IH]; [done|].
  cbn [map flat_map]. rewrite IH.
  pose proof (Byte.to_N_bounded b) as Hb.
  destruct (Byte.to_N b <? 256)%N eqn:Hlt; [|apply N.ltb_ge in Hlt; lia].
  by rewrite byte_of_code_to_N.
Qed.

(** C1. For every byte sequence [B], written as a command of the module,
    [calculate_checksum] appends the XOR of all bytes of [B], taken in
    order from zero, as one more escaped byte, and the frame handed to the
    socket is [B] followed by that checksum byte.  The empty command gets
    checksum 0, and the stop command 30 00 01 00 is framed as
    30 00 01 00 31. *)
Theorem checksum_appends_xor (B : list byte) :
  Utils.calculate_checksum (escape B)
    = Ok (escape (B ++ [byte_of_code (xor_bytes B)]))
  ∧ (framed ← Utils.calculate_checksum (escape B);
     Utils.string_to_byte framed)
    = Ok (B ++ [byte_of_code (xor_bytes B)])
  ∧ Byte.to_N (byte_of_code (xor_bytes B)) = xor_bytes B
  ∧ xor_bytes [] = 0%N
  ∧ Utils.calculate_checksum "" = Ok "\x00"
  ∧ Utils.calculate_checksum "\x30\x00\x01\x00" = Ok "\x30\x00\x01\x00\x31"
  ∧ Utils.string_to_byte "\x30\x00\x01\x00\x31"
    = Ok [x30; x00; x01; x00; x31].
Proof.
  assert (Utils.calculate_checksum (escape B)
          = Ok (escape (B ++ [byte_of_code (xor_bytes B)]))) as Hsum.
  { rewrite calculate_checksum_escape, escape_app. do 2 f_equal.
    rewrite hex2_of_code by apply xor_bytes_below_256.
    unfold escape. cbn [map concat_strings].
    by rewrite string_app_empty_r. }
  split; [exact Hsum|]. split.
  { rewrite Hsum. cbn [mbind result_bind]. apply string_to_byte_escape. }
  split.
  { unfold byte_of_code.
    destruct (Byte.of_N (xor_bytes B)) as [b|] eqn:Hb.
    - by apply Byte.to_of_N in Hb.
    - apply Byte.of_N_None_iff in Hb.
      pose proof (xor_bytes_below_256 B). lia. }
  repeat split; reflexivity.
Qed.

(** ** Acknowledgement *)

Lemma hex2_is_06 (b : byte) : bool_decide (hex2 b = "06") = Byte.eqb b x06.
Proof. destruct b; reflexivity. Qed.

(** A reply of at least one byte is acknowledged exactly when its first
    byte is 06. *)
Lemma ack_of_reply (b : byte) (bs : list byte) :
  Utils.extract_response_code (hex_items (b :: bs)) = Ok (Byte.eqb b x06).
Proof.
  unfold hex_items. cbn [take map Utils.extract_response_code index].
  cbn. by rewrite hex2_is_06.
Qed.

(** A failure of the transport is no acknowledgement. *)
Lemma ack_of_exception (e : exn) :
  Utils.extract_response_code (RExn e) = Ok false.
Proof. reflexivity. Qed.

(** C2, at the input where the code leaves the claim.  [recv] returns no
    byte when the printer closes the connection; [send_command] then
    returns an empty list, and [extract_response_code] raises
    [IndexError] on its first item instead of returning [False]; the
    dialog check passes the exception on to its caller. *)
Theorem empty_response_raises :
  Utils.extract_response_code (hex_items []) = Raise IndexError
  ∧ (Printer.get_v24_dialog (λ _, Ok []) initial_world).1 = Raise IndexError.
Proof. split; reflexivity. Qed.

(** ** Jet speed *)

(** The decoder reads the two hex digits of byte 4 as a decimal
    number. *)
Lemma jet_speed_of_reply (h1 h2 h3 b : byte) (rest : list byte) :
  Printer.jet_speed_of (hex_items (x06 :: h1 :: h2 :: h3 :: b :: rest))
  = (speed ← py_float (text_of (hex2 b));
     Ok (true, Some (float_div speed 10))).
Proof.
  unfold Printer.jet_speed_of. rewrite ack_of_reply.
  reflexivity.
Qed.

(** C7, at the input where the code leaves the claim.  The raw byte 25
    arrives as the hex item ["19"], which [float] reads as nineteen: the
    speed returned is 1.9, not 2.5.  A byte with a hex letter, such as
    26 (["1a"]), raises [ValueError].  The raw byte 0 gives 0.0. *)
Theorem jet_speed_of_raw_25 :
  Printer.jet_speed_of (hex_items [x06; x00; x00; x00; x19])
    = Ok (true, Some (Fin (19 # 10)))
  ∧ Printer.jet_speed_of (hex_items [x06; x00; x00; x00; x1a])
    = Raise ValueError
  ∧ Printer.jet_speed_of (hex_items [x06; x00; x00; x00; x00])
    = Ok (true, Some (Fin 0)).
Proof. repeat split; reflexivity. Qed.

(** ** The exchange *)

Lemma returned_connected (net : transport) (frame : list byte) (w : world) :
  refused w = None →
  returned net frame w = reply_of net frame w
  ∧ after_call frame w = after_send frame w.
Proof. unfold returned, after_call. by intros ->. Qed.

Lemma returned_refused (net : transport) (frame : list byte) (w : world)
    (e : exn) :
  refused w = Some e →
  returned net frame w = RExn e ∧ after_call frame w = after_refusal w.
Proof. unfold returned, after_call. by intros ->. Qed.

Lemma send_command_frame (net : transport) (command : string)
    (frame : list byte) (w : world) :
  Utils.string_to_byte command = Ok frame →
  Printer.send_command net command w
  = (Ok (returned net frame w), after_call frame w).
Proof.
  intros Hframe.
  unfold Printer.send_command, returned, after_call, refused, reply_of,
    after_send, after_refusal.
  rewrite Hframe. cbn [frames].
  destruct (connects w) as [|[e|] later]; try reflexivity;
    by destruct (net _).
Qed.

Lemma send_checked_frame (net : transport) (command : string)
    (frame : list byte) (w : world) :
  frame_of command = Ok frame →
  Printer.send_checked net command w
  = (Ok (returned net frame w), after_call frame w).
Proof.
  unfold frame_of, Printer.send_checked. intros Hframe.
  destruct (Utils.calculate_checksum command) as [framed|e] eqn:Hsum;
    [|discriminate].
  cbn [mbind result_bind] in Hframe.
  unfold mbind, M_bind, lift.
  by apply send_command_frame.
Qed.

(** ** Fault decoding *)

Lemma bin_item (b : byte) :
  (n ← py_int 16 (text_of (hex2 b)); Ok (zfill 8 (bin_tail n)))
  = Ok (bits8 b).
Proof. destruct b; reflexivity. Qed.

Lemma bits_of_reply (bs : list byte) :
  result_mapM (λ i, n ← py_int 16 (text_of i); Ok (zfill 8 (bin_tail n)))
              (map hex2 bs)
  = Ok (map bits8 bs).
Proof.
  induction bs as [|b bs IH]; [done|].
  cbn [map result_mapM]. rewrite bin_item. cbn [mbind result_bind].
  by rewrite IH.
Qed.

Ltac run_fault_decoder :=
  unfold Printer.printer_faults_of; rewrite ack_of_reply;
  change (Byte.eqb x06 x06) with true; cbn [mbind result_bind];
  unfold hex_items, resp_items; cbn [mbind result_bind];
  rewrite bits_of_reply; cbn [mbind result_bind].

(** The decoder agrees with the two tables on every acknowledged reply of
    nineteen bytes or more. *)
Lemma printer_faults_of_full
    (h1 h2 h3 p0 p1 p2 p3 p4 p5 p6 p7 p8 p9 p10 p11 p12 p13 p14 : byte)
    (rest : list byte) :
  Printer.printer_faults_of
    (hex_items (x06 :: h1 :: h2 :: h3 :: p0 :: p1 :: p2 :: p3 :: p4 :: p5
                :: p6 :: p7 :: p8 :: p9 :: p10 :: p11 :: p12 :: p13 :: p14
                :: rest))
  = Ok (true, Some (faults_by_table
                      [p0; p1; p2; p3; p4; p5; p6; p7; p8; p9; p10; p11;
                       p12; p13; p14])).
Proof. run_fault_decoder. reflexivity. Qed.

(** An acknowledged reply of fewer than nineteen bytes makes an index
    fail. *)
Lemma printer_faults_of_short (bs : list byte) :
  (length bs < 18)%nat →
  Printer.printer_faults_of (hex_items (x06 :: bs)) = Raise IndexError.
Proof.
  intros Hlen.
  do 18 (destruct bs as [|? bs];
         [run_fault_decoder; reflexivity|]).
  simpl in Hlen. lia.
Qed.

Lemma get_printer_faults_eq (net : transport) (w : world) :
  Printer.get_printer_faults net w
  = (Printer.printer_faults_of (returned net fault_query w),
     after_call fault_query w).
Proof.
  unfold Printer.get_printer_faults, mbind, M_bind.
  by rewrite (send_command_frame net _ fault_query).
Qed.

Lemma bit_char_cases (b : byte) (i : N) :
  bit_char b i = "0"%char ∨ bit_char b i = "1"%char.
Proof. unfold bit_char. destruct (N.testbit _ _); auto. Qed.

Lemma fault_entries_keys (payload : list byte) :
  (fault_entries payload).*1 = fault_names.
Proof. reflexivity. Qed.

Lemma fault_names_NoDup : NoDup fault_names.
Proof. apply (bool_decide_unpack _). by vm_compute. Qed.

Lemma faults_by_table_dom (payload : list byte) :
  dom (faults_by_table payload) = list_to_set fault_names.
Proof.
  unfold faults_by_table.
  by rewrite dom_list_to_map_L, fault_entries_keys.
Qed.

Lemma faults_by_table_values (payload : list byte) (key : string) (v : ascii) :
  faults_by_table payload !! key = Some v → v = "0"%char ∨ v = "1"%char.
Proof.
  intros Hin. apply elem_of_list_to_map_2 in Hin.
  assert (Forall (λ kv : string * ascii, kv.2 = "0"%char ∨ kv.2 = "1"%char)
                 (fault_entries payload)) as Hall.
  { unfold fault_entries, table_entries.
    cbn [map flat_map app device_fault_table jet_fault_table].
    repeat (constructor; [apply bit_char_cases|]). constructor. }
  rewrite Forall_forall in Hall. exact (Hall _ Hin).
Qed.

(** The two outcomes of the decoder on an acknowledged reply. *)
Lemma printer_faults_of_acked (bs : list byte) :
  Printer.printer_faults_of (hex_items (x06 :: bs))
  = if decide (length bs < 18)%nat then Raise IndexError
    else Ok (true, Some (faults_by_table (take 15 (drop 3 bs)))).
Proof.
  destruct (decide (length bs < 18)%nat) as [Hshort|Hlong].
  - by apply printer_faults_of_short.
  - do 18 (destruct bs as [|? bs]; [simpl in Hlong; lia|]).
    apply printer_faults_of_full.
Qed.

(** A reply that is an exception, or starts with another byte than 06, is
    a failed query. *)
Lemma printer_faults_of_exception (e : exn) :
  Printer.printer_faults_of (RExn e) = Ok (false, None).
Proof. reflexivity. Qed.

Lemma printer_faults_of_nack (b : byte) (bs : list byte) :
  Byte.eqb b x06 = false →
  Printer.printer_faults_of (hex_items (b :: bs)) = Ok (false, None).
Proof.
  intros Hb. unfold Printer.printer_faults_of.
  by rewrite ack_of_reply, Hb.
Qed.

(** Every outcome of the fault query: an exception object or a reply that
    does not start with 06 is a failure without value, an empty reply and
    a short acknowledged reply raise [IndexError], a full acknowledged
    reply gives the dictionary of the tables. *)
Lemma printer_faults_of_reply (net : transport) (frame : list byte) (w : world) :
  let r := Printer.printer_faults_of (reply_of net frame w) in
  r = Ok (false, None)
  ∨ r = Raise IndexError
  ∨ ∃ bs, net (frames w ++ [frame]) = Ok (x06 :: bs)
          ∧ (18 <= length bs)%nat
          ∧ r = Ok (true, Some (faults_by_table (take 15 (drop 3 bs)))).
Proof.
  unfold reply_of. destruct (net _) as [received|e]; [|by left].
  destruct received as [|b bs]; [by right; left|].
  destruct (Byte.eqb b x06) eqn:Hb.
  - apply Byte.byte_dec_bl in Hb as ->. cbn zeta.
    rewrite printer_faults_of_acked.
    destruct (decide (length bs < 18)%nat); [by right; left|].
    right; right. exists bs. split; [done|]. split; [lia|done].
  - left. by apply printer_faults_of_nack.
Qed.

(** The same outcomes when the connection may be refused: a refusal is a
    failure without value. *)
Lemma printer_faults_of_returned (net : transport) (frame : list byte)
    (w : world) :
  let r := Printer.printer_faults_of (returned net frame w) in
  r = Ok (false, None)
  ∨ r = Raise IndexError
  ∨ ∃ bs, refused w = None
          ∧ net (frames w ++ [frame]) = Ok (x06 :: bs)
          ∧ (18 <= length bs)%nat
          ∧ r = Ok (true, Some (faults_by_table (take 15 (drop 3 bs)))).
Proof.
  unfold returned. destruct (refused w) as [e|] eqn:Hconnect; [by left|].
  destruct (printer_faults_of_reply net frame w)
    as [Hr|[Hr|(bs & Hnet & Hlen & Hr)]]; [by left|by right; left|].
  right; right. by exists bs.
Qed.

(** The claim C4 fails where it names the failure: an acknowledged reply
    of five bytes makes [get_printer_faults] raise [IndexError] to its
    caller.  The module has no error kind of its own for a malformed
    field, and the operation does not return a failed result either.  The
    values of a complete dictionary are the characters 0 and 1, not
    Booleans. *)
Lemma short_fault_reply_is_raised :
  let short : transport := λ _, Ok [x06; x00; x00; x00; x01] in
  let full : transport :=
    λ _, Ok [x06; x00; x00; x00; x01; x00; x00; x00; x00; x00; x00; x00;
             x00; x00; x00; x00; x00; x00; x00] in
  Printer.get_printer_faults short initial_world
  = (Raise IndexError, after_send fault_query initial_world)
  ∧ (Printer.get_printer_faults short initial_world).1 ≠ Ok (false, None)
  ∧ ∃ faults,
      (Printer.get_printer_faults full initial_world).1
      = Ok (true, Some faults)
      ∧ faults !! "ink_level_low" = Some "1"%char
      ∧ faults !! "pressure_error" = Some "0"%char.
Proof.
  intros short full. split; [reflexivity|]. split; [discriminate|].
  eexists. split; [reflexivity|]. split; reflexivity.
Qed.

(** C4, as the code has it.  When the connection is made and the fault
    query is answered by an acknowledged reply, [get_printer_faults]
    either returns the complete dictionary or raises: a reply of nineteen
    bytes (or more) gives a dictionary whose keys are exactly the 19 names
    of the printer and the 14 names of each of the four jets, every value
    the character 0 or 1; a shorter reply raises [IndexError] to the
    caller, the failure of a field that is not there, and no dictionary is
    returned. *)
Theorem fault_decoding_total_or_rejected
    (net : transport) (w : world) (bs : list byte) :
  refused w = None →
  net (frames w ++ [fault_query]) = Ok (x06 :: bs) →
  let faults := faults_by_table (take 15 (drop 3 bs)) in
  Printer.get_printer_faults net w
  = (if decide (length bs < 18)%nat then Raise IndexError
     else Ok (true, Some faults),
     after_send fault_query w)
  ∧ dom faults = list_to_set fault_names
  ∧ length fault_names = 75%nat
  ∧ NoDup fault_names
  ∧ (∀ key v, faults !! key = Some v → v = "0"%char ∨ v = "1"%char).
Proof.
  intros Hconnect Hnet faults. split.
  - rewrite get_printer_faults_eq.
    destruct (returned_connected net fault_query w Hconnect) as [-> ->].
    f_equal. unfold reply_of. rewrite Hnet. apply printer_faults_of_acked.
  - split; [apply faults_by_table_dom|].
    split; [reflexivity|].
    split; [apply fault_names_NoDup|].
    apply faults_by_table_values.
Qed.

(** The theorem at a reply of nineteen bytes without any fault and at a
    reply of two bytes. *)
Lemma fault_decoding_total_or_rejected_witness :
  let full := [x00; x00; x00; x00; x00; x00; x00; x00; x00; x00; x00; x00;
               x00; x00; x00; x00; x00; x00] in
  let short := [x00] in
  refused initial_world = None
  ∧ ((λ _, Ok (x06 :: full)) : transport) (frames initial_world ++ [fault_query])
    = Ok (x06 :: full)
  ∧ Printer.get_printer_faults (λ _, Ok (x06 :: full)) initial_world
    = (Ok (true, Some (faults_by_table (take 15 (drop 3 full)))),
       after_send fault_query initial_world)
  ∧ Printer.get_printer_faults (λ _, Ok (x06 :: short)) initial_world
    = (Raise IndexError, after_send fault_query initial_world).
Proof.
  intros full short. split; [reflexivity|]. split; [reflexivity|]. split.
  - exact (proj1 (fault_decoding_total_or_rejected
                    (λ _, Ok (x06 :: full)) initial_world full
                    eq_refl eq_refl)).
  - exact (proj1 (fault_decoding_total_or_rejected
                    (λ _, Ok (x06 :: short)) initial_world short
                    eq_refl eq_refl)).
Defined.

(** ** Keys of the jets *)

(** Each jet fault of jet [jet_id] (0 to 3) stands under the key
    [j<jet_id>_...] and is read from the three bytes of the reply that
    start at byte 7 + 3 * [jet_id]. *)
Lemma jet_keys_of_table
    (h1 h2 h3 p0 p1 p2 p3 p4 p5 p6 p7 p8 p9 p10 p11 p12 p13 p14 : byte)
    (rest : list byte) (jet_id : nat) :
  (jet_id < 4)%nat →
  let payload := [p0; p1; p2; p3; p4; p5; p6; p7; p8; p9; p10; p11; p12;
                  p13; p14] in
  let reply := x06 :: h1 :: h2 :: h3 :: payload ++ rest in
  Forall (λ e : string * nat * N,
            faults_by_table payload !! jet_key jet_id e.1.1
            = Some (bit_char (nth_byte reply (7 + 3 * jet_id + e.1.2)) e.2))
         jet_fault_table.
Proof.
  intros Hjet payload reply. subst payload reply.
  destruct jet_id as [|[|[|[|?]]]]; [..|lia];
    repeat (constructor; [reflexivity|]); constructor.
Qed.

(** No key is made for a jet 4. *)
Lemma no_key_of_jet_4 (payload : list byte) (name : string) :
  faults_by_table payload !! jet_key 4 name = None.
Proof.
  apply not_elem_of_dom. rewrite faults_by_table_dom, elem_of_list_to_set.
  intros Hin.
  assert (Forall (λ k, String.prefix "j4" k = false) fault_names) as Hall.
  { apply (bool_decide_unpack _). by vm_compute. }
  rewrite Forall_forall in Hall. apply Hall in Hin.
  change (jet_key 4 name) with (String "j" (String "4" name)) in Hin.
  cbn in Hin. by destruct name.
Qed.

(** A successful fault query was answered by an acknowledged reply of at
    least nineteen bytes, and returns the dictionary of the tables. *)
Lemma get_printer_faults_success
    (net : transport) (w w' : world) (faults : gmap string ascii) :
  Printer.get_printer_faults net w = (Ok (true, Some faults), w') →
  ∃ h1 h2 h3 p0 p1 p2 p3 p4 p5 p6 p7 p8 p9 p10 p11 p12 p13 p14 rest,
    net (frames w ++ [fault_query])
    = Ok (x06 :: h1 :: h2 :: h3 :: p0 :: p1 :: p2 :: p3 :: p4 :: p5 :: p6
          :: p7 :: p8 :: p9 :: p10 :: p11 :: p12 :: p13 :: p14 :: rest)
    ∧ faults = faults_by_table [p0; p1; p2; p3; p4; p5; p6; p7; p8; p9;
                                p10; p11; p12; p13; p14]
    ∧ w' = after_send fault_query w.
Proof.
  rewrite get_printer_faults_eq. intros Heq.
  injection Heq as Hres Hw.
  destruct (printer_faults_of_returned net fault_query w)
    as [Hr|[Hr|(bs & Hconnect & Hnet & Hlen & Hr)]];
    rewrite Hr in Hres; try discriminate.
  injection Hres as <-.
  destruct (returned_connected net fault_query w Hconnect) as [_ Hw'].
  rewrite Hw' in Hw.
  do 18 (destruct bs as [|? bs]; [simpl in Hlen; lia|]).
  repeat eexists; [exact Hnet|done].
Qed.

Ltac abstract_bits :=
  repeat match goal with
         | |- context [bit_char ?b ?i] =>
             let c := fresh "c" in
             generalize (bit_char b i); intro c
         end.

(** On a dictionary of the tables the loop counts the jets whose
    [not_present] bit is 0. *)
Lemma count_not_present_table
    (p0 p1 p2 p3 p4 p5 p6 p7 p8 p9 p10 p11 p12 p13 p14 : byte) :
  let faults := faults_by_table
                  [p0; p1; p2; p3; p4; p5; p6; p7; p8; p9; p10; p11; p12;
                   p13; p14] in
  Printer.count_not_present faults = Ok (jets_present faults).
Proof.
  intros faults. subst faults.
  unfold faults_by_table, fault_entries, table_entries.
  cbn [slice take drop Nat.sub Nat.add Nat.mul map flat_map app
       device_fault_table jet_fault_table fst snd nth_byte lookup
       list_lookup default].
  unfold id.
  pose proof (bit_char_cases p5 0) as H0.
  pose proof (bit_char_cases p8 0) as H1.
  pose proof (bit_char_cases p11 0) as H2.
  pose proof (bit_char_cases p14 0) as H3.
  revert H0 H1 H2 H3. abstract_bits.
  intros [-> | ->] [-> | ->] [-> | ->] [-> | ->];
    vm_compute; reflexivity.
Qed.

(** C10. After every successful [get_printer_faults] the entries of the
    jets stand under the keys [j0_...] to [j3_...]: for the jet index
    0 to 3, each of the fourteen faults is the bit of the table in the
    three-byte window that starts at byte 7 + 3 * index of the reply.  The
    jet that is the first on the printer is therefore found under [j0_],
    the fourth under [j3_], and no key starts with [j4]. *)
Theorem jet_keys_are_zero_based
    (net : transport) (w w' : world) (faults : gmap string ascii) :
  Printer.get_printer_faults net w = (Ok (true, Some faults), w') →
  ∃ reply,
    net (frames w ++ [fault_query]) = Ok reply
    ∧ (∀ jet_id, (jet_id < 4)%nat →
         Forall (λ e : string * nat * N,
                   faults !! jet_key jet_id e.1.1
                   = Some (bit_char (nth_byte reply (7 + 3 * jet_id + e.1.2))
                                    e.2))
                jet_fault_table)
    ∧ (∀ name, faults !! jet_key 4 name = None)
    ∧ map (λ jet_id, jet_key jet_id "_not_present") [0; 1; 2; 3]%nat
      = ["j0_not_present"; "j1_not_present"; "j2_not_present";
         "j3_not_present"].
Proof.
  intros Hok.
  destruct (get_printer_faults_success _ _ _ _ Hok)
    as (h1 & h2 & h3 & p0 & p1 & p2 & p3 & p4 & p5 & p6 & p7 & p8 & p9
        & p10 & p11 & p12 & p13 & p14 & rest & Hnet & -> & _).
  eexists. split; [exact Hnet|]. split.
  - intros jet_id Hjet.
    exact (jet_keys_of_table h1 h2 h3 p0 p1 p2 p3 p4 p5 p6 p7 p8 p9 p10
             p11 p12 p13 p14 rest jet_id Hjet).
  - split; [apply no_key_of_jet_4|reflexivity].
Qed.

(** The theorem at a reply whose last byte reports the fourth jet as not
    present: the bit is found under [j3_not_present]. *)
Lemma jet_keys_are_zero_based_witness :
  let reply := [x06; x00; x00; x00; x00; x00; x00; x00; x00; x00; x00; x00;
                x00; x00; x00; x00; x00; x00; x01] in
  let net : transport := λ _, Ok reply in
  let faults := faults_by_table (take 15 (drop 4 reply)) in
  Printer.get_printer_faults net initial_world
    = (Ok (true, Some faults), after_send fault_query initial_world)
  ∧ faults !! "j3_not_present" = Some "1"%char
  ∧ faults !! "j4_not_present" = None.
Proof.
  intros reply net faults.
  assert (Printer.get_printer_faults net initial_world
          = (Ok (true, Some faults), after_send fault_query initial_world))
    as Hok by reflexivity.
  split; [exact Hok|].
  destruct (jet_keys_are_zero_based net initial_world _ faults Hok)
    as (reply' & Hnet & Hkeys & Hnone & _).
  split; [reflexivity|].
  exact (Hnone "_not_present").
Defined.

(** ** Number of available jets *)

Lemma get_number_of_available_jets_eq (net : transport) (w : world) :
  Printer.get_number_of_available_jets net w
  = match Printer.get_printer_faults net w with
    | (Ok (true, Some faults), w') =>
        (match Printer.count_not_present faults with
         | Ok count => Ok (true, Some count)
         | Raise e => Raise e
         end, w')
    | (Ok (true, None), w') => (Raise AttributeError, w')
    | (Ok (false, _), w') => (Ok (false, None), w')
    | (Raise e, w') => (Raise e, w')
    end.
Proof.
  unfold Printer.get_number_of_available_jets, mbind, M_bind.
  destruct (Printer.get_printer_faults net w) as [[[[|] [faults|]]|e] w'];
    try reflexivity.
  unfold lift. by destruct (Printer.count_not_present faults).
Qed.

(** C8. [get_number_of_available_jets] follows the fault query: when the
    query succeeds it succeeds with the number of jets, among the four,
    whose [not_present] entry is 0; when the query fails it fails without
    a count; and the query never succeeds without a dictionary. *)
Theorem available_jets_counts_present (net : transport) (w : world) :
  match Printer.get_printer_faults net w with
  | (Ok (true, Some faults), w') =>
      Printer.get_number_of_available_jets net w
      = (Ok (true, Some (jets_present faults)), w')
  | (Ok (true, None), _) => False
  | (Ok (false, _), w') =>
      Printer.get_number_of_available_jets net w = (Ok (false, None), w')
  | (Raise e, w') =>
      Printer.get_number_of_available_jets net w = (Raise e, w')
  end.
Proof.
  rewrite get_number_of_available_jets_eq.
  destruct (Printer.get_printer_faults net w)
    as [[[[|] [faults|]]|e] w'] eqn:Hq; try reflexivity.
  - destruct (get_printer_faults_success _ _ _ _ Hq)
      as (h1 & h2 & h3 & p0 & p1 & p2 & p3 & p4 & p5 & p6 & p7 & p8 & p9
          & p10 & p11 & p12 & p13 & p14 & rest & _ & -> & _).
    by rewrite count_not_present_table.
  - rewrite get_printer_faults_eq in Hq. injection Hq as Hr _.
    destruct (printer_faults_of_returned net fault_query w)
      as [Hc|[Hc|(bs & _ & _ & _ & Hc)]];
      rewrite Hc in Hr; discriminate.
Qed.

(** ** Text windows *)

Lemma fromhex_hex2 (b : byte) (s : string) :
  fromhex (text_of (hex2 b +:+ s)) = cons b <$> fromhex (text_of s).
Proof. destruct b; reflexivity. Qed.

(** Joining the hex items of some bytes and reading them back with
    [hex_to_text] is decoding the bytes as UTF-8. *)
Lemma hex_to_text_items (bs : list byte) :
  Utils.hex_to_text (concat_strings (map hex2 bs))
  = decode_utf8 (map Byte.to_N bs).
Proof.
  unfold Utils.hex_to_text.
  assert (fromhex (text_of (concat_strings (map hex2 bs))) = Ok bs) as ->.
  { induction bs as [|b bs IH]; [done|].
    cbn [map concat_strings]. by rewrite fromhex_hex2, IH. }
  reflexivity.
Qed.

(** The window [response[4:j]] of an acknowledged reply holds the hex
    items of the bytes 4 to j - 1. *)
Lemma window_of_reply (h0 h1 h2 h3 : byte) (payload : list byte) (n : nat) :
  (n <= 1020)%nat →
  resp_slice 4 (4 + n) (hex_items (h0 :: h1 :: h2 :: h3 :: payload))
  = Ok (map hex2 (take n payload)).
Proof.
  intros Hn. unfold resp_slice, hex_items, resp_items, slice.
  cbn [fmap result_fmap]. f_equal.
  replace (4 + n - 4)%nat with n by lia.
  change (take 1024 (h0 :: h1 :: h2 :: h3 :: payload))
    with (h0 :: h1 :: h2 :: h3 :: take 1020 payload).
  cbn [map drop]. rewrite drop_0, firstn_map. f_equal.
  rewrite take_take. f_equal. lia.
Qed.

(** ** The advisory check on the jet number *)

Lemma warn_if_unknown_jet_eq
    (net : transport) (jet_id : Z) (warning : string) (w : world) :
  Printer.warn_if_unknown_jet net jet_id warning w
  = match Printer.get_number_of_available_jets net w with
    | (Ok (_, Some count), w1) =>
        (Ok tt, if (count <? jet_id)%Z then after_print warning w1 else w1)
    | (Ok (_, None), w1) => (Raise TypeError, w1)
    | (Raise e, w1) => (Raise e, w1)
    end.
Proof.
  unfold Printer.warn_if_unknown_jet, mbind, M_bind.
  destruct (Printer.get_number_of_available_jets net w)
    as [[[ok [count|]]|e] w1]; try reflexivity.
  cbn. by destruct (count <? jet_id)%Z.
Qed.

(** After a successful fault query the check lets the operation go on,
    with a warning when the jet number is above the number of jets
    found. *)
Lemma warn_after_discovery
    (net : transport) (jet_id : Z) (warning : string) (w w1 : world)
    (faults : gmap string ascii) :
  Printer.get_printer_faults net w = (Ok (true, Some faults), w1) →
  Printer.warn_if_unknown_jet net jet_id warning w
  = (Ok tt, if (jets_present faults <? jet_id)%Z
            then after_print warning w1 else w1).
Proof.
  intros Hq. rewrite warn_if_unknown_jet_eq, get_number_of_available_jets_eq.
  rewrite Hq.
  destruct (get_printer_faults_success _ _ _ _ Hq)
    as (h1 & h2 & h3 & p0 & p1 & p2 & p3 & p4 & p5 & p6 & p7 & p8 & p9
        & p10 & p11 & p12 & p13 & p14 & rest & _ & -> & _).
  by rewrite count_not_present_table.
Qed.

(** After a failed fault query the check raises [TypeError]: the number
    of jets is [None] and cannot be compared. *)
Lemma warn_after_failed_discovery
    (net : transport) (jet_id : Z) (warning : string) (w w1 : world)
    (value : option (gmap string ascii)) :
  Printer.get_printer_faults net w = (Ok (false, value), w1) →
  Printer.warn_if_unknown_jet net jet_id warning w = (Raise TypeError, w1).
Proof.
  intros Hq. rewrite warn_if_unknown_jet_eq, get_number_of_available_jets_eq.
  by rewrite Hq.
Qed.

Lemma after_warning {A} (net : transport) (jet_id : Z) (warning : string)
    (k : M A) (w : world) :
  (Printer.warn_if_unknown_jet net jet_id warning ≫= λ _, k) w
  = match Printer.warn_if_unknown_jet net jet_id warning w with
    | (Ok _, w1) => k w1
    | (Raise e, w1) => (Raise e, w1)
    end.
Proof. reflexivity. Qed.

Lemma after_exchange {A} (net : transport) (command : string)
    (frame : list byte) (decode : response → result A) (w : world) :
  frame_of command = Ok frame →
  (Printer.send_checked net command ≫= λ r, lift (decode r)) w
  = (decode (returned net frame w), after_call frame w).
Proof.
  intros Hframe. unfold mbind at 1. unfold M_bind.
  by rewrite (send_checked_frame net command frame w Hframe).
Qed.

(** The acknowledgement of what the transport gives for a frame. *)
Lemma ack_of_reply_of (net : transport) (frame : list byte) (w : world) :
  Utils.extract_response_code (reply_of net frame w)
  = match net (frames w ++ [frame]) with
    | Raise _ => Ok false
    | Ok [] => Raise IndexError
    | Ok (b :: _) => Ok (Byte.eqb b x06)
    end.
Proof.
  unfold reply_of. destruct (net _) as [[|b bs]|e]; try reflexivity.
  apply ack_of_reply.
Qed.

(** An operation that decodes nothing but the acknowledgement. *)
Lemma status_of_exchange (net : transport) (frame : list byte) (w : world) :
  (Utils.extract_response_code (returned net frame w), after_call frame w)
  = match refused w with
    | Some _ => (Ok false, after_refusal w)
    | None =>
        (match net (frames w ++ [frame]) with
         | Raise _ => Ok false
         | Ok [] => Raise IndexError
         | Ok (b :: _) => Ok (Byte.eqb b x06)
         end, after_send frame w)
    end.
Proof.
  unfold returned, after_call. destruct (refused w); [done|].
  by rewrite ack_of_reply_of.
Qed.

Lemma after_command {A} (net : transport) (command : string)
    (frame : list byte) (decode : response → result A) (w : world) :
  Utils.string_to_byte command = Ok frame →
  (Printer.send_command net command ≫= λ r, lift (decode r)) w
  = (decode (returned net frame w), after_call frame w).
Proof.
  intros Hframe. unfold mbind at 1. unfold M_bind.
  by rewrite (send_command_frame net command frame w Hframe).
Qed.

(** The outcome of an exchange, decoded, by the outcome of [connect]. *)
Lemma decoded_exchange {A} (net : transport) (frame : list byte)
    (decode : response → result A) (failed : A) (w : world) :
  (∀ e, decode (RExn e) = Ok failed) →
  (decode (returned net frame w), after_call frame w)
  = match refused w with
    | Some _ => (Ok failed, after_refusal w)
    | None => (decode (reply_of net frame w), after_send frame w)
    end.
Proof.
  intros Hfailed. unfold returned, after_call.
  destruct (refused w); [by rewrite Hfailed|done].
Qed.

Lemma frame_of_jet_command (jet : byte) :
  frame_of ("\x39\x00\x01\x" +:+ hex2 jet) = Ok (jet_frame x39 jet)
  ∧ frame_of ("\x3A\x00\x01\x" +:+ hex2 jet) = Ok (jet_frame x3a jet)
  ∧ frame_of ("\x32\x00\x01\x" +:+ hex2 jet) = Ok (jet_frame x32 jet)
  ∧ frame_of ("\x33\x00\x01\x" +:+ hex2 jet) = Ok (jet_frame x33 jet)
  ∧ frame_of ("\x30\x00\x01\x" +:+ hex2 jet) = Ok (jet_frame x30 jet).
Proof. destruct jet; repeat split; reflexivity. Qed.

(** C9, at the input where the code leaves the claim.  The printer
    answers every frame with the single byte 15: the fault query made by
    the advisory check is not acknowledged, the number of jets is [None],
    and comparing the jet number with it raises [TypeError].  Each of the
    four operations stops there: the only frame handed to the socket is
    the fault query, the command of the operation is never framed or
    sent.  The same happens when the socket itself fails. *)
Theorem advisory_check_raises_without_jet_count :
  let nack : transport := λ _, Ok [x15] in
  let down : transport := λ _, Raise OSError in
  let w := after_send fault_query initial_world in
  Printer.get_jet_status nack 1 initial_world = (Raise TypeError, w)
  ∧ Printer.get_jet_counter nack 1 initial_world = (Raise TypeError, w)
  ∧ Printer.reset_jet_counter nack 1 initial_world = (Raise TypeError, w)
  ∧ Printer.set_external_variable nack 1 [text_of "A"] initial_world
    = (Raise TypeError, w)
  ∧ Printer.get_jet_status down 1 initial_world = (Raise TypeError, w)
  ∧ Printer.get_jet_counter down 1 initial_world = (Raise TypeError, w)
  ∧ Printer.reset_jet_counter down 1 initial_world = (Raise TypeError, w)
  ∧ Printer.set_external_variable down 1 [text_of "A"] initial_world
    = (Raise TypeError, w).
Proof. repeat split; reflexivity. Qed.

(** ** Failures at the boundary of an operation *)

Lemma ack_of_not_acknowledged (r : response) :
  not_acknowledged r → Utils.extract_response_code r = Ok false.
Proof.
  destruct r as [[|first items]|e]; cbn; [done| |done].
  intros Hfirst. by rewrite bool_decide_eq_false_2.
Qed.

Lemma bind_ok_inv {A B} (m : M A) (k : A → M B) (w w' : world) (b : B) :
  (m ≫= k) w = (Ok b, w') →
  ∃ a w1, m w = (Ok a, w1) ∧ k a w1 = (Ok b, w').
Proof.
  unfold mbind, M_bind. destruct (m w) as [[a|e] w1]; [|discriminate].
  intros Hk. by exists a, w1.
Qed.

Lemma lift_ok_inv {A} (r : result A) (w w' : world) (a : A) :
  lift r w = (Ok a, w') → r = Ok a.
Proof. unfold lift. by intros [= -> _]. Qed.

Lemma get_autodating_table_eq (net : transport) (w : world) :
  Printer.get_autodating_table net w
  = (Printer.autodating_table_of (returned net date_query w),
     after_call date_query w).
Proof.
  unfold Printer.get_autodating_table, mbind, M_bind.
  by rewrite (send_command_frame net _ date_query).
Qed.

(** ** Date and time *)

(** A property of the numbers 0 to 99 can be checked on each of them. *)
Lemma below_100 (P : Z → Prop) :
  Forall P (map Z.of_nat (seq 0 100)) →
  ∀ n, (0 <= n < 100)%Z → P n.
Proof.
  intros Hall n Hn. rewrite Forall_forall in Hall. apply Hall.
  apply list_elem_of_In, in_map_iff. exists (Z.to_nat n). split; [lia|].
  apply in_seq. lia.
Qed.

Lemma two_digits_bcd (n : Z) :
  (0 <= n < 100)%Z → format_d 2 (Z.to_N n) = hex2 (bcd n).
Proof.
  revert n. apply below_100.
  apply (bool_decide_unpack _). by vm_compute.
Qed.

Lemma int_of_bcd (n : Z) :
  (0 <= n < 100)%Z → py_int 10 (text_of (hex2 (bcd n))) = Ok n.
Proof.
  revert n. apply below_100.
  repeat (constructor; [reflexivity|]). constructor.
Qed.

Lemma text_of_app (a b : string) : text_of (a +:+ b) = text_of a ++ text_of b.
Proof.
  induction a as [|c a IH]; [done|].
  rewrite string_app_cons. unfold text_of in *. cbn [list_ascii_of_string map].
  by rewrite IH.
Qed.

(** One step of [match_groups]: the alternatives of a group are tried in
    order, each followed by the rest of the expression. *)
Lemma match_groups_cons (g : group) (gs : list group) (s : text) :
  match_groups (g :: gs) s
  = first_some
      (λ a, match match_alternative a s with
            | Some (m, r) =>
                match match_groups gs r with
                | Some (ms, r') => Some (m :: ms, r')
                | None => None
                end
            | None => None
            end)
      g.
Proof. reflexivity. Qed.

Ltac check_two_digits :=
  apply below_100;
  repeat (constructor;
          [intros Hrange k rest ms r' Hk;
           first [lia | vm_compute; rewrite Hk; reflexivity]|]);
  constructor.

Lemma group_S_two_digits (n : Z) :
  (0 <= n < 100)%Z → takes_two_digits re_S 0 59 n.
Proof. revert n. check_two_digits. Qed.

Lemma group_M_two_digits (n : Z) :
  (0 <= n < 100)%Z → takes_two_digits re_M 0 59 n.
Proof. revert n. check_two_digits. Qed.

Lemma group_H_two_digits (n : Z) :
  (0 <= n < 100)%Z → takes_two_digits re_H 0 23 n.
Proof. revert n. check_two_digits. Qed.

Lemma group_d_two_digits (n : Z) :
  (0 <= n < 100)%Z → takes_two_digits re_d 1 31 n.
Proof. revert n. check_two_digits. Qed.

Lemma group_m_two_digits (n : Z) :
  (0 <= n < 100)%Z → takes_two_digits re_m 1 12 n.
Proof. revert n. check_two_digits. Qed.

Lemma group_y_two_digits (n : Z) :
  (0 <= n < 100)%Z → takes_two_digits re_y 0 99 n.
Proof. revert n. check_two_digits. Qed.

Lemma valid_datetime_fields (d : datetime) :
  valid_datetime d = true →
  (1 <= year d <= 9999 ∧ 1 <= month d <= 12 ∧ 1 <= day d <= 31
   ∧ 0 <= hour d <= 23 ∧ 0 <= minute d <= 59 ∧ 0 <= second d <= 59)%Z.
Proof.
  unfold valid_datetime. rewrite !andb_true_iff, !Z.leb_le.
  intros Hd.
  assert (days_in_month (year d) (month d) <= 31)%Z.
  { unfold days_in_month.
    repeat match goal with |- context [if ?b then _ else _] => destruct b end;
      lia. }
  lia.
Qed.

Lemma date_digits_fields (d : datetime) :
  date_digits d
  = text_of (hex2 (bcd (second d))) ++ text_of (hex2 (bcd (minute d)))
    ++ text_of (hex2 (bcd (hour d))) ++ text_of (hex2 (bcd (day d)))
    ++ text_of (hex2 (bcd (month d)))
    ++ text_of (hex2 (bcd (year d mod 100))) ++ [].
Proof.
  unfold date_digits, date_bytes. cbn [map concat_strings].
  by rewrite !text_of_app.
Qed.

(** [strptime] reads the twelve digits of a date back as that date, for
    the years a two-digit year stands for. *)
Lemma strptime_of_date_digits (d : datetime) :
  valid_datetime d = true →
  (1969 <= year d <= 2068)%Z →
  strptime_SMHdmy (date_digits d) = Ok (to_the_second d).
Proof.
  intros Hvalid Hyear.
  destruct (valid_datetime_fields d Hvalid)
    as (_ & Hmonth & Hday & Hhour & Hminute & Hsecond).
  assert (0 <= year d mod 100 < 100)%Z as Hy by (apply Z.mod_pos_bound; lia).
  unfold strptime_SMHdmy. rewrite date_digits_fields.
  assert (match_groups [re_S; re_M; re_H; re_d; re_m; re_y]
            (text_of (hex2 (bcd (second d)))
             ++ text_of (hex2 (bcd (minute d)))
             ++ text_of (hex2 (bcd (hour d)))
             ++ text_of (hex2 (bcd (day d)))
             ++ text_of (hex2 (bcd (month d)))
             ++ text_of (hex2 (bcd (year d mod 100))) ++ [])
          = Some ([text_of (hex2 (bcd (second d)));
                   text_of (hex2 (bcd (minute d)));
                   text_of (hex2 (bcd (hour d)));
                   text_of (hex2 (bcd (day d)));
                   text_of (hex2 (bcd (month d)));
                   text_of (hex2 (bcd (year d mod 100)))], [])) as ->.
  { rewrite match_groups_cons.
    apply (group_S_two_digits (second d)); [lia|lia|].
    rewrite match_groups_cons.
    apply (group_M_two_digits (minute d)); [lia|lia|].
    rewrite match_groups_cons.
    apply (group_H_two_digits (hour d)); [lia|lia|].
    rewrite match_groups_cons.
    apply (group_d_two_digits (day d)); [lia|lia|].
    rewrite match_groups_cons.
    apply (group_m_two_digits (month d)); [lia|lia|].
    rewrite match_groups_cons.
    apply (group_y_two_digits (year d mod 100)); [lia|lia|].
    reflexivity. }
  rewrite !int_of_bcd by lia. cbn [mbind result_bind].
  assert ((if (year d mod 100 <=? 68)%Z
           then (year d mod 100 + 2000)%Z else (year d mod 100 + 1900)%Z)
          = year d) as ->.
  { destruct (year d mod 100 <=? 68)%Z eqn:Hpivot;
      [apply Z.leb_le in Hpivot|apply Z.leb_gt in Hpivot];
      Z.div_mod_to_equations; lia. }
  unfold make_datetime, to_the_second.
  assert (valid_datetime
            (Datetime (year d) (month d) (day d) (hour d) (minute d)
                      (second d) 0 None) = true) as ->; [|done].
  revert Hvalid. unfold valid_datetime.
  cbn [year month day hour minute second microsecond].
  rewrite !andb_true_iff. intros Hd. repeat split; try apply Hd; done.
Qed.

Lemma strftime_command_escape (d : datetime) :
  valid_datetime d = true →
  strftime_command d = escape (date_bytes d).
Proof.
  intros Hvalid.
  destruct (valid_datetime_fields d Hvalid)
    as (_ & Hmonth & Hday & Hhour & Hminute & Hsecond).
  assert (0 <= year d mod 100 < 100)%Z as Hy by (apply Z.mod_pos_bound; lia).
  unfold strftime_command. rewrite !two_digits_bcd by lia.
  unfold escape, date_bytes. cbn [map concat_strings].
  by rewrite !string_app_assoc, string_app_empty_r.
Qed.

(** Framing of a command that starts with the literal [\xC8\x00\x07]. *)
Lemma frame_of_set_date (B : list byte) :
  frame_of ("\xC8\x00\x07" +:+ escape B)
  = Ok (([xc8; x00; x07] ++ B)
        ++ [byte_of_code (xor_bytes ([xc8; x00; x07] ++ B))]).
Proof.
  unfold frame_of, Utils.calculate_checksum.
  change (split_backslash_x ("\xC8\x00\x07" +:+ escape B) "")
    with ("" :: "C8" :: "00" :: split_backslash_x (escape B) "07").
  rewrite split_escape. cbn [tail].
  change (foldl _ (Ok 0%Z) ("C8" :: "00" :: "07" :: map hex2 B))
    with (foldl (λ acc hex_num,
                   check ← acc;
                   n ← py_int 16 (text_of ("0x" +:+ hex_num));
                   Ok (Z.lxor check n))
                (Ok (Z.of_N 207)) (map hex2 B)).
  rewrite checksum_fold. cbn [mbind result_bind].
  change (foldl (λ acc b, N.lxor acc (Byte.to_N b)) 207%N B)
    with (xor_bytes ([xc8; x00; x07] ++ B)).
  rewrite hex2_of_code by apply xor_bytes_below_256.
  set (cs := byte_of_code (xor_bytes ([xc8; x00; x07] ++ B))).
  assert (("\xC8\x00\x07" +:+ escape B) +:+ "\x" +:+ hex2 cs
          = "\xC8\x00\x07" +:+ escape (B ++ [cs])) as ->.
  { rewrite escape_app, string_app_assoc. do 2 f_equal.
    unfold escape. cbn [map concat_strings].
    by rewrite string_app_empty_r. }
  unfold Utils.string_to_byte.
  change (decode_unicode_escape
            (encode_utf8 ("\xC8\x00\x07" +:+ escape (B ++ [cs]))))
    with (cons 200%N
          <$> (cons 0%N
               <$> (cons 7%N
                    <$> decode_unicode_escape
                          (encode_utf8 (escape (B ++ [cs])))))).
  pose proof (string_to_byte_escape (B ++ [cs])) as Hbytes.
  unfold Utils.string_to_byte in Hbytes.
  destruct (decode_unicode_escape _) as [codes|e]; [|discriminate].
  cbn [fmap result_fmap] in *. injection Hbytes as Hbytes.
  f_equal. rewrite <- app_assoc, <- Hbytes. reflexivity.
Qed.

Lemma autodating_table_of_reply (h1 h2 h3 : byte) (window : list byte) :
  Printer.autodating_table_of (hex_items (x06 :: h1 :: h2 :: h3 :: window))
  = (data ← decode_utf8 (map Byte.to_N (take 22 window));
     autodating_table ← strptime_SMHdmy (keep_digits data);
     Ok (true, Some autodating_table)).
Proof.
  unfold Printer.autodating_table_of. rewrite ack_of_reply.
  change (Byte.eqb x06 x06) with true. cbn [mbind result_bind].
  pose proof (window_of_reply x06 h1 h2 h3 window 22) as Hwindow.
  change (4 + 22)%nat with 26%nat in Hwindow. rewrite Hwindow by lia.
  cbn [mbind result_bind]. by rewrite hex_to_text_items.
Qed.

Lemma set_autodating_table_eq
    (net : transport) (d : datetime) (w : world) :
  valid_datetime d = true →
  Printer.set_autodating_table net d w
  = (Utils.extract_response_code (returned net (set_date_frame d) w),
     after_call (set_date_frame d) w).
Proof.
  intros Hvalid. unfold Printer.set_autodating_table.
  apply after_exchange.
  rewrite strftime_command_escape by done.
  change "\x20" with (escape [x20]).
  rewrite <- escape_app. apply frame_of_set_date.
Qed.

(** ** External variables *)

Lemma below_bound (k : nat) (P : Z → Prop) :
  Forall P (map Z.of_nat (seq 0 k)) →
  ∀ n, (0 <= n < Z.of_nat k)%Z → P n.
Proof.
  intros Hall n Hn. rewrite Forall_forall in Hall. apply Hall.
  apply list_elem_of_In, in_map_iff. exists (Z.to_nat n). split; [lia|].
  apply in_seq. lia.
Qed.

Lemma format_x_four_small (n : Z) :
  (0 <= n < 256)%Z →
  format_x 4 n = "00" +:+ hex2 (byte_of_code (Z.to_N n)).
Proof.
  revert n. apply (below_bound 256).
  apply (bool_decide_unpack _). by vm_compute.
Qed.

Lemma hex2_two_chars (b : byte) :
  ∃ c1 c2, hex2 b = String c1 (String c2 "").
Proof. destruct b; by eexists _, _. Qed.

(** Framing of a command that starts with the literal [\x5B]. *)
Lemma frame_of_set_variables (B : list byte) :
  frame_of ("\x5B" +:+ escape B)
  = Ok ((x5b :: B) ++ [byte_of_code (xor_bytes (x5b :: B))]).
Proof.
  unfold frame_of, Utils.calculate_checksum.
  change (split_backslash_x ("\x5B" +:+ escape B) "")
    with ("" :: split_backslash_x (escape B) "5B").
  rewrite split_escape. cbn [tail].
  change (foldl _ (Ok 0%Z) ("5B" :: map hex2 B))
    with (foldl (λ acc hex_num,
                   check ← acc;
                   n ← py_int 16 (text_of ("0x" +:+ hex_num));
                   Ok (Z.lxor check n))
                (Ok (Z.of_N 91)) (map hex2 B)).
  rewrite checksum_fold. cbn [mbind result_bind].
  change (foldl (λ acc b, N.lxor acc (Byte.to_N b)) 91%N B)
    with (xor_bytes (x5b :: B)).
  rewrite hex2_of_code by apply xor_bytes_below_256.
  set (cs := byte_of_code (xor_bytes (x5b :: B))).
  assert (("\x5B" +:+ escape B) +:+ "\x" +:+ hex2 cs
          = "\x5B" +:+ escape (B ++ [cs])) as ->.
  { rewrite escape_app, string_app_assoc. do 2 f_equal.
    unfold escape. cbn [map concat_strings].
    by rewrite string_app_empty_r. }
  unfold Utils.string_to_byte.
  change (decode_unicode_escape (encode_utf8 ("\x5B" +:+ escape (B ++ [cs]))))
    with (cons 91%N
          <$> decode_unicode_escape (encode_utf8 (escape (B ++ [cs])))).
  pose proof (string_to_byte_escape (B ++ [cs])) as Hbytes.
  unfold Utils.string_to_byte in Hbytes.
  destruct (decode_unicode_escape _) as [codes|e]; [|discriminate].
  cbn [fmap result_fmap] in *. injection Hbytes as Hbytes.
  f_equal. change ((x5b :: B) ++ [cs]) with (x5b :: (B ++ [cs])).
  rewrite <- Hbytes. reflexivity.
Qed.

(** The loop over the variables: each one adds its escaped characters
    between two bytes 12, and its length plus two. *)
Lemma variables_loop (variables : list (list byte)) (text0 : string) (n0 : Z) :
  foldl (λ (acc : string * Z) (variable : text),
           let '(variables_hex, content_length) := acc in
           let variable_hex :=
             concat_strings
               (map (λ c, "\x" +:+ format_x 2 (Z.of_N c)) variable) in
           (variables_hex +:+ "\x12" +:+ variable_hex +:+ "\x12",
            (content_length + Z.of_nat (length variable) + 2)%Z))
        (text0, n0) (map (map Byte.to_N) variables)
  = (text0 +:+ escape (flat_map (λ v, x12 :: v ++ [x12]) variables),
     (n0 + Z.of_nat (length (flat_map (λ v, x12 :: v ++ [x12]) variables)))%Z).
Proof.
  revert text0 n0. induction variables as [|v variables IH]; intros text0 n0.
  - cbn. by rewrite string_app_empty_r, Z.add_0_r.
  - cbn [map foldl flat_map]. rewrite IH.
    apply injective_projections; cbn [fst snd].
    + assert (concat_strings
                (map (λ c, "\x" +:+ format_x 2 (Z.of_N c)) (map Byte.to_N v))
              = escape v) as ->.
      { unfold escape. by rewrite map_map. }
      assert (escape (x12 :: v ++ [x12])
              = "\x12" +:+ escape v +:+ "\x12") as Hone.
      { change (x12 :: v ++ [x12]) with ([x12] ++ v ++ [x12]).
        rewrite !escape_app. do 2 f_equal. }
      rewrite escape_app, Hone. by rewrite !string_app_assoc.
    + rewrite length_map, length_app. cbn [length]. rewrite length_app.
      cbn [length]. lia.
Qed.

Lemma set_external_variable_eq
    (net : transport) (jet : byte) (variables : list (list byte))
    (w w1 : world) :
  (length (jet :: flat_map (λ v, x12 :: v ++ [x12]) variables) < 256)%nat →
  Printer.warn_if_unknown_jet net (Z.of_N (Byte.to_N jet))
    warning_set_variables w = (Ok tt, w1) →
  Printer.set_external_variable net (Z.of_N (Byte.to_N jet))
    (map (map Byte.to_N) variables) w
  = (Utils.extract_response_code
       (returned net (variables_frame jet variables) w1),
     after_call (variables_frame jet variables) w1).
Proof.
  intros Hlen Hwarn. unfold Printer.set_external_variable.
  rewrite after_warning, Hwarn. rewrite variables_loop.
  unfold variables_frame.
  set (flat := flat_map (λ v, x12 :: v ++ [x12]) variables) in *.
  set (body := jet :: flat) in *.
  assert (1 + Z.of_nat (length flat) = Z.of_nat (length body))%Z as ->.
  { subst body. cbn [length]. lia. }
  rewrite format_x_four_small by lia.
  replace (Z.to_N (Z.of_nat (length body))) with (N.of_nat (length body))
    by lia.
  set (len := byte_of_code (N.of_nat (length body))).
  destruct (hex2_two_chars len) as (c1 & c2 & Hlen2).
  assert ("\x5B" +:+ "\x" +:+ substring 0 2 ("00" +:+ hex2 len) +:+ "\x"
          +:+ substring 2 (String.length ("00" +:+ hex2 len) - 2)
                ("00" +:+ hex2 len)
          +:+ "\x" +:+ Utils.dec_to_hex (Z.of_N (Byte.to_N jet)) +:+ ""
          +:+ escape flat
          = "\x5B" +:+ escape ([x00; len] ++ body)) as ->.
  { subst body. change (jet :: flat) with ([jet] ++ flat).
    rewrite !escape_app. unfold escape. cbn [map concat_strings].
    change (Utils.dec_to_hex (Z.of_N (Byte.to_N jet))) with (hex2 jet).
    destruct (hex2_two_chars jet) as (j1 & j2 & ->).
    rewrite Hlen2. reflexivity. }
  apply after_exchange. apply frame_of_set_variables.
Qed.

(** ** Text, digits and dates read from a reply *)

Lemma decode_utf8_ascii (l : list N) :
  Forall (λ c, (c < 128)%N) l → decode_utf8 l = Ok l.
Proof.
  induction 1 as [|c l Hc _ IH]; [done|].
  cbn [decode_utf8]. apply N.ltb_lt in Hc. by rewrite Hc, IH.
Qed.

Lemma lstrip_nonspace (l : text) :
  Forall (λ c, is_space c = false) l → lstrip l = l.
Proof. intros [|c l' Hc _]; [done|]. cbn [lstrip]. by rewrite Hc. Qed.

Lemma strip_nonspace (l : text) :
  Forall (λ c, is_space c = false) l → strip l = l.
Proof.
  intros Hl. unfold strip. rewrite (lstrip_nonspace l) by done.
  rewrite lstrip_nonspace by by apply Forall_rev.
  apply rev_involutive.
Qed.

Lemma digit_code_facts (d : N) :
  (d < 10)%N →
  is_space (48 + d) = false
  ∧ (48 + d =? 95)%N = false
  ∧ digit_value (48 + d) = Some d
  ∧ (48 + d ≠ 45)%N ∧ (48 + d ≠ 43)%N.
Proof.
  intros Hd.
  assert (d ∈ [0; 1; 2; 3; 4; 5; 6; 7; 8; 9]%N) as Hin.
  { apply list_elem_of_In, in_map_iff with (f := N.of_nat) (l := seq 0 10).
    exists (N.to_nat d). split; [lia|]. apply in_seq. lia. }
  repeat (apply elem_of_cons in Hin as [->|Hin]; [by repeat split|]).
  by apply elem_of_nil in Hin.
Qed.

Lemma digit_run_decimal (ds : list N) (acc : N) (seen : bool) :
  Forall (λ d, (d < 10)%N) ds → ds ≠ [] →
  digit_run 10 (map (N.add 48) ds) acc false seen
  = Some (foldl (λ acc d, acc * 10 + d)%N acc ds).
Proof.
  intros Hds. revert acc seen.
  induction Hds as [|d ds Hd Hds IH]; intros acc seen Hne; [done|].
  destruct (digit_code_facts d Hd) as (_ & Hus & Hval & _).
  cbn [map digit_run foldl]. rewrite Hus, Hval.
  apply N.ltb_lt in Hd. rewrite Hd.
  destruct ds as [|d' ds]; [reflexivity|]. by apply IH.
Qed.

(** A text of ASCII characters is read as it is. *)
Lemma to_ascii_decimal_ascii (s : text) :
  Forall (λ c, (c < 127)%N) s → to_ascii_decimal s = s.
Proof.
  induction 1 as [|c s Hc _ IH]; [done|].
  cbn [to_ascii_decimal]. apply N.ltb_lt in Hc. by rewrite Hc, IH.
Qed.

(** [int] of a run of ASCII digits is the number they write. *)
Lemma int_of_decimal (ds : list N) :
  Forall (λ d, (d < 10)%N) ds → ds ≠ [] →
  py_int 10 (map (N.add 48) ds) = Ok (Z.of_N (digits_value ds)).
Proof.
  intros Hds Hne. unfold py_int.
  rewrite to_ascii_decimal_ascii.
  2:{ apply Forall_map. eapply Forall_impl; [exact Hds|].
      intros d Hd. cbn beta in *. lia. }
  rewrite strip_nonspace.
  - destruct ds as [|d ds]; [done|].
    apply Forall_cons in Hds as Hd. destruct Hd as [Hd _].
    destruct (digit_code_facts d Hd) as (_ & _ & _ & Hminus & Hplus).
    assert (split_sign (map (N.add 48) (d :: ds))
            = (false, map (N.add 48) (d :: ds))) as ->.
    { cbn [map]. unfold split_sign.
      destruct (48 + d)%N as [|p] eqn:Hp; [done|].
      repeat (destruct p as [p|p|]; try done). }
    assert (match map (N.add 48) (d :: ds) with
            | 48%N :: x :: s' =>
                if ((10 =? 16) && ((x =? 120) || (x =? 88)))%N
                then match s' with 95%N :: s'' => s'' | _ => s' end
                else map (N.add 48) (d :: ds)
            | _ => map (N.add 48) (d :: ds)
            end = map (N.add 48) (d :: ds)) as ->.
    { cbn [map]. destruct (48 + d)%N as [|p]; [done|].
      repeat (destruct p as [p|p|]; try done);
        by destruct (map (N.add 48) ds). }
    by rewrite digit_run_decimal.
  - apply Forall_map. eapply Forall_impl; [exact Hds|].
    intros d Hd. apply (digit_code_facts d Hd).
Qed.

Lemma codes_of_digit_bytes (ds : list N) :
  Forall (λ d, (d < 10)%N) ds →
  map Byte.to_N (digit_bytes ds) = map (N.add 48) ds.
Proof.
  intros Hds. unfold digit_bytes. rewrite map_map.
  apply map_ext_Forall. eapply Forall_impl; [exact Hds|].
  intros d Hd. cbn beta in *. apply to_N_byte_of_code. lia.
Qed.

Lemma first_some_inv {A B} (f : A → option B) (l : list A) (y : B) :
  first_some f l = Some y → ∃ x, x ∈ l ∧ f x = Some y.
Proof.
  induction l as [|x l IH]; [done|]. cbn [first_some].
  destruct (f x) as [y'|] eqn:Hx.
  - intros [= ->]. exists x. split; [left|done].
  - intros Hl. destruct (IH Hl) as (x' & Hin & Hx').
    exists x'. split; [by right|done].
Qed.

Lemma match_alternative_inv (a : alternative) (s m r : text) :
  match_alternative a s = Some (m, r) →
  s = m ++ r ∧ length m = length a
  ∧ Forall2 (λ (cl : char_class) c, cl c = true) a m.
Proof.
  revert s m r. induction a as [|cl a IH]; intros s m r.
  - cbn. intros [= <- <-]. by repeat split.
  - destruct s as [|c s]; [done|]. cbn [match_alternative].
    destruct (cl c) eqn:Hc; [|done].
    destruct (match_alternative a s) as [[m' r']|] eqn:Ha; [|done].
    intros [= <- <-]. destruct (IH _ _ _ Ha) as (-> & Hlen & Hall).
    split; [done|]. split; [cbn [length]; by rewrite Hlen|by constructor].
Qed.

Lemma match_groups_inv (g : group) (gs : list group) (s r : text)
    (ms : list text) :
  match_groups (g :: gs) s = Some (ms, r) →
  ∃ a m ms' r1,
    a ∈ g ∧ ms = m :: ms'
    ∧ match_alternative a s = Some (m, r1)
    ∧ match_groups gs r1 = Some (ms', r).
Proof.
  rewrite match_groups_cons. intros Hg.
  apply first_some_inv in Hg as (a & Hin & Ha).
  destruct (match_alternative a s) as [[m r1]|] eqn:Hm; [|done].
  destruct (match_groups gs r1) as [[ms' r']|] eqn:Hgs; [|done].
  injection Ha as <- <-. by exists a, m, ms', r1.
Qed.

(** Every alternative of the six groups has one or two characters. *)
Lemma alternative_lengths (a : alternative) :
  a ∈ re_S ++ re_M ++ re_H ++ re_d ++ re_m ++ re_y →
  (1 <= length a <= 2)%nat.
Proof.
  intros Hin.
  repeat (apply elem_of_cons in Hin as [->|Hin]; [cbn; lia|]).
  by apply elem_of_nil in Hin.
Qed.

Lemma int_of_two_digits (c1 c2 : N) :
  is_dec_digit c1 = true → is_dec_digit c2 = true →
  ∃ y, py_int 10 [c1; c2] = Ok y ∧ (0 <= y <= 99)%Z.
Proof.
  unfold is_dec_digit. rewrite !andb_true_iff, !N.leb_le.
  intros [? ?] [? ?].
  assert (Forall (λ d, (d < 10)%N) [c1 - 48; c2 - 48]%N) as Hds.
  { repeat constructor; lia. }
  pose proof (int_of_decimal [c1 - 48; c2 - 48]%N Hds) as Hint.
  cbn [map] in Hint.
  replace (48 + (c1 - 48))%N with c1 in Hint by lia.
  replace (48 + (c2 - 48))%N with c2 in Hint by lia.
  rewrite Hint by done. eexists. split; [done|].
  unfold digits_value. cbn [foldl]. lia.
Qed.

Lemma strptime_inv (s : text) (d : datetime) :
  strptime_SMHdmy s = Ok d →
  valid_datetime d = true ∧ (1969 <= year d <= 2068)%Z
  ∧ (7 <= length s <= 12)%nat.
Proof.
  unfold strptime_SMHdmy.
  destruct (match_groups _ s) as [[ms r]|] eqn:Hmatch; [|done].
  apply match_groups_inv in Hmatch
    as (aS & gS & ms1 & r1 & HaS & -> & HmS & Hmatch).
  apply match_groups_inv in Hmatch
    as (aM & gM & ms2 & r2 & HaM & -> & HmM & Hmatch).
  apply match_groups_inv in Hmatch
    as (aH & gH & ms3 & r3 & HaH & -> & HmH & Hmatch).
  apply match_groups_inv in Hmatch
    as (ad & gd & ms4 & r4 & Had & -> & Hmd & Hmatch).
  apply match_groups_inv in Hmatch
    as (am & gm & ms5 & r5 & Ham & -> & Hmm & Hmatch).
  apply match_groups_inv in Hmatch
    as (ay & gy & ms6 & r6 & Hay & -> & Hmy & Hmatch).
  cbn [match_groups] in Hmatch. injection Hmatch as <- <-.
  destruct r6 as [|? ?]; [|done].
  apply match_alternative_inv in HmS as (-> & HlS & _).
  apply match_alternative_inv in HmM as (-> & HlM & _).
  apply match_alternative_inv in HmH as (-> & HlH & _).
  apply match_alternative_inv in Hmd as (-> & Hld & _).
  apply match_alternative_inv in Hmm as (-> & Hlm & _).
  apply match_alternative_inv in Hmy as (-> & Hly & Hdigits).
  pose proof (alternative_lengths aS) as HS.
  pose proof (alternative_lengths aM) as HM.
  pose proof (alternative_lengths aH) as HH.
  pose proof (alternative_lengths ad) as Hd.
  pose proof (alternative_lengths am) as Hm.
  unfold re_y in Hay. apply list_elem_of_singleton in Hay as ->.
  destruct gy as [|c1 [|c2 [|? ?]]]; try done.
  apply Forall2_cons in Hdigits as [Hc1 Hdigits].
  apply Forall2_cons in Hdigits as [Hc2 _].
  destruct (int_of_two_digits c1 c2 Hc1 Hc2) as (y & Hy & Hrange).
  destruct (py_int 10 gS) as [vs|]; [|done].
  destruct (py_int 10 gM) as [vmi|]; [|done].
  destruct (py_int 10 gH) as [vh|]; [|done].
  destruct (py_int 10 gd) as [vd|]; [|done].
  destruct (py_int 10 gm) as [vmo|]; [|done].
  rewrite Hy. cbn [mbind result_bind]. unfold make_datetime.
  destruct (valid_datetime _) eqn:Hvalid; [|done].
  intros [= <-]. split; [exact Hvalid|]. split.
  - cbn [year]. destruct (y <=? 68)%Z eqn:Hpivot;
      [apply Z.leb_le in Hpivot|apply Z.leb_gt in Hpivot]; lia.
  - rewrite !length_app. cbn [length].
    rewrite HlS, HlM, HlH, Hld, Hlm.
    assert (∀ a g, a ∈ g → g = re_S ∨ g = re_M ∨ g = re_H ∨ g = re_d
                            ∨ g = re_m →
                   a ∈ re_S ++ re_M ++ re_H ++ re_d ++ re_m ++ re_y)
      as Hany.
    { intros a g Hin Hg. rewrite !elem_of_app.
      destruct Hg as [->|[->|[->|[->| ->]]]]; auto 10. }
    specialize (HS (Hany _ _ HaS ltac:(auto))).
    specialize (HM (Hany _ _ HaM ltac:(auto))).
    specialize (HH (Hany _ _ HaH ltac:(auto))).
    specialize (Hd (Hany _ _ Had ltac:(auto 6))).
    specialize (Hm (Hany _ _ Ham ltac:(auto 6))).
    lia.
Qed.

(** ** The round trip of the date *)

Lemma bcd_code (n : Z) :
  (0 <= n < 100)%Z →
  Byte.to_N (bcd n) = Z.to_N (16 * (n / 10) + n mod 10).
Proof.
  intros Hn. unfold bcd. apply to_N_byte_of_code.
  Z.div_mod_to_equations. lia.
Qed.

Lemma decode_utf8_low (c : N) (r : list N) :
  (c < 128)%N → decode_utf8 (c :: r) = cons c <$> decode_utf8 r.
Proof. intros Hc. apply N.ltb_lt in Hc. cbn [decode_utf8]. by rewrite Hc. Qed.

(** A byte 80 to C1 hex cannot start a character. *)
Lemma decode_utf8_stray (c : N) (r : list N) :
  (128 <= c < 194)%N → decode_utf8 (c :: r) = Raise UnicodeDecodeError.
Proof.
  intros Hc. cbn [decode_utf8].
  assert ((c <? 128)%N = false) as -> by (apply N.ltb_ge; lia).
  assert ((194 <=? c)%N = false) as -> by (apply N.leb_gt; lia).
  assert ((224 <=? c)%N = false) as -> by (apply N.leb_gt; lia).
  assert ((240 <=? c)%N = false) as -> by (apply N.leb_gt; lia).
  reflexivity.
Qed.

Lemma no_digit_below_48 (c : N) : (c < 48)%N → is_dec_digit c = false.
Proof.
  intros Hc. unfold is_dec_digit.
  assert ((48 <=? c)%N = false) as -> by (apply N.leb_gt; lia). done.
Qed.

(** The bytes of the set command are no date for the get decoding: the
    byte of the hours and the byte of the month are never digits, so at
    most four digits are left where [strptime] needs seven; and a year
    from 80 on is a byte that is no UTF-8 text. *)
Lemma bcd_window_is_rejected (d : datetime) (g1 g2 g3 : byte) :
  valid_datetime d = true →
  ∃ e, Printer.autodating_table_of
         (hex_items (x06 :: g1 :: g2 :: g3 :: date_payload d))
       = Raise e.
Proof.
  intros Hvalid.
  destruct (valid_datetime_fields d Hvalid)
    as (_ & Hmonth & Hday & Hhour & Hminute & Hsecond).
  assert (0 <= year d mod 100 < 100)%Z as Hy by (apply Z.mod_pos_bound; lia).
  rewrite autodating_table_of_reply.
  unfold date_payload, date_bytes. cbn [map app take].
  rewrite !bcd_code by lia.
  set (cS := Z.to_N (16 * (second d / 10) + second d mod 10)).
  set (cM := Z.to_N (16 * (minute d / 10) + minute d mod 10)).
  set (cH := Z.to_N (16 * (hour d / 10) + hour d mod 10)).
  set (cd := Z.to_N (16 * (day d / 10) + day d mod 10)).
  set (cm := Z.to_N (16 * (month d / 10) + month d mod 10)).
  set (cy := Z.to_N (16 * (year d mod 100 / 10) + year d mod 100 mod 10)).
  assert (cS < 128)%N as HcS by (subst cS; Z.div_mod_to_equations; lia).
  assert (cM < 128)%N as HcM by (subst cM; Z.div_mod_to_equations; lia).
  assert (cH < 48)%N as HcH by (subst cH; Z.div_mod_to_equations; lia).
  assert (cd < 128)%N as Hcd by (subst cd; Z.div_mod_to_equations; lia).
  assert (cm < 48)%N as Hcm by (subst cm; Z.div_mod_to_equations; lia).
  assert (cy < 194)%N as Hcy by (subst cy; Z.div_mod_to_equations; lia).
  clearbody cS cM cH cd cm cy.
  rewrite (decode_utf8_low cS), (decode_utf8_low cM), (decode_utf8_low cH),
    (decode_utf8_low cd), (decode_utf8_low cm) by lia.
  destruct (N.lt_ge_cases cy 128) as [Hlow|Hhigh].
  - rewrite (decode_utf8_low cy) by done.
    change (decode_utf8 [Byte.to_N x20]) with (Ok (A:=text) [32%N]).
    cbn [fmap result_fmap mbind result_bind].
    destruct (strptime_SMHdmy _) as [d'|e] eqn:Hdate; [|by exists e].
    apply strptime_inv in Hdate as (_ & _ & Hlen). exfalso.
    revert Hlen. unfold keep_digits. cbn [filter list_filter].
    rewrite (no_digit_below_48 cH), (no_digit_below_48 cm) by done.
    change (is_dec_digit 32) with false.
    repeat case_decide; try done; cbn [length]; lia.
  - rewrite (decode_utf8_stray cy) by lia.
    by exists UnicodeDecodeError.
Qed.

(** The claim C3 fails as it is stated: the set command sends each field
    as one byte (59 seconds as the byte 59 hex), the get decoding reads
    the window as text and keeps the characters 0 to 9.  For
    2021-12-31 23:59:59 the payload 59 59 23 31 12 21 20 is the text
    [YY#1], a control character, [!] and a space: one digit is left and
    [strptime] raises [ValueError]. *)
Lemma date_roundtrip_counterexample :
  let d := Datetime 2021 12 31 23 59 59 0 None in
  let echo : transport := λ _, Ok ([x06; x00; x00; x00] ++ date_payload d) in
  valid_datetime d = true
  ∧ (Printer.set_autodating_table echo d initial_world).2
    = after_send (set_date_frame d) initial_world
  ∧ set_date_frame d
    = [xc8; x00; x07; x59; x59; x23; x31; x12; x21; x20; xce]
  ∧ date_payload d = [x59; x59; x23; x31; x12; x21; x20]
  ∧ Printer.get_autodating_table echo initial_world
    = (Raise ValueError, after_send date_query initial_world).
Proof. repeat split; reflexivity. Qed.

(** C3, as the code has it.  For every valid date and time whose year is
    one that a two-digit year stands for (1969 to 2068), the set command,
    once connected, sends the six fields as packed BCD bytes, seconds
    first; and the get decoding returns the original date and time to the
    second, naive (the microseconds and the time zone are not sent), from
    every acknowledged reply whose text window (bytes 4 to 25, read as
    UTF-8) carries as digits the hex digits of those six bytes, whatever
    stands between them.  The bytes of the set command themselves, given
    back as the window, are never read as a date: the get operation
    raises. *)
Theorem date_roundtrip_through_digits
    (net : transport) (w w0 : world) (d : datetime) (h1 h2 h3 : byte)
    (window : list byte) (data : text) :
  valid_datetime d = true →
  (1969 <= year d <= 2068)%Z →
  refused w0 = None →
  refused w = None →
  net (frames w ++ [date_query]) = Ok (x06 :: h1 :: h2 :: h3 :: window) →
  decode_utf8 (map Byte.to_N (take 22 window)) = Ok data →
  keep_digits data = date_digits d →
  (Printer.set_autodating_table net d w0).2
  = after_send ([xc8; x00; x07] ++ date_bytes d
                ++ [x20; byte_of_code (xor_bytes ([xc8; x00; x07]
                                                  ++ date_bytes d ++ [x20]))])
               w0
  ∧ Printer.get_autodating_table net w
    = (Ok (true, Some (to_the_second d)), after_send date_query w)
  ∧ (to_the_second d = d ↔ microsecond d = 0%Z ∧ tzinfo d = None)
  ∧ (∀ (echo : transport) (w' : world) (g1 g2 g3 : byte),
       refused w' = None →
       echo (frames w' ++ [date_query])
       = Ok (x06 :: g1 :: g2 :: g3 :: date_payload d) →
       ∃ e, Printer.get_autodating_table echo w'
            = (Raise e, after_send date_query w')).
Proof.
  intros Hvalid Hyear Hconnect0 Hconnect Hnet Hdata Hdigits.
  split; [|split; [|split]].
  - rewrite set_autodating_table_eq by done. cbn [snd].
    destruct (returned_connected net (set_date_frame d) w0 Hconnect0)
      as [_ ->].
    unfold set_date_frame, date_payload. by rewrite <- !app_assoc.
  - rewrite get_autodating_table_eq.
    destruct (returned_connected net date_query w Hconnect) as [-> ->].
    f_equal. unfold reply_of.
    rewrite Hnet, autodating_table_of_reply, Hdata.
    cbn [mbind result_bind].
    by rewrite Hdigits, strptime_of_date_digits.
  - unfold to_the_second. destruct d as [y mo dd h mi s us tz].
    cbn [year month day hour minute second microsecond tzinfo].
    split; [by intros [= <- <-]|by intros [-> ->]].
  - intros echo w' g1 g2 g3 Hconnect' Hecho.
    destruct (bcd_window_is_rejected d g1 g2 g3 Hvalid) as (e & Hraise).
    exists e. rewrite get_autodating_table_eq.
    destruct (returned_connected echo date_query w' Hconnect') as [-> ->].
    f_equal. unfold reply_of. by rewrite Hecho.
Qed.

(** The theorem at 1999-12-31 23:59:59 and a quarter of a second, and a
    reply whose window is the text [59/59/23/31/12/99] padded with spaces:
    the quarter of a second does not come back. *)
Lemma date_roundtrip_through_digits_witness :
  let d := Datetime 1999 12 31 23 59 59 250000 None in
  let window := map byte_of_code (text_of "59/59/23/31/12/99     ") in
  let net : transport := λ _, Ok (x06 :: x00 :: x00 :: x00 :: window) in
  valid_datetime d = true
  ∧ (1969 <= year d <= 2068)%Z
  ∧ refused initial_world = None
  ∧ decode_utf8 (map Byte.to_N (take 22 window))
    = Ok (text_of "59/59/23/31/12/99     ")
  ∧ keep_digits (text_of "59/59/23/31/12/99     ") = date_digits d
  ∧ (Printer.set_autodating_table net d initial_world).2
    = after_send [xc8; x00; x07; x59; x59; x23; x31; x12; x99; x20; x76]
                 initial_world
  ∧ Printer.get_autodating_table net initial_world
    = (Ok (true, Some (Datetime 1999 12 31 23 59 59 0 None)),
       after_send date_query initial_world).
Proof.
  intros d window net.
  assert (1969 <= year d <= 2068)%Z as Hyear by (cbn; lia).
  split; [reflexivity|]. split; [exact Hyear|]. split; [reflexivity|].
  split; [reflexivity|]. split; [reflexivity|].
  destruct (date_roundtrip_through_digits net initial_world initial_world d
              x00 x00 x00 window (text_of "59/59/23/31/12/99     ")
              eq_refl Hyear eq_refl eq_refl eq_refl eq_refl eq_refl)
    as (Hset & Hget & _).
  split; [exact Hset|exact Hget].
Defined.

(** ** Parameters *)

Lemma replace_comma_decimal (whole part : list N) :
  Forall (λ d, (d < 10)%N) whole → Forall (λ d, (d < 10)%N) part →
  replace_comma (map (N.add 48) whole ++ 44%N :: map (N.add 48) part)
  = map (N.add 48) whole ++ 46%N :: map (N.add 48) part.
Proof.
  intros Hwhole Hpart.
  assert (∀ ds, Forall (λ d, (d < 10)%N) ds →
                replace_comma (map (N.add 48) ds) = map (N.add 48) ds)
    as Hdigits.
  { intros ds Hds. unfold replace_comma. rewrite map_map.
    apply map_ext_Forall. eapply Forall_impl; [exact Hds|].
    intros d Hd. cbn beta in *.
    assert ((48 + d =? 44)%N = false) as -> by (apply N.eqb_neq; lia).
    done. }
  unfold replace_comma in *. rewrite map_app. cbn [map].
  by rewrite !Hdigits.
Qed.

Lemma drop_underscores_step (c : N) (s : text) (prev : option N) :
  c ≠ 95%N → prev ≠ Some 95%N →
  drop_underscores (c :: s) prev = cons c <$> drop_underscores s (Some c).
Proof.
  intros Hc Hprev. cbn [drop_underscores].
  assert ((c =? 95)%N = false) as -> by by apply N.eqb_neq.
  destruct prev as [[|p]|]; try done.
  repeat (destruct p as [p|p|]; try done).
Qed.

Lemma drop_underscores_none (s : text) (prev : option N) :
  Forall (λ c, c ≠ 95%N) s → prev ≠ Some 95%N →
  drop_underscores s prev = Some s.
Proof.
  intros Hs. revert prev.
  induction Hs as [|c s Hc _ IH]; intros prev Hprev.
  - cbn. destruct prev as [[|p]|]; try done.
    repeat (destruct p as [p|p|]; try done).
  - rewrite drop_underscores_step by done.
    rewrite IH; [done|]. by intros [= ->].
Qed.

Lemma split_sign_none (c : N) (s : text) :
  c ≠ 45%N → c ≠ 43%N → split_sign (c :: s) = (false, c :: s).
Proof.
  intros Hminus Hplus. unfold split_sign.
  destruct c as [|p]; [done|].
  repeat (destruct p as [p|p|]; try done).
Qed.

Lemma take_digits_run (ds : list N) (r : text) (acc : N) (len : nat) :
  Forall (λ d, (d < 10)%N) ds →
  take_digits (map (N.add 48) ds ++ r) acc len
  = take_digits r (foldl (λ acc d, acc * 10 + d)%N acc ds) (len + length ds).
Proof.
  intros Hds. revert acc len.
  induction Hds as [|d ds Hd _ IH]; intros acc len.
  - cbn. by rewrite Nat.add_0_r.
  - cbn [map app take_digits foldl length].
    assert (is_dec_digit (48 + d) = true) as ->.
    { unfold is_dec_digit. apply andb_true_iff.
      split; apply N.leb_le; lia. }
    rewrite IH. replace (48 + d - 48)%N with d by lia.
    f_equal. lia.
Qed.

(** [float] of digits with a point among them is the number they
    write. *)
Lemma float_of_decimal (whole part : list N) :
  Forall (λ d, (d < 10)%N) whole → Forall (λ d, (d < 10)%N) part →
  whole ++ part ≠ [] →
  py_float (map (N.add 48) whole ++ 46%N :: map (N.add 48) part)
  = Ok (decimal_value whole part).
Proof.
  intros Hwhole Hpart Hsome.
  set (s := map (N.add 48) whole ++ 46%N :: map (N.add 48) part).
  assert (Forall (λ c, (46 <= c <= 57)%N) s) as Hs.
  { subst s. apply Forall_app. split; [|constructor; [lia|]];
      apply Forall_map; (eapply Forall_impl; [eassumption|]);
      intros d Hd; cbn beta in *; lia. }
  unfold py_float.
  rewrite to_ascii_decimal_ascii
    by (eapply Forall_impl; [exact Hs|]; intros c Hc; cbn beta in *; lia).
  rewrite strip_nonspace.
  2:{ eapply Forall_impl; [exact Hs|]. intros c Hc. cbn beta in *.
      unfold is_space.
      assert ((c <=? 13)%N = false) as -> by (apply N.leb_gt; lia).
      assert ((c =? 32)%N = false) as -> by (apply N.eqb_neq; lia).
      by rewrite andb_false_r. }
  rewrite drop_underscores_none; [|
    eapply Forall_impl; [exact Hs|]; intros c Hc; cbn beta in *; lia|done].
  assert (∃ c s', s = c :: s' ∧ (46 <= c <= 57)%N) as (c & s' & Hcons & Hc).
  { destruct s as [|c s'] eqn:Heq.
    - subst s. by destruct whole.
    - apply Forall_cons in Hs as [Hc _]. by exists c, s'. }
  rewrite Hcons, split_sign_none by lia.
  destruct (decide _) as [[Hword|Hword]|_].
  { exfalso. injection Hword as Hword _. revert Hword. unfold lower.
    assert ((65 <=? c)%N = false) as -> by (apply N.leb_gt; lia).
    cbn [andb]. lia. }
  { exfalso. injection Hword as Hword _. revert Hword. unfold lower.
    assert ((65 <=? c)%N = false) as -> by (apply N.leb_gt; lia).
    cbn [andb]. lia. }
  destruct (decide _) as [Hword|_].
  { exfalso. injection Hword as Hword _. revert Hword. unfold lower.
    assert ((65 <=? c)%N = false) as -> by (apply N.leb_gt; lia).
    cbn [andb]. lia. }
  rewrite <- Hcons. subst s.
  rewrite take_digits_run by done.
  change (take_digits (46%N :: map (N.add 48) part) ?acc ?len)
    with (acc, len, 46%N :: map (N.add 48) part).
  cbn iota beta.
  rewrite <- (app_nil_r (map (N.add 48) part)).
  rewrite take_digits_run by done.
  change (take_digits [] ?acc ?len) with (acc, len, @nil N).
  cbn iota beta. cbn [Nat.add].
  destruct (length whole + length part =? 0)%nat eqn:Hlen.
  { apply Nat.eqb_eq in Hlen.
    destruct whole; [|done]. destruct part; [|done]. done. }
  f_equal. unfold signed_scale10, decimal_value, digits_value.
  cbn [andb]. rewrite foldl_app. unfold apply_sign, scale10.
  set (v := foldl _ _ part).
  destruct (length part) as [|n] eqn:Hpart'.
  - cbn. f_equal. f_equal. lia.
  - assert ((0 <=? - Z.of_nat (S n))%Z = false) as -> by (apply Z.leb_gt; lia).
    by rewrite Z.opp_involutive.
Qed.
Lemma get_parameters_eq (net : transport) (w : world) :
  Printer.get_parameters net w
  = (Printer.parameters_of (returned net parameter_query w),
     after_call parameter_query w).
Proof.
  unfold Printer.get_parameters.
  by rewrite (after_command net _ parameter_query).
Qed.

(** The decoder on an acknowledged reply whose first 26 payload bytes are
    ASCII: the fields are cut from the characters of those bytes. *)
Lemma parameters_of_ascii (h1 h2 h3 : byte) (window rest : list byte) :
  length window = 26%nat →
  Forall (λ b, (Byte.to_N b < 128)%N) window →
  Printer.parameters_of (hex_items (x06 :: h1 :: h2 :: h3 :: window ++ rest))
  = (let data := map Byte.to_N window in
     ms ← py_int 10 (slice 0 4 data);
     pr ← py_float (replace_comma (slice 5 9 data));
     vf ← py_int 10 (slice 10 12 data);
     aa ← py_int 10 (slice 13 15 data);
     js ← py_float (replace_comma (slice 16 20 data));
     te ← py_int 10 (slice 21 23 data);
     ti ← py_int 10 (slice 24 26 data);
     Ok (true, Some (Parameters ms pr vf aa js te ti))).
Proof.
  intros Hlen Hascii. unfold Printer.parameters_of. rewrite ack_of_reply.
  change (Byte.eqb x06 x06) with true. cbn [mbind result_bind].
  pose proof (window_of_reply x06 h1 h2 h3 (window ++ rest) 26) as Hwindow.
  change (4 + 26)%nat with 30%nat in Hwindow. rewrite Hwindow by lia.
  cbn [mbind result_bind].
  rewrite take_app_length' by done.
  rewrite hex_to_text_items, decode_utf8_ascii by by apply Forall_map.
  reflexivity.
Qed.

Lemma slice_middle {A} (pre mid post : list A) (i j : nat) :
  length pre = i → length mid = (j - i)%nat →
  slice i j (pre ++ mid ++ post) = mid.
Proof.
  intros <- Hmid. unfold slice.
  rewrite drop_app_length, <- Hmid. apply take_app_length.
Qed.

(** The field [mid] of a text is its slice from [i] to [j]. *)
Ltac cut_field data pre mid post i j :=
  transitivity (slice i j (pre ++ mid ++ post));
  [ f_equal; subst data; repeat (rewrite <- ?app_assoc; cbn [app]);
    rewrite ?app_nil_r; reflexivity
  | apply (slice_middle pre mid post i j);
    [ repeat (rewrite ?length_app; cbn [length]); lia | lia ] ].

(** Seven ASCII fields of the widths 4, 4, 2, 2, 4, 2, 2 with one ASCII
    character after each of the first six: each field is read from its
    own characters, whatever the characters between the fields and the
    bytes after the last field are. *)
Lemma parameters_of_fields
    (h1 h2 h3 s1 s2 s3 s4 s5 s6 : byte)
    (f1 f2 f3 f4 f5 f6 f7 rest : list byte) :
  Forall (λ b, (Byte.to_N b < 128)%N)
         (f1 ++ f2 ++ f3 ++ f4 ++ f5 ++ f6 ++ f7
          ++ [s1; s2; s3; s4; s5; s6]) →
  length f1 = 4%nat → length f2 = 4%nat → length f3 = 2%nat →
  length f4 = 2%nat → length f5 = 4%nat → length f6 = 2%nat →
  length f7 = 2%nat →
  Printer.parameters_of
    (hex_items ([x06; h1; h2; h3]
                ++ f1 ++ s1 :: f2 ++ s2 :: f3 ++ s3 :: f4 ++ s4 :: f5
                ++ s5 :: f6 ++ s6 :: f7 ++ rest))
  = (ms ← py_int 10 (map Byte.to_N f1);
     pr ← py_float (replace_comma (map Byte.to_N f2));
     vf ← py_int 10 (map Byte.to_N f3);
     aa ← py_int 10 (map Byte.to_N f4);
     js ← py_float (replace_comma (map Byte.to_N f5));
     te ← py_int 10 (map Byte.to_N f6);
     ti ← py_int 10 (map Byte.to_N f7);
     Ok (true, Some (Parameters ms pr vf aa js te ti))).
Proof.
  intros Hascii H1 H2 H3 H4 H5 H6 H7.
  set (window := f1 ++ s1 :: f2 ++ s2 :: f3 ++ s3 :: f4 ++ s4 :: f5
                 ++ s5 :: f6 ++ s6 :: f7).
  change ([x06; h1; h2; h3] ++ _)
    with (x06 :: h1 :: h2 :: h3 ::
          f1 ++ s1 :: f2 ++ s2 :: f3 ++ s3 :: f4 ++ s4 :: f5
          ++ s5 :: f6 ++ s6 :: f7 ++ rest).
  assert (f1 ++ s1 :: f2 ++ s2 :: f3 ++ s3 :: f4 ++ s4 :: f5
          ++ s5 :: f6 ++ s6 :: f7 ++ rest
          = window ++ rest) as ->.
  { subst window.
    repeat (rewrite <- ?app_assoc, <- ?app_comm_cons). reflexivity. }
  rewrite parameters_of_ascii.
  2:{ subst window.
      repeat (rewrite ?length_app; cbn [length]). lia. }
  2:{ subst window. rewrite !Forall_app in Hascii.
      destruct Hascii as (? & ? & ? & ? & ? & ? & ? & Hseps).
      repeat match type of Hseps with
             | Forall _ (_ :: _) =>
                 let Hs := fresh "Hs" in apply Forall_cons in Hseps as [Hs Hseps]
             end.
      repeat first [apply Forall_app; split | apply Forall_cons; split
                   | done]. }
  cbn zeta.
  assert (map Byte.to_N window
          = map Byte.to_N f1 ++ Byte.to_N s1 :: map Byte.to_N f2
            ++ Byte.to_N s2 :: map Byte.to_N f3
            ++ Byte.to_N s3 :: map Byte.to_N f4
            ++ Byte.to_N s4 :: map Byte.to_N f5
            ++ Byte.to_N s5 :: map Byte.to_N f6
            ++ Byte.to_N s6 :: map Byte.to_N f7) as ->.
  { subst window. by repeat (rewrite ?map_app; cbn [map]). }
  clear window Hascii.
  set (A := map Byte.to_N f1). set (c1 := Byte.to_N s1).
  set (P := map Byte.to_N f2). set (c2 := Byte.to_N s2).
  set (V := map Byte.to_N f3). set (c3 := Byte.to_N s3).
  set (D := map Byte.to_N f4). set (c4 := Byte.to_N s4).
  set (J := map Byte.to_N f5). set (c5 := Byte.to_N s5).
  set (E := map Byte.to_N f6). set (c6 := Byte.to_N s6).
  set (I := map Byte.to_N f7).
  assert (length A = 4 ∧ length P = 4 ∧ length V = 2 ∧ length D = 2
          ∧ length J = 4 ∧ length E = 2 ∧ length I = 2)%nat
    as (HA & HP & HV & HD & HJ & HE & HI).
  { subst A P V D J E I. by rewrite !length_map. }
  clearbody A P V D J E I c1 c2 c3 c4 c5 c6.
  set (data := A ++ c1 :: P ++ c2 :: V ++ c3 :: D ++ c4 :: J
                ++ c5 :: E ++ c6 :: I).
  assert (slice 0 4 data = A) as ->.
  { cut_field data (@nil N) A (c1 :: P ++ c2 :: V ++ c3 :: D ++ c4 :: J
                               ++ c5 :: E ++ c6 :: I) 0%nat 4%nat. }
  assert (slice 5 9 data = P) as ->.
  { cut_field data (A ++ [c1]) P
      (c2 :: V ++ c3 :: D ++ c4 :: J ++ c5 :: E ++ c6 :: I) 5%nat 9%nat. }
  assert (slice 10 12 data = V) as ->.
  { cut_field data (A ++ c1 :: P ++ [c2]) V
      (c3 :: D ++ c4 :: J ++ c5 :: E ++ c6 :: I) 10%nat 12%nat. }
  assert (slice 13 15 data = D) as ->.
  { cut_field data (A ++ c1 :: P ++ c2 :: V ++ [c3]) D
      (c4 :: J ++ c5 :: E ++ c6 :: I) 13%nat 15%nat. }
  assert (slice 16 20 data = J) as ->.
  { cut_field data (A ++ c1 :: P ++ c2 :: V ++ c3 :: D ++ [c4]) J
      (c5 :: E ++ c6 :: I) 16%nat 20%nat. }
  assert (slice 21 23 data = E) as ->.
  { cut_field data (A ++ c1 :: P ++ c2 :: V ++ c3 :: D ++ c4 :: J ++ [c5]) E
      (c6 :: I) 21%nat 23%nat. }
  assert (slice 24 26 data = I) as ->.
  { cut_field data (A ++ c1 :: P ++ c2 :: V ++ c3 :: D ++ c4 :: J
                    ++ c5 :: E ++ [c6]) I (@nil N) 24%nat 26%nat. }
  reflexivity.
Qed.

Lemma codes_of_decimal_bytes (whole part : list N) :
  Forall (λ d, (d < 10)%N) whole → Forall (λ d, (d < 10)%N) part →
  map Byte.to_N (decimal_bytes whole part)
  = map (N.add 48) whole ++ 44%N :: map (N.add 48) part.
Proof.
  intros Hwhole Hpart. unfold decimal_bytes. rewrite map_app. cbn [map].
  by rewrite !codes_of_digit_bytes.
Qed.

(** C6. When the connection is made and the parameter query is answered
    by an acknowledged reply whose bytes 4 to 29 are ASCII,
    [get_parameters] reads the seven fields at the fixed offsets 0-4, 5-9,
    10-12, 13-15, 16-20, 21-23 and 24-26 of that text: each whole field
    with [int], each decimal field with [float] after its commas have been
    replaced by dots; the characters between the fields and the bytes
    after byte 29 are not read.  When the fields are written with digits
    (four digits, a decimal of three digits and a comma, two digits, two
    digits, a decimal again, two digits, two digits), the operation
    returns the numbers the digits write, the comma taken as decimal
    point.  The text [1500 2,50 03 01 1,20 23 24] gives motor_speed 1500,
    pressure 2.5 (5/2), visco_filling_times 3, additive_added 1,
    average_jet_speed 1.2 (6/5) and the temperatures 23 and 24. *)
Theorem parameters_at_fixed_offsets
    (net : transport) (w : world) (h1 h2 h3 s1 s2 s3 s4 s5 s6 : byte)
    (rest : list byte) :
  refused w = None →
  Forall (λ b, (Byte.to_N b < 128)%N) [s1; s2; s3; s4; s5; s6] →
  (∀ f1 f2 f3 f4 f5 f6 f7 : list byte,
     Forall (λ b, (Byte.to_N b < 128)%N)
            (f1 ++ f2 ++ f3 ++ f4 ++ f5 ++ f6 ++ f7) →
     length f1 = 4%nat → length f2 = 4%nat → length f3 = 2%nat →
     length f4 = 2%nat → length f5 = 4%nat → length f6 = 2%nat →
     length f7 = 2%nat →
     net (frames w ++ [parameter_query])
     = Ok ([x06; h1; h2; h3]
           ++ f1 ++ s1 :: f2 ++ s2 :: f3 ++ s3 :: f4 ++ s4 :: f5
           ++ s5 :: f6 ++ s6 :: f7 ++ rest) →
     Printer.get_parameters net w
     = ((ms ← py_int 10 (map Byte.to_N f1);
         pr ← py_float (replace_comma (map Byte.to_N f2));
         vf ← py_int 10 (map Byte.to_N f3);
         aa ← py_int 10 (map Byte.to_N f4);
         js ← py_float (replace_comma (map Byte.to_N f5));
         te ← py_int 10 (map Byte.to_N f6);
         ti ← py_int 10 (map Byte.to_N f7);
         Ok (true, Some (Parameters ms pr vf aa js te ti))),
        after_send parameter_query w))
  ∧ (∀ ms pw pp vf aa jw jp te ti : list N,
       Forall (λ d, (d < 10)%N)
              (ms ++ pw ++ pp ++ vf ++ aa ++ jw ++ jp ++ te ++ ti) →
       length ms = 4%nat → (length pw + length pp = 3)%nat →
       length vf = 2%nat → length aa = 2%nat →
       (length jw + length jp = 3)%nat →
       length te = 2%nat → length ti = 2%nat →
       net (frames w ++ [parameter_query])
       = Ok ([x06; h1; h2; h3]
             ++ digit_bytes ms ++ s1 :: decimal_bytes pw pp
             ++ s2 :: digit_bytes vf ++ s3 :: digit_bytes aa
             ++ s4 :: decimal_bytes jw jp
             ++ s5 :: digit_bytes te ++ s6 :: digit_bytes ti ++ rest) →
       Printer.get_parameters net w
       = (Ok (true,
              Some {| motor_speed := Z.of_N (digits_value ms);
                      pressure := decimal_value pw pp;
                      visco_filling_times := Z.of_N (digits_value vf);
                      additive_added := Z.of_N (digits_value aa);
                      average_jet_speed := decimal_value jw jp;
                      temperature_of_electronics := Z.of_N (digits_value te);
                      temperature_of_ink_circuit :=
                        Z.of_N (digits_value ti) |}),
          after_send parameter_query w))
  ∧ Printer.get_parameters
      (λ _, Ok ([x06; x00; x00; x00]
                ++ map byte_of_code (text_of "1500 2,50 03 01 1,20 23 24")))
      initial_world
    = (Ok (true, Some {| motor_speed := 1500;
                         pressure := Fin (5 # 2);
                         visco_filling_times := 3;
                         additive_added := 1;
                         average_jet_speed := Fin (6 # 5);
                         temperature_of_electronics := 23;
                         temperature_of_ink_circuit := 24 |}),
       after_send parameter_query initial_world).
Proof.
  intros Hconnect Hseps.
  assert (∀ f1 f2 f3 f4 f5 f6 f7 : list byte,
     Forall (λ b, (Byte.to_N b < 128)%N)
            (f1 ++ f2 ++ f3 ++ f4 ++ f5 ++ f6 ++ f7) →
     length f1 = 4%nat → length f2 = 4%nat → length f3 = 2%nat →
     length f4 = 2%nat → length f5 = 4%nat → length f6 = 2%nat →
     length f7 = 2%nat →
     net (frames w ++ [parameter_query])
     = Ok ([x06; h1; h2; h3]
           ++ f1 ++ s1 :: f2 ++ s2 :: f3 ++ s3 :: f4 ++ s4 :: f5
           ++ s5 :: f6 ++ s6 :: f7 ++ rest) →
     Printer.get_parameters net w
     = ((ms ← py_int 10 (map Byte.to_N f1);
         pr ← py_float (replace_comma (map Byte.to_N f2));
         vf ← py_int 10 (map Byte.to_N f3);
         aa ← py_int 10 (map Byte.to_N f4);
         js ← py_float (replace_comma (map Byte.to_N f5));
         te ← py_int 10 (map Byte.to_N f6);
         ti ← py_int 10 (map Byte.to_N f7);
         Ok (true, Some (Parameters ms pr vf aa js te ti))),
        after_send parameter_query w)) as Hfields.
  { intros f1 f2 f3 f4 f5 f6 f7 Hascii H1 H2 H3 H4 H5 H6 H7 Hnet.
    rewrite get_parameters_eq.
    destruct (returned_connected net parameter_query w Hconnect) as [-> ->].
    f_equal. unfold reply_of. rewrite Hnet.
    apply parameters_of_fields; try done.
    rewrite !app_assoc. apply Forall_app. split; [|done].
    by rewrite <- !app_assoc. }
  split; [exact Hfields|]. split; [|reflexivity].
  intros ms pw pp vf aa jw jp te ti Hdigits Hms Hpr Hvf Haa Hjs Hte Hti Hnet.
  rewrite !Forall_app in Hdigits.
  destruct Hdigits
    as (Hdms & Hdpw & Hdpp & Hdvf & Hdaa & Hdjw & Hdjp & Hdte & Hdti).
  assert (∀ ds, Forall (λ d, (d < 10)%N) ds →
                Forall (λ b, (Byte.to_N b < 128)%N) (digit_bytes ds))
    as Hlow.
  { intros ds Hds.
    rewrite <- Forall_map with (f := Byte.to_N) (P := λ c, (c < 128)%N).
    rewrite codes_of_digit_bytes by done.
    apply Forall_map. eapply Forall_impl; [exact Hds|].
    intros d Hd. cbn beta in *. lia. }
  rewrite (Hfields (digit_bytes ms) (decimal_bytes pw pp) (digit_bytes vf)
             (digit_bytes aa) (decimal_bytes jw jp) (digit_bytes te)
             (digit_bytes ti)); try done.
  - rewrite !codes_of_digit_bytes, !codes_of_decimal_bytes by done.
    rewrite !replace_comma_decimal by done.
    rewrite !int_of_decimal by (done || by intros ->).
    rewrite !float_of_decimal
      by (done || (intros Hnil; apply (f_equal length) in Hnil;
                   rewrite length_app in Hnil; cbn [length] in Hnil; lia)).
    reflexivity.
  - unfold decimal_bytes.
    repeat first [apply Forall_app; split | apply Forall_cons; split
                 | by apply Hlow | by vm_compute].
  - unfold digit_bytes. by rewrite length_map.
  - unfold decimal_bytes, digit_bytes.
    rewrite length_app. cbn [length]. rewrite !length_map. lia.
  - unfold digit_bytes. by rewrite length_map.
  - unfold digit_bytes. by rewrite length_map.
  - unfold decimal_bytes, digit_bytes.
    rewrite length_app. cbn [length]. rewrite !length_map. lia.
  - unfold digit_bytes. by rewrite length_map.
  - unfold digit_bytes. by rewrite length_map.
Qed.

(** The theorem at the text [0007 ,123 -5 +1 0,50 45 46], whose first
    decimal has no digit before the comma and whose third and fourth
    fields carry a sign, followed by one more byte; and at the text
    [0007 ,123 99 00 0,50 45 46] of digits. *)
Lemma parameters_at_fixed_offsets_witness :
  let signed : transport :=
    λ _, Ok ([x06; x00; x00; x00]
             ++ map byte_of_code (text_of "0007 ,123 -5 +1 0,50 45 46!")) in
  let plain : transport :=
    λ _, Ok ([x06; x00; x00; x00]
             ++ map byte_of_code (text_of "0007 ,123 99 00 0,50 45 46!")) in
  refused initial_world = None
  ∧ Forall (λ b, (Byte.to_N b < 128)%N) [x20; x20; x20; x20; x20; x20]
  ∧ Printer.get_parameters signed initial_world
    = (Ok (true, Some {| motor_speed := 7;
                         pressure := Fin (123 # 1000);
                         visco_filling_times := -5;
                         additive_added := 1;
                         average_jet_speed := Fin (1 # 2);
                         temperature_of_electronics := 45;
                         temperature_of_ink_circuit := 46 |}),
       after_send parameter_query initial_world)
  ∧ Printer.get_parameters plain initial_world
    = (Ok (true, Some {| motor_speed := 7;
                         pressure := Fin (123 # 1000);
                         visco_filling_times := 99;
                         additive_added := 0;
                         average_jet_speed := Fin (1 # 2);
                         temperature_of_electronics := 45;
                         temperature_of_ink_circuit := 46 |}),
       after_send parameter_query initial_world).
Proof.
  intros signed plain.
  assert (Forall (λ b, (Byte.to_N b < 128)%N) [x20; x20; x20; x20; x20; x20])
    as Hseps by (repeat constructor).
  split; [reflexivity|]. split; [exact Hseps|].
  destruct (parameters_at_fixed_offsets signed initial_world
              x00 x00 x00 x20 x20 x20 x20 x20 x20 [x21] eq_refl Hseps)
    as (Hfields & _).
  destruct (parameters_at_fixed_offsets plain initial_world
              x00 x00 x00 x20 x20 x20 x20 x20 x20 [x21] eq_refl Hseps)
    as (_ & Hdigits & _).
  assert (Forall (λ b, (Byte.to_N b < 128)%N)
            ([x30; x30; x30; x37] ++ [x2c; x31; x32; x33] ++ [x2d; x35]
             ++ [x2b; x31] ++ [x30; x2c; x35; x30] ++ [x34; x35]
             ++ [x34; x36])) as Hascii
    by (repeat constructor).
  assert (Forall (λ d, (d < 10)%N)
            ([0; 0; 0; 7] ++ [] ++ [1; 2; 3] ++ [9; 9] ++ [0; 0] ++
             [0] ++ [5; 0] ++ [4; 5] ++ [4; 6])%N) as Hten
    by (repeat constructor).
  split.
  - exact (Hfields [x30; x30; x30; x37] [x2c; x31; x32; x33] [x2d; x35]
             [x2b; x31] [x30; x2c; x35; x30] [x34; x35] [x34; x36]
             Hascii eq_refl eq_refl eq_refl eq_refl eq_refl eq_refl eq_refl
             eq_refl).
  - exact (Hdigits [0; 0; 0; 7]%N []%N [1; 2; 3]%N [9; 9]%N [0; 0]%N
             [0]%N [5; 0]%N [4; 5]%N [4; 6]%N
             Hten eq_refl eq_refl eq_refl eq_refl eq_refl eq_refl eq_refl
             eq_refl).
Defined.

(** ** Failed results of the operations *)

Lemma autodating_table_of_failed (r : response) (v : option datetime) :
  Printer.autodating_table_of r = Ok (false, v) → v = None.
Proof.
  unfold Printer.autodating_table_of.
  destruct (Utils.extract_response_code r) as [[|]|]; cbn; [|congruence|done].
  destruct (resp_slice 4 26 r); cbn; [|done].
  destruct (Utils.hex_to_text _); cbn; [|done].
  by destruct (strptime_SMHdmy _).
Qed.

Lemma jet_status_of_failed (r : response) (v : option string) :
  Printer.jet_status_of r = Ok (false, v) → v = None.
Proof.
  unfold Printer.jet_status_of.
  destruct (Utils.extract_response_code r) as [[|]|]; cbn; [|congruence|done].
  destruct (resp_index r 4); cbn; [|done].
  by destruct (dict_get _ _).
Qed.

Lemma jet_counter_of_failed (r : response) (v : Z) :
  Printer.jet_counter_of r = Ok (false, v) → v = 0%Z.
Proof.
  unfold Printer.jet_counter_of.
  destruct (Utils.extract_response_code r) as [[|]|]; cbn; [|congruence|done].
  destruct (resp_slice 4 13 r); cbn; [|done].
  destruct (Utils.hex_to_text _); cbn; [|done].
  by destruct (py_int _ _).
Qed.

Lemma jet_speed_of_failed (r : response) (v : option pyfloat) :
  Printer.jet_speed_of r = Ok (false, v) → v = None.
Proof.
  unfold Printer.jet_speed_of.
  destruct (Utils.extract_response_code r) as [[|]|]; cbn; [|congruence|done].
  destruct (resp_index r 4); cbn; [|done].
  by destruct (py_float _).
Qed.

Lemma parameters_of_failed (r : response) (v : option parameters) :
  Printer.parameters_of r = Ok (false, v) → v = None.
Proof.
  unfold Printer.parameters_of.
  destruct (Utils.extract_response_code r) as [[|]|]; cbn; [|congruence|done].
  destruct (resp_slice 4 30 r); cbn; [|done].
  destruct (Utils.hex_to_text _); cbn; [|done].
  repeat match goal with
         | |- context [py_int ?b ?s] => destruct (py_int b s); cbn; [|done]
         | |- context [py_float ?s] => destruct (py_float s); cbn; [|done]
         end.
  done.
Qed.

Lemma printer_faults_of_failed (r : response)
    (v : option (gmap string ascii)) :
  Printer.printer_faults_of r = Ok (false, v) → v = None.
Proof.
  unfold Printer.printer_faults_of.
  destruct (Utils.extract_response_code r) as [[|]|];
    cbn [mbind result_bind]; [|congruence|done].
  destruct (resp_items r); cbn [mbind result_bind]; [|done].
  destruct (result_mapM _ _); cbn [mbind result_bind]; [|done].
  destruct (printer_entries _); cbn [mbind result_bind]; [|done].
  by destruct (update_jets 0 _ _).
Qed.

(** The claim C5 fails where an acknowledged reply carries a malformed
    field or an invalid date: the date query answered by 06 00 00 00,
    without any digit, raises [ValueError] to the caller; so does a reply
    whose digits write the 31st of February; and a status byte 08 after a
    good fault query raises [KeyError]. *)
Lemma malformed_reply_is_raised :
  let february : transport :=
    λ _, Ok ([x06; x00; x00; x00]
             ++ map byte_of_code (text_of "00/00/12/31/02/21")) in
  Printer.get_autodating_table (λ _, Ok [x06; x00; x00; x00]) initial_world
  = (Raise ValueError, after_send date_query initial_world)
  ∧ Printer.get_autodating_table february initial_world
    = (Raise ValueError, after_send date_query initial_world)
  ∧ (Printer.get_jet_status (healthy_then [x06; x00; x00; x00; x08]) 1
       initial_world).1
    = Raise KeyError.
Proof. repeat split; reflexivity. Qed.

(** C5, as the code has it.  For every operation, a failed socket call
    (the connection refused, or a failure after the frame was handed
    over) and a reply that does not start with 06, met on the command of
    the operation, make it return its failed result: [False] for the six
    operations that return a status, [(False, None)] for those that
    return a status and a value, [(False, 0)] for the counter; the four
    operations with an advisory check get there once the check has
    passed.  And whenever an operation returns the status [False], it
    carries no value.  (A malformed field or an invalid date in an
    acknowledged reply is not collapsed: it is raised, so no partial value
    is returned either.) *)
Theorem unacknowledged_reply_has_no_value (net : transport) (w : world) :
  (not_acknowledged (returned net [x05] w) →
   Printer.get_v24_dialog net w = (Ok false, after_call [x05] w))
  ∧ (not_acknowledged (returned net [x3c; x00; x00; x3c] w) →
     Printer.reset_printer_faults net w
     = (Ok false, after_call [x3c; x00; x00; x3c] w))
  ∧ (∀ mode : byte,
       not_acknowledged (returned net (jet_frame x30 mode) w) →
       Printer.start_stop_printer net (Z.of_N (Byte.to_N mode)) w
       = (Ok false, after_call (jet_frame x30 mode) w))
  ∧ (∀ d : datetime,
       valid_datetime d = true →
       not_acknowledged (returned net (set_date_frame d) w) →
       Printer.set_autodating_table net d w
       = (Ok false, after_call (set_date_frame d) w))
  ∧ (∀ (jet : byte) (w1 : world),
       Printer.warn_if_unknown_jet net (Z.of_N (Byte.to_N jet))
         warning_reset_counter w = (Ok tt, w1) →
       not_acknowledged (returned net (jet_frame x3a jet) w1) →
       Printer.reset_jet_counter net (Z.of_N (Byte.to_N jet)) w
       = (Ok false, after_call (jet_frame x3a jet) w1))
  ∧ (∀ (jet : byte) (variables : list (list byte)) (w1 : world),
       (length (jet :: flat_map (λ v, x12 :: v ++ [x12]) variables)
        < 256)%nat →
       Printer.warn_if_unknown_jet net (Z.of_N (Byte.to_N jet))
         warning_set_variables w = (Ok tt, w1) →
       not_acknowledged (returned net (variables_frame jet variables) w1) →
       Printer.set_external_variable net (Z.of_N (Byte.to_N jet))
         (map (map Byte.to_N) variables) w
       = (Ok false, after_call (variables_frame jet variables) w1))
  ∧ (not_acknowledged (returned net date_query w) →
     Printer.get_autodating_table net w
     = (Ok (false, None), after_call date_query w))
  ∧ (not_acknowledged (returned net parameter_query w) →
     Printer.get_parameters net w
     = (Ok (false, None), after_call parameter_query w))
  ∧ (not_acknowledged (returned net fault_query w) →
     Printer.get_printer_faults net w
     = (Ok (false, None), after_call fault_query w))
  ∧ (not_acknowledged (returned net fault_query w) →
     Printer.get_number_of_available_jets net w
     = (Ok (false, None), after_call fault_query w))
  ∧ (∀ jet : byte,
       not_acknowledged (returned net (jet_frame x33 jet) w) →
       Printer.get_jet_speed net (Z.of_N (Byte.to_N jet)) w
       = (Ok (false, None), after_call (jet_frame x33 jet) w))
  ∧ (∀ (jet : byte) (w1 : world),
       Printer.warn_if_unknown_jet net (Z.of_N (Byte.to_N jet))
         warning_get_status w = (Ok tt, w1) →
       not_acknowledged (returned net (jet_frame x32 jet) w1) →
       Printer.get_jet_status net (Z.of_N (Byte.to_N jet)) w
       = (Ok (false, None), after_call (jet_frame x32 jet) w1))
  ∧ (∀ (jet : byte) (w1 : world),
       Printer.warn_if_unknown_jet net (Z.of_N (Byte.to_N jet))
         warning_get_counter w = (Ok tt, w1) →
       not_acknowledged (returned net (jet_frame x39 jet) w1) →
       Printer.get_jet_counter net (Z.of_N (Byte.to_N jet)) w
       = (Ok (false, 0%Z), after_call (jet_frame x39 jet) w1))
  ∧ (∀ v w', Printer.get_autodating_table net w = (Ok (false, v), w') →
             v = None)
  ∧ (∀ v w', Printer.get_parameters net w = (Ok (false, v), w') → v = None)
  ∧ (∀ v w', Printer.get_printer_faults net w = (Ok (false, v), w') →
             v = None)
  ∧ (∀ v w', Printer.get_number_of_available_jets net w = (Ok (false, v), w') →
             v = None)
  ∧ (∀ jet_id v w', Printer.get_jet_speed net jet_id w = (Ok (false, v), w') →
                    v = None)
  ∧ (∀ jet_id v w', Printer.get_jet_status net jet_id w = (Ok (false, v), w') →
                    v = None)
  ∧ (∀ jet_id v w', Printer.get_jet_counter net jet_id w = (Ok (false, v), w') →
                    v = 0%Z).
Proof.
  repeat apply conj.
  - intros Hnack. unfold Printer.get_v24_dialog.
    rewrite (after_command net _ [x05]) by reflexivity.
    by rewrite ack_of_not_acknowledged.
  - intros Hnack. unfold Printer.reset_printer_faults.
    rewrite (after_command net _ [x3c; x00; x00; x3c]) by reflexivity.
    by rewrite ack_of_not_acknowledged.
  - intros mode Hnack. unfold Printer.start_stop_printer.
    rewrite (after_exchange net _ (jet_frame x30 mode))
      by apply frame_of_jet_command.
    by rewrite ack_of_not_acknowledged.
  - intros d Hvalid Hnack. rewrite set_autodating_table_eq by done.
    by rewrite ack_of_not_acknowledged.
  - intros jet w1 Hwarn Hnack. unfold Printer.reset_jet_counter.
    rewrite after_warning, Hwarn.
    rewrite (after_exchange net _ (jet_frame x3a jet))
      by apply frame_of_jet_command.
    by rewrite ack_of_not_acknowledged.
  - intros jet variables w1 Hlen Hwarn Hnack.
    rewrite (set_external_variable_eq net jet variables w w1 Hlen Hwarn).
    by rewrite ack_of_not_acknowledged.
  - intros Hnack. rewrite get_autodating_table_eq. f_equal.
    unfold Printer.autodating_table_of.
    by rewrite ack_of_not_acknowledged.
  - intros Hnack. rewrite get_parameters_eq. f_equal.
    unfold Printer.parameters_of.
    by rewrite ack_of_not_acknowledged.
  - intros Hnack. rewrite get_printer_faults_eq. f_equal.
    unfold Printer.printer_faults_of.
    by rewrite ack_of_not_acknowledged.
  - intros Hnack.
    rewrite get_number_of_available_jets_eq, get_printer_faults_eq.
    unfold Printer.printer_faults_of.
    by rewrite ack_of_not_acknowledged.
  - intros jet Hnack. unfold Printer.get_jet_speed.
    rewrite (after_exchange net _ (jet_frame x33 jet))
      by apply frame_of_jet_command.
    f_equal. unfold Printer.jet_speed_of.
    by rewrite ack_of_not_acknowledged.
  - intros jet w1 Hwarn Hnack. unfold Printer.get_jet_status.
    rewrite after_warning, Hwarn.
    rewrite (after_exchange net _ (jet_frame x32 jet))
      by apply frame_of_jet_command.
    f_equal. unfold Printer.jet_status_of.
    by rewrite ack_of_not_acknowledged.
  - intros jet w1 Hwarn Hnack. unfold Printer.get_jet_counter.
    rewrite after_warning, Hwarn.
    rewrite (after_exchange net _ (jet_frame x39 jet))
      by apply frame_of_jet_command.
    f_equal. unfold Printer.jet_counter_of.
    by rewrite ack_of_not_acknowledged.
  - intros v w'. rewrite get_autodating_table_eq. intros [= Hr _].
    by apply autodating_table_of_failed in Hr.
  - intros v w'. rewrite get_parameters_eq. intros [= Hr _].
    by apply parameters_of_failed in Hr.
  - intros v w'. rewrite get_printer_faults_eq. intros [= Hr _].
    by apply printer_faults_of_failed in Hr.
  - intros v w'. rewrite get_number_of_available_jets_eq.
    destruct (Printer.get_printer_faults net w)
      as [[[[|] [faults|]]|e] w1]; try discriminate.
    + by destruct (Printer.count_not_present faults).
    + by intros [= <- _].
    + by intros [= <- _].
  - intros jet_id v w' Hop. unfold Printer.get_jet_speed in Hop.
    apply bind_ok_inv in Hop as (r & w2 & _ & Hop).
    apply lift_ok_inv in Hop. by apply jet_speed_of_failed in Hop.
  - intros jet_id v w' Hop. unfold Printer.get_jet_status in Hop.
    apply bind_ok_inv in Hop as (_ & w1 & _ & Hop).
    apply bind_ok_inv in Hop as (r & w2 & _ & Hop).
    apply lift_ok_inv in Hop. by apply jet_status_of_failed in Hop.
  - intros jet_id v w' Hop. unfold Printer.get_jet_counter in Hop.
    apply bind_ok_inv in Hop as (_ & w1 & _ & Hop).
    apply bind_ok_inv in Hop as (r & w2 & _ & Hop).
    apply lift_ok_inv in Hop. by apply jet_counter_of_failed in Hop.
Qed.

(** The theorem at a refused connection (nothing is handed to the
    socket), at a socket that fails after the parameter query was handed
    over, and at a printer that answers the fault query and then refuses
    the command of jet 1 with the byte 15: the status, the counter and the
    external variables. *)
Lemma unacknowledged_reply_has_no_value_witness :
  let down : transport := λ _, Raise OSError in
  let refusing : transport := healthy_then [x15] in
  let closed := {| frames := []; printed := [];
                   connects := [Some OSError] |} in
  let w1 := after_send fault_query initial_world in
  not_acknowledged (returned down date_query closed)
  ∧ Printer.get_autodating_table down closed
    = (Ok (false, None), initial_world)
  ∧ not_acknowledged (returned down parameter_query initial_world)
  ∧ Printer.get_parameters down initial_world
    = (Ok (false, None), after_send parameter_query initial_world)
  ∧ Printer.warn_if_unknown_jet refusing 1 warning_get_status initial_world
    = (Ok tt, w1)
  ∧ not_acknowledged (returned refusing (jet_frame x32 x01) w1)
  ∧ Printer.get_jet_status refusing 1 initial_world
    = (Ok (false, None), after_send (jet_frame x32 x01) w1)
  ∧ Printer.get_jet_counter refusing 1 initial_world
    = (Ok (false, 0%Z), after_send (jet_frame x39 x01) w1)
  ∧ Printer.set_external_variable refusing 1 [text_of "A"] initial_world
    = (Ok false, after_send [x5b; x00; x04; x01; x12; x41; x12; x1f] w1)
  ∧ (∀ v w', Printer.get_jet_counter refusing 1 initial_world
             = (Ok (false, v), w') → v = 0%Z).
Proof.
  intros down refusing closed w1.
  assert (not_acknowledged (returned down date_query closed))
    as Hclosed by exact I.
  assert (not_acknowledged (returned down parameter_query initial_world))
    as Hdown by exact I.
  assert (∀ frame, not_acknowledged (returned refusing frame w1)) as Hnack.
  { intros frame. cbn. discriminate. }
  destruct (unacknowledged_reply_has_no_value down closed)
    as (_ & _ & _ & _ & _ & _ & Hdate & _).
  destruct (unacknowledged_reply_has_no_value down initial_world)
    as (_ & _ & _ & _ & _ & _ & _ & Hparameters & _).
  destruct (unacknowledged_reply_has_no_value refusing initial_world)
    as (_ & _ & _ & _ & _ & Hvariables & _ & _ & _ & _ & _ & Hstatus
        & Hcounter & _ & _ & _ & _ & _ & _ & Hvalue).
  split; [exact Hclosed|]. split; [exact (Hdate Hclosed)|].
  split; [exact Hdown|]. split; [exact (Hparameters Hdown)|].
  split; [reflexivity|]. split; [apply Hnack|].
  split; [exact (Hstatus x01 w1 eq_refl (Hnack _))|].
  split; [exact (Hcounter x01 w1 eq_refl (Hnack _))|].
  split.
  { assert (length (x01 :: flat_map (λ v, x12 :: v ++ [x12]) [[x41]])
            < 256)%nat as Hlen by (cbn; lia).
    exact (Hvariables x01 [[x41]] w1 Hlen eq_refl (Hnack _)). }
  exact (Hvalue 1%Z).
Defined.

(** * Further properties of the module *)

(** ** [string_to_byte] *)

Lemma hex_value_ascii (c : N) (v : N) :
  hex_value c = Some v → (c < 128)%N.
Proof.
  unfold hex_value, digit_value.
  repeat match goal with
         | |- context [if ?b then _ else _] => destruct b eqn:?
         end; try discriminate; intros _;
    repeat match goal with
           | H : (_ && _) = true |- _ => apply andb_true_iff in H as [? ?]
           | H : (_ <=? _)%N = true |- _ => apply N.leb_le in H
           end; lia.
Qed.

Lemma hex_value_high (c : N) : (128 <= c)%N → hex_value c = None.
Proof.
  intros Hc. destruct (hex_value c) as [v|] eqn:Hv; [|done].
  apply hex_value_ascii in Hv. lia.
Qed.

Lemma hex_value_lead_byte (n : N) : hex_value (192 + n) = None.
Proof.
  apply hex_value_high. etrans; [|apply N.le_add_r]. by vm_compute.
Qed.

Lemma decode_hex_escape (a c : N) (rest : list N) :
  decode_unicode_escape (92%N :: 120%N :: a :: c :: rest)
  = match hex_pair a c with
    | Some v => cons v <$> decode_unicode_escape rest
    | None => Raise UnicodeDecodeError
    end.
Proof. reflexivity. Qed.

Lemma encode_utf8_low (a : ascii) (s : string) :
  (N_of_ascii a < 128)%N →
  encode_utf8 (String a s) = N_of_ascii a :: encode_utf8 s.
Proof.
  intros Ha. apply N.ltb_lt in Ha. cbn [encode_utf8]. by rewrite Ha.
Qed.

Lemma encode_utf8_high (a : ascii) (s : string) :
  (128 <= N_of_ascii a)%N →
  encode_utf8 (String a s)
  = (192 + N_of_ascii a / 64)%N :: (128 + N_of_ascii a mod 64)%N
    :: encode_utf8 s.
Proof.
  intros Ha. apply N.ltb_ge in Ha. cbn [encode_utf8]. by rewrite Ha.
Qed.

Lemma hex_pair_below_256 (a c v : N) : hex_pair a c = Some v → (v < 256)%N.
Proof.
  unfold hex_pair, hex_value.
  destruct (digit_value a) as [x|]; [|done].
  destruct (x <? 16)%N eqn:Hx; [|done].
  destruct (digit_value c) as [y|]; [|done].
  destruct (y <? 16)%N eqn:Hy; [|done].
  apply N.ltb_lt in Hx, Hy. intros [= <-]. lia.
Qed.

(** X1. [string_to_byte] turns an escape [\xHH], written with hex digits
    of either case, into the byte HH and goes on with the rest of the
    command; when the two characters after [\x] are not both hex digits
    it fails with [UnicodeDecodeError], whatever follows. *)
Theorem string_to_byte_hex_escape (a c : ascii) (s : string) :
  Utils.string_to_byte (String "\" (String "x" (String a (String c s))))
  = match hex_pair (N_of_ascii a) (N_of_ascii c) with
    | Some v => cons (byte_of_code v) <$> Utils.string_to_byte s
    | None => Raise UnicodeDecodeError
    end.
Proof.
  unfold Utils.string_to_byte.
  change (encode_utf8 (String "\" (String "x" (String a (String c s)))))
    with (92%N :: 120%N :: encode_utf8 (String a (String c s))).
  destruct (N.lt_ge_cases (N_of_ascii a) 128) as [Ha|Ha].
  - rewrite (encode_utf8_low a) by done.
    destruct (N.lt_ge_cases (N_of_ascii c) 128) as [Hc|Hc].
    + rewrite (encode_utf8_low c) by done. rewrite decode_hex_escape.
      destruct (hex_pair (N_of_ascii a) (N_of_ascii c)) as [v|] eqn:Hv;
        [|done].
      destruct (decode_unicode_escape (encode_utf8 s)) as [codes|e];
        [|done].
      cbn [fmap result_fmap]. f_equal.
      unfold encode_raw_unicode_escape. cbn [flat_map].
      apply hex_pair_below_256, N.ltb_lt in Hv. by rewrite Hv.
    + rewrite (encode_utf8_high c) by done. rewrite decode_hex_escape.
      unfold hex_pair.
      rewrite (hex_value_high (N_of_ascii c)) by done.
      rewrite hex_value_lead_byte.
      by destruct (hex_value (N_of_ascii a)).
  - rewrite (encode_utf8_high a) by done. rewrite decode_hex_escape.
    unfold hex_pair.
    rewrite (hex_value_high (N_of_ascii a)) by done.
    by rewrite hex_value_lead_byte.
Qed.

(** ** Frames *)

Lemma frame_of_escape (B : list byte) :
  frame_of (escape B) = Ok (B ++ [byte_of_code (xor_bytes B)]).
Proof.
  unfold frame_of. rewrite calculate_checksum_escape.
  cbn [mbind result_bind].
  rewrite hex2_of_code by apply xor_bytes_below_256.
  replace (escape B +:+ "\x" +:+ hex2 (byte_of_code (xor_bytes B)))
    with (escape (B ++ [byte_of_code (xor_bytes B)])).
  - apply string_to_byte_escape.
  - rewrite escape_app. f_equal. unfold escape. cbn [map concat_strings].
    by rewrite string_app_empty_r.
Qed.

Lemma xor_bytes_snoc (B : list byte) (b : byte) :
  xor_bytes (B ++ [b]) = N.lxor (xor_bytes B) (Byte.to_N b).
Proof. unfold xor_bytes. by rewrite foldl_app. Qed.

(** X2. A framed command checks itself: for every byte sequence [B] the
    frame made of it is one byte longer and the XOR of all its bytes,
    checksum included, is zero. *)
Theorem frame_xor_is_zero (B : list byte) :
  ∃ frame,
    frame_of (escape B) = Ok frame
    ∧ length frame = S (length B)
    ∧ xor_bytes frame = 0%N.
Proof.
  eexists. split; [apply frame_of_escape|]. split.
  - rewrite length_app. cbn. lia.
  - rewrite xor_bytes_snoc, to_N_byte_of_code by apply xor_bytes_below_256.
    apply N.lxor_nilpotent.
Qed.

(** ** Operations that return a status only *)

(** X3. [get_v24_dialog] hands the single byte 05, without checksum, to
    the socket, and [reset_printer_faults] the frame 3C 00 00 3C, once the
    connection is made; when [connect] fails nothing is handed over and
    the operation returns [False].  After the frame was handed over, each
    returns [False] when a socket call fails, [True] exactly when the
    reply starts with the byte 06, and raises [IndexError] on an empty
    reply. *)
Theorem status_only_operations (net : transport) (w : world) :
  Printer.get_v24_dialog net w
  = match refused w with
    | Some _ => (Ok false, after_refusal w)
    | None =>
        (match net (frames w ++ [[x05]]) with
         | Raise _ => Ok false
         | Ok [] => Raise IndexError
         | Ok (b :: _) => Ok (Byte.eqb b x06)
         end, after_send [x05] w)
    end
  ∧ Printer.reset_printer_faults net w
    = match refused w with
      | Some _ => (Ok false, after_refusal w)
      | None =>
          (match net (frames w ++ [[x3c; x00; x00; x3c]]) with
           | Raise _ => Ok false
           | Ok [] => Raise IndexError
           | Ok (b :: _) => Ok (Byte.eqb b x06)
           end, after_send [x3c; x00; x00; x3c] w)
      end.
Proof.
  split.
  - unfold Printer.get_v24_dialog.
    rewrite (after_command net _ [x05]) by reflexivity.
    apply status_of_exchange.
  - unfold Printer.reset_printer_faults.
    rewrite (after_command net _ [x3c; x00; x00; x3c]) by reflexivity.
    apply status_of_exchange.
Qed.

(** X4. For every mode that fits a byte, [start_stop_printer] hands the
    five bytes 30 00 01, the mode and the checksum (31 XOR mode) to the
    socket once the connection is made; when [connect] fails nothing is
    handed over and the operation returns [False].  After the frame was
    handed over it returns [False] when a socket call fails and [True]
    exactly when the reply starts with 06.  The three documented modes
    0, 1 and 255 give the checksums 31, 30 and CE. *)
Theorem start_stop_frame (net : transport) (w : world) (mode : byte) :
  let frame := [x30; x00; x01; mode;
                byte_of_code (N.lxor 49 (Byte.to_N mode))] in
  Printer.start_stop_printer net (Z.of_N (Byte.to_N mode)) w
  = match refused w with
    | Some _ => (Ok false, after_refusal w)
    | None =>
        (match net (frames w ++ [frame]) with
         | Raise _ => Ok false
         | Ok [] => Raise IndexError
         | Ok (b :: _) => Ok (Byte.eqb b x06)
         end, after_send frame w)
    end
  ∧ map (λ m, byte_of_code (N.lxor 49 (Byte.to_N m))) [x00; x01; xff]
    = [x31; x30; xce].
Proof.
  intros frame. split; [|reflexivity].
  unfold Printer.start_stop_printer.
  rewrite (after_exchange net _ frame).
  - apply status_of_exchange.
  - apply (frame_of_jet_command mode).
Qed.

(** ** Operations on a jet *)

(** X5. The advisory check only warns when the fault query succeeds:
    for every jet number that fits a byte, [get_jet_status],
    [get_jet_counter] and [reset_jet_counter] then go on to their own
    exchange, whether the jet number is above the number of jets found or
    not; the warning is printed in the first case only.  When the second
    connection is made they hand their own frame (opcode 32, 39 or 3A, the
    bytes 00 01, the jet number and the checksum) to the socket, and the
    result is decoded from the reply to that frame; when [connect] fails
    this second time the frame is not handed over and the operation
    returns its failed result. *)
Theorem jet_command_sent_after_discovery
    (net : transport) (w w1 : world) (faults : gmap string ascii)
    (jet : byte) :
  Printer.get_printer_faults net w = (Ok (true, Some faults), w1) →
  let jet_id := Z.of_N (Byte.to_N jet) in
  let checked warning := after_check faults jet_id warning w1 in
  Printer.get_jet_status net jet_id w
  = match refused (checked warning_get_status) with
    | Some _ => (Ok (false, None), after_refusal (checked warning_get_status))
    | None =>
        (Printer.jet_status_of
           (reply_of net (jet_frame x32 jet) (checked warning_get_status)),
         after_send (jet_frame x32 jet) (checked warning_get_status))
    end
  ∧ Printer.get_jet_counter net jet_id w
    = match refused (checked warning_get_counter) with
      | Some _ =>
          (Ok (false, 0%Z), after_refusal (checked warning_get_counter))
      | None =>
          (Printer.jet_counter_of
             (reply_of net (jet_frame x39 jet) (checked warning_get_counter)),
           after_send (jet_frame x39 jet) (checked warning_get_counter))
      end
  ∧ Printer.reset_jet_counter net jet_id w
    = match refused (checked warning_reset_counter) with
      | Some _ => (Ok false, after_refusal (checked warning_reset_counter))
      | None =>
          (Utils.extract_response_code
             (reply_of net (jet_frame x3a jet)
                (checked warning_reset_counter)),
           after_send (jet_frame x3a jet) (checked warning_reset_counter))
      end.
Proof.
  intros Hq jet_id checked. subst checked. cbn beta. unfold after_check.
  split; [|split].
  - unfold Printer.get_jet_status.
    rewrite after_warning, (warn_after_discovery _ _ _ _ _ _ Hq).
    rewrite (after_exchange net _ (jet_frame x32 jet))
      by apply frame_of_jet_command.
    by apply decoded_exchange.
  - unfold Printer.get_jet_counter.
    rewrite after_warning, (warn_after_discovery _ _ _ _ _ _ Hq).
    rewrite (after_exchange net _ (jet_frame x39 jet))
      by apply frame_of_jet_command.
    by apply decoded_exchange.
  - unfold Printer.reset_jet_counter.
    rewrite after_warning, (warn_after_discovery _ _ _ _ _ _ Hq).
    rewrite (after_exchange net _ (jet_frame x3a jet))
      by apply frame_of_jet_command.
    by apply decoded_exchange.
Qed.

(** The theorem for jet 5 on a printer that reports four jets and
    acknowledges the status command with status 07: the warning is
    printed and the status is still asked for and returned.  When the
    second connection is refused, the fault query is the only frame handed
    to the socket. *)
Lemma jet_command_sent_after_discovery_witness :
  let net := healthy_then [x06; x00; x00; x00; x07] in
  let faults := faults_by_table [x00; x00; x00; x00; x00; x00; x00; x00; x00;
                                 x00; x00; x00; x00; x00; x00] in
  let once := {| frames := []; printed := [];
                 connects := [None; Some OSError] |} in
  Printer.get_printer_faults net initial_world
  = (Ok (true, Some faults), after_send fault_query initial_world)
  ∧ Printer.get_jet_status net 5 initial_world
    = (Ok (true, Some "Jet running"),
       {| frames := [fault_query; [x32; x00; x01; x05; x36]];
          printed := [warning_get_status]; connects := [] |})
  ∧ Printer.get_printer_faults net once
    = (Ok (true, Some faults), after_send fault_query once)
  ∧ Printer.get_jet_status net 5 once
    = (Ok (false, None),
       {| frames := [fault_query]; printed := [warning_get_status];
          connects := [] |}).
Proof.
  intros net faults once.
  assert (Printer.get_printer_faults net initial_world
          = (Ok (true, Some faults), after_send fault_query initial_world))
    as Hq by reflexivity.
  assert (Printer.get_printer_faults net once
          = (Ok (true, Some faults), after_send fault_query once))
    as Hq' by reflexivity.
  split; [exact Hq|]. split.
  { exact (proj1 (jet_command_sent_after_discovery net initial_world _ faults
                    x05 Hq)). }
  split; [exact Hq'|].
  exact (proj1 (jet_command_sent_after_discovery net once _ faults x05 Hq')).
Defined.

(** X6. [get_jet_status] decodes byte 4 of an acknowledged reply through
    its table: the values 0 to 7 give the eight labels, from
    [Jet stopped] to [Jet running]; any other value raises [KeyError];
    an acknowledged reply of fewer than five bytes raises
    [IndexError]. *)
Theorem jet_status_labels (h1 h2 h3 b : byte) (rest : list byte) :
  Printer.jet_status_of (hex_items (x06 :: h1 :: h2 :: h3 :: b :: rest))
  = match status_labels !! N.to_nat (Byte.to_N b) with
    | Some label => Ok (true, Some label)
    | None => Raise KeyError
    end
  ∧ map Printer.jet_status_of
      (map hex_items [[x06]; [x06; h1]; [x06; h1; h2]; [x06; h1; h2; h3]])
    = [Raise IndexError; Raise IndexError; Raise IndexError;
       Raise IndexError].
Proof.
  split.
  - unfold Printer.jet_status_of. rewrite ack_of_reply.
    change (Byte.eqb x06 x06) with true. cbn [mbind result_bind].
    change (resp_index (hex_items (x06 :: h1 :: h2 :: h3 :: b :: rest)) 4)
      with (Ok (A:=string) (hex2 b)).
    cbn [mbind result_bind].
    destruct b; reflexivity.
  - unfold Printer.jet_status_of. cbn [map].
    rewrite !ack_of_reply. reflexivity.
Qed.

(** X7. [get_jet_speed] reads the two hex digits of byte 4 of an
    acknowledged reply as a decimal number and divides it by ten: when
    both digits are 0 to 9 the speed is (10 * high + low) / 10, and when
    one of them is a letter a to f the operation raises [ValueError]. *)
Theorem jet_speed_decimal_reading (h1 h2 h3 b : byte) (rest : list byte) :
  Printer.jet_speed_of (hex_items (x06 :: h1 :: h2 :: h3 :: b :: rest))
  = if ((high_digit b <? 10) && (low_digit b <? 10))%N
    then Ok (true,
             Some (float_of_ratio
                     (Z.of_N (10 * high_digit b + low_digit b)) 10))
    else Raise ValueError.
Proof. rewrite jet_speed_of_reply. destruct b; reflexivity. Qed.

(** ** The fault query *)

(** X8. Every outcome of [get_printer_faults].  When [connect] fails
    nothing is handed to the socket and the operation returns
    [(False, None)].  When the connection is made it hands the frame
    3B 00 00 3B to the socket, and returns [(False, None)] when a socket
    call fails after that or the reply starts with another byte than 06,
    raises [IndexError] on an empty reply and on an acknowledged reply of
    fewer than nineteen bytes, and otherwise returns the dictionary read
    from the bytes 4 to 18 through the two tables.  It returns no other
    value and raises no other exception. *)
Theorem fault_query_outcomes (net : transport) (w : world) :
  Printer.get_printer_faults net w
  = match refused w with
    | Some _ => (Ok (false, None), after_refusal w)
    | None =>
        (match net (frames w ++ [fault_query]) with
         | Raise _ => Ok (false, None)
         | Ok [] => Raise IndexError
         | Ok (b :: bs) =>
             if Byte.eqb b x06 then
               if decide (length bs < 18)%nat then Raise IndexError
               else Ok (true, Some (faults_by_table (take 15 (drop 3 bs))))
             else Ok (false, None)
         end, after_send fault_query w)
    end.
Proof.
  rewrite get_printer_faults_eq.
  rewrite (decoded_exchange net fault_query Printer.printer_faults_of
             (false, None)) by done.
  destruct (refused w); [done|]. f_equal. unfold reply_of.
  destruct (net _) as [[|b bs]|e]; try reflexivity.
  destruct (Byte.eqb b x06) eqn:Hb.
  - apply Byte.byte_dec_bl in Hb as ->. apply printer_faults_of_acked.
  - by apply printer_faults_of_nack.
Qed.

(** The faults of the printer itself stand under their own names and are
    read from the bytes 4 to 6 of the reply. *)
Lemma device_keys_of_table
    (h1 h2 h3 p0 p1 p2 p3 p4 p5 p6 p7 p8 p9 p10 p11 p12 p13 p14 : byte)
    (rest : list byte) :
  let payload := [p0; p1; p2; p3; p4; p5; p6; p7; p8; p9; p10; p11; p12;
                  p13; p14] in
  let reply := x06 :: h1 :: h2 :: h3 :: payload ++ rest in
  Forall (λ e : string * nat * N,
            faults_by_table payload !! e.1.1
            = Some (bit_char (nth_byte reply (4 + e.1.2)) e.2))
         device_fault_table.
Proof.
  intros payload reply. subst payload reply.
  repeat (constructor; [reflexivity|]). constructor.
Qed.

(** X9. After every successful [get_printer_faults] each of the nineteen
    faults of the printer is the bit that the table names, in the bytes
    4, 5 and 6 of the reply: [ink_level_low] is bit 0 of byte 4,
    [pigmented_ink_circuit_fault] bit 7 of byte 4, [rom_fault] bit 7 of
    byte 5, [v24_fault] bit 0 of byte 6, and so on. *)
Theorem device_faults_by_table
    (net : transport) (w w' : world) (faults : gmap string ascii) :
  Printer.get_printer_faults net w = (Ok (true, Some faults), w') →
  ∃ reply,
    net (frames w ++ [fault_query]) = Ok reply
    ∧ Forall (λ e : string * nat * N,
                faults !! e.1.1
                = Some (bit_char (nth_byte reply (4 + e.1.2)) e.2))
             device_fault_table.
Proof.
  intros Hok.
  destruct (get_printer_faults_success _ _ _ _ Hok)
    as (h1 & h2 & h3 & p0 & p1 & p2 & p3 & p4 & p5 & p6 & p7 & p8 & p9
        & p10 & p11 & p12 & p13 & p14 & rest & Hnet & -> & _).
  eexists. split; [exact Hnet|].
  exact (device_keys_of_table h1 h2 h3 p0 p1 p2 p3 p4 p5 p6 p7 p8 p9 p10
           p11 p12 p13 p14 rest).
Qed.

(** The theorem at a reply whose byte 4 is 81 hex: the ink level is low
    and the pigmented ink circuit is faulty. *)
Lemma device_faults_by_table_witness :
  let reply := [x06; x00; x00; x00; x81; x00; x00; x00; x00; x00; x00; x00;
                x00; x00; x00; x00; x00; x00; x00] in
  let net : transport := λ _, Ok reply in
  let faults := faults_by_table (take 15 (drop 4 reply)) in
  Printer.get_printer_faults net initial_world
    = (Ok (true, Some faults), after_send fault_query initial_world)
  ∧ faults !! "ink_level_low" = Some "1"%char
  ∧ faults !! "pressure_error" = Some "0"%char
  ∧ faults !! "pigmented_ink_circuit_fault" = Some "1"%char.
Proof.
  intros reply net faults.
  assert (Printer.get_printer_faults net initial_world
          = (Ok (true, Some faults), after_send fault_query initial_world))
    as Hok by reflexivity.
  split; [exact Hok|].
  destruct (device_faults_by_table net initial_world _ faults Hok)
    as (reply' & Hnet & Hkeys).
  repeat split; reflexivity.
Defined.

(** X10. When [get_number_of_available_jets] succeeds its count is a
    number from 0 to 4, and it never succeeds without a count. *)
Theorem available_jets_in_range
    (net : transport) (w w' : world) (count : option Z) :
  Printer.get_number_of_available_jets net w = (Ok (true, count), w') →
  ∃ n, count = Some n ∧ (0 <= n <= 4)%Z.
Proof.
  rewrite get_number_of_available_jets_eq.
  destruct (Printer.get_printer_faults net w)
    as [[[[|] [faults|]]|e] w1] eqn:Hq; try discriminate.
  destruct (get_printer_faults_success _ _ _ _ Hq)
    as (h1 & h2 & h3 & p0 & p1 & p2 & p3 & p4 & p5 & p6 & p7 & p8 & p9
        & p10 & p11 & p12 & p13 & p14 & rest & _ & -> & _).
  rewrite count_not_present_table. intros [= <- _].
  eexists. split; [reflexivity|].
  unfold jets_present.
  pose proof (length_filter
                (λ jet_id,
                   faults_by_table [p0; p1; p2; p3; p4; p5; p6; p7; p8; p9;
                                    p10; p11; p12; p13; p14]
                   !! jet_key jet_id "_not_present" = Some "0"%char)
                [0; 1; 2; 3]%nat) as Hlen.
  cbn [length] in Hlen. lia.
Qed.

(** The theorem at a printer whose second and fourth jets are not
    present. *)
Lemma available_jets_in_range_witness :
  let reply := [x06; x00; x00; x00; x00; x00; x00; x00; x00; x00; x00; x00;
                x01; x00; x00; x00; x00; x00; x01] in
  let net : transport := λ _, Ok reply in
  Printer.get_number_of_available_jets net initial_world
    = (Ok (true, Some 2%Z), after_send fault_query initial_world)
  ∧ ∃ n, Some 2%Z = Some n ∧ (0 <= n <= 4)%Z.
Proof.
  intros reply net.
  assert (Printer.get_number_of_available_jets net initial_world
          = (Ok (true, Some 2%Z), after_send fault_query initial_world))
    as Hok by reflexivity.
  split; [exact Hok|].
  exact (available_jets_in_range net initial_world _ _ Hok).
Defined.

(** ** Negative numbers *)

Lemma split_backslash_x_step (c : ascii) (s cur : string) :
  split_backslash_x (String c s) cur
  = match s with
    | String c' rest =>
        if decide (c = "\"%char ∧ c' = "x"%char)
        then cur :: split_backslash_x rest ""
        else split_backslash_x s (cur +:+ String c "")
    | "" => split_backslash_x s (cur +:+ String c "")
    end.
Proof.
  destruct s as [|c' rest].
  - destruct c as [[] [] [] [] [] [] [] []]; reflexivity.
  - destruct (decide (c = "\"%char ∧ c' = "x"%char)) as [[-> ->]|Hne];
      [reflexivity|].
    destruct c as [[] [] [] [] [] [] [] []]; try reflexivity.
    destruct c' as [[] [] [] [] [] [] [] []]; try reflexivity.
    by destruct Hne.
Qed.

(** The first piece of a split starts with the piece being read. *)
Lemma split_backslash_x_head (s cur : string) :
  ∃ seg more, split_backslash_x s cur = (cur +:+ seg) :: more.
Proof.
  revert cur. induction s as [|c s IH]; intros cur.
  - exists "", []. by rewrite string_app_empty_r.
  - rewrite split_backslash_x_step.
    destruct s as [|c' rest].
    + exists (String c ""), []. reflexivity.
    + destruct (decide _).
      * exists "", (split_backslash_x rest ""). by rewrite string_app_empty_r.
      * destruct (IH (cur +:+ String c "")) as (seg & more & ->).
        exists (String c seg), more. by rewrite string_app_assoc.
Qed.

Lemma lstrip_snoc (l : text) (x : N) :
  is_space x = false → lstrip (l ++ [x]) = lstrip l ++ [x].
Proof.
  intros Hx. induction l as [|c l IH]; cbn [app lstrip].
  - by rewrite Hx.
  - destruct (is_space c); [exact IH|done].
Qed.

(** Stripping leaves three leading characters that are no blanks in
    place. *)
Lemma strip_three (a b c : N) (l : text) :
  is_space a = false → is_space b = false → is_space c = false →
  ∃ l', strip (a :: b :: c :: l) = a :: b :: c :: l'.
Proof.
  intros Ha Hb Hc. unfold strip. cbn [lstrip]. rewrite Ha.
  exists (rev (lstrip (rev l))).
  cbn [rev]. rewrite !lstrip_snoc by done.
  by rewrite !rev_app_distr.
Qed.

(** A piece that starts with a minus sign is no hex number. *)
Lemma int_of_minus_piece (seg : string) :
  py_int 16 (text_of ("0x" +:+ String "-" seg)) = Raise ValueError.
Proof.
  change (text_of ("0x" +:+ String "-" seg))
    with (48%N :: 120%N :: 45%N :: text_of seg).
  unfold py_int.
  change (to_ascii_decimal (48%N :: 120%N :: 45%N :: text_of seg))
    with (48%N :: 120%N :: 45%N :: to_ascii_decimal (text_of seg)).
  destruct (strip_three 48 120 45 (to_ascii_decimal (text_of seg)))
    as (l' & ->); try done.
Qed.

Lemma checksum_fold_raise (e : exn) (pieces : list string) :
  foldl (λ acc hex_num,
           check ← acc;
           n ← py_int 16 (text_of ("0x" +:+ hex_num));
           Ok (Z.lxor check n))
        (Raise e) pieces
  = Raise e.
Proof. induction pieces as [|p pieces IH]; [done|exact IH]. Qed.

Lemma dec_to_hex_negative (n : Z) :
  (n < 0)%Z → ∃ rest, Utils.dec_to_hex n = String "-" rest.
Proof.
  intros Hn. unfold Utils.dec_to_hex, format_x.
  apply Z.ltb_lt in Hn. rewrite Hn. eauto.
Qed.

(** A command of opcode, 00 01 and a negative number cannot be
    framed. *)
Lemma checksum_of_negative (opcode : byte) (n : Z) :
  (n < 0)%Z →
  Utils.calculate_checksum
    ("\x" +:+ hex2 opcode +:+ "\x00\x01\x" +:+ Utils.dec_to_hex n)
  = Raise ValueError.
Proof.
  intros Hn. destruct (dec_to_hex_negative n Hn) as (rest & ->).
  unfold Utils.calculate_checksum.
  assert (split_backslash_x
            ("\x" +:+ hex2 opcode +:+ "\x00\x01\x" +:+ String "-" rest) ""
          = "" :: hex2 opcode :: "00" :: "01"
            :: split_backslash_x rest "-") as ->.
  { destruct opcode; reflexivity. }
  destruct (split_backslash_x_head rest "-") as (seg & more & ->).
  cbn [tail foldl]. rewrite int_hex2. cbn [mbind result_bind].
  change ("-" +:+ seg) with (String "-" seg).
  assert (∀ acc : Z,
            (n0 ← py_int 16 (text_of ("0x" +:+ "00")); Ok (Z.lxor acc n0))
            = Ok (Z.lxor acc 0)) as H00 by reflexivity.
  assert (∀ acc : Z,
            (n0 ← py_int 16 (text_of ("0x" +:+ "01")); Ok (Z.lxor acc n0))
            = Ok (Z.lxor acc 1)) as H01 by reflexivity.
  rewrite H00. cbn [mbind result_bind]. rewrite H01.
  cbn [mbind result_bind]. rewrite int_of_minus_piece.
  cbn [mbind result_bind]. by rewrite checksum_fold_raise.
Qed.

(** X11. A negative mode or jet number never reaches the printer:
    [dec_to_hex] writes it with a minus sign, [calculate_checksum] cannot
    read that piece as a hex number, and [start_stop_printer] and
    [get_jet_speed] raise [ValueError] before anything is handed to the
    socket. *)
Theorem negative_number_is_not_sent (net : transport) (w : world) (n : Z) :
  (n < 0)%Z →
  Printer.start_stop_printer net n w = (Raise ValueError, w)
  ∧ Printer.get_jet_speed net n w = (Raise ValueError, w).
Proof.
  intros Hn. split.
  - unfold Printer.start_stop_printer, Printer.send_checked, mbind, M_bind,
      lift.
    change ("\x30\x00\x01\x" +:+ Utils.dec_to_hex n)
      with ("\x" +:+ hex2 x30 +:+ "\x00\x01\x" +:+ Utils.dec_to_hex n).
    by rewrite checksum_of_negative.
  - unfold Printer.get_jet_speed, Printer.send_checked, mbind, M_bind, lift.
    change ("\x33\x00\x01\x" +:+ Utils.dec_to_hex n)
      with ("\x" +:+ hex2 x33 +:+ "\x00\x01\x" +:+ Utils.dec_to_hex n).
    by rewrite checksum_of_negative.
Qed.

(** The theorem at the mode -1 on a printer that would acknowledge. *)
Lemma negative_number_is_not_sent_witness :
  (-1 < 0)%Z
  ∧ Printer.start_stop_printer (λ _, Ok [x06]) (-1) initial_world
    = (Raise ValueError, initial_world)
  ∧ Printer.get_jet_speed (λ _, Ok [x06]) (-1) initial_world
    = (Raise ValueError, initial_world).
Proof.
  assert (-1 < 0)%Z as Hneg by lia.
  split; [exact Hneg|].
  exact (negative_number_is_not_sent (λ _, Ok [x06]) initial_world (-1) Hneg).
Defined.

(** ** Text of a reply *)

(** X12. [hex_to_text] gives back the text of a reply window: for bytes
    below 80 hex, joining their hex items and converting them yields the
    characters with those codes, one character for each byte. *)
Theorem hex_to_text_of_ascii (bs : list byte) :
  Forall (λ b, (Byte.to_N b < 128)%N) bs →
  Utils.hex_to_text (concat_strings (map hex2 bs)) = Ok (map Byte.to_N bs).
Proof.
  intros Hascii. rewrite hex_to_text_items. apply decode_utf8_ascii.
  by apply Forall_map.
Qed.

(** The theorem at the bytes of the text [12,5]. *)
Lemma hex_to_text_of_ascii_witness :
  Forall (λ b, (Byte.to_N b < 128)%N) [x31; x32; x2c; x35]
  ∧ Utils.hex_to_text "31322c35" = Ok (text_of "12,5").
Proof.
  assert (Forall (λ b, (Byte.to_N b < 128)%N) [x31; x32; x2c; x35]) as Hascii.
  { repeat constructor. }
  split; [exact Hascii|].
  exact (hex_to_text_of_ascii [x31; x32; x2c; x35] Hascii).
Defined.

(** ** External variables, the frame *)

(** X13. After a successful fault query, for every jet number that fits
    a byte and every list of variables whose characters have codes below
    256, [set_external_variable] goes on to its own exchange.  When that
    connection is made it hands this frame to the socket: 5B, the two
    length bytes, the jet number, each variable between two bytes 12, and
    the checksum; and it returns the acknowledgement of the reply.  As
    long as fewer than 256 bytes follow the length field, its two bytes
    are 00 and the number of bytes between the length field and the
    checksum: the jet byte, the characters of the variables and two
    delimiters for each variable.  When [connect] fails this second time,
    nothing more is handed to the socket and the operation returns
    [False]. *)
Theorem external_variables_frame
    (net : transport) (w w1 : world) (faults : gmap string ascii)
    (jet : byte) (variables : list (list byte)) :
  Printer.get_printer_faults net w = (Ok (true, Some faults), w1) →
  let body := jet :: flat_map (λ v, x12 :: v ++ [x12]) variables in
  (length body < 256)%nat →
  let jet_id := Z.of_N (Byte.to_N jet) in
  let w2 := after_check faults jet_id warning_set_variables w1 in
  let head := [x5b; x00; byte_of_code (N.of_nat (length body))] in
  let frame := (head ++ body) ++ [byte_of_code (xor_bytes (head ++ body))] in
  Printer.set_external_variable net jet_id (map (map Byte.to_N) variables) w
  = match refused w2 with
    | Some _ => (Ok false, after_refusal w2)
    | None =>
        (Utils.extract_response_code (reply_of net frame w2),
         after_send frame w2)
    end.
Proof.
  intros Hq body Hlen jet_id w2 head frame.
  etrans.
  { exact (set_external_variable_eq net jet variables w w2 Hlen
             (warn_after_discovery _ _ _ _ _ _ Hq)). }
  exact (decoded_exchange net frame Utils.extract_response_code false w2
           (λ e, eq_refl)).
Qed.

(** The theorem for jet 1 and the variables [AB] and [c] on a printer
    without faults: eight bytes follow the length field. *)
Lemma external_variables_frame_witness :
  let net := healthy_then [x06] in
  let w1 := after_send fault_query initial_world in
  let faults := faults_by_table [x00; x00; x00; x00; x00; x00; x00; x00; x00;
                                 x00; x00; x00; x00; x00; x00] in
  let frame := [x5b; x00; x08; x01; x12; x41; x42; x12; x12; x63; x12; x32] in
  Printer.get_printer_faults net initial_world = (Ok (true, Some faults), w1)
  ∧ (length (x01 :: flat_map (λ v, x12 :: v ++ [x12]) [[x41; x42]; [x63]])
     < 256)%nat
  ∧ Printer.set_external_variable net 1 [text_of "AB"; text_of "c"]
      initial_world
    = (Ok true, after_send frame w1).
Proof.
  intros net w1 faults frame.
  assert (Printer.get_printer_faults net initial_world
          = (Ok (true, Some faults), w1)) as Hq by reflexivity.
  assert (length (x01 :: flat_map (λ v, x12 :: v ++ [x12])
                                  [[x41; x42]; [x63]]) < 256)%nat as Hlen
    by (cbn; lia).
  split; [exact Hq|]. split; [exact Hlen|].
  exact (external_variables_frame net initial_world w1 faults x01
           [[x41; x42]; [x63]] Hq Hlen).
Defined.

(** ** Decimal fields *)

(** X14. [get_jet_counter] reads the nine bytes 4 to 12 of an
    acknowledged reply as a decimal number: when they are nine ASCII
    digits the operation returns success with the number they write,
    leading zeros included, whatever follows them in the reply. *)
Theorem jet_counter_of_digits (h1 h2 h3 : byte) (ds : list N)
    (rest : list byte) :
  length ds = 9%nat →
  Forall (λ d, (d < 10)%N) ds →
  Printer.jet_counter_of
    (hex_items (x06 :: h1 :: h2 :: h3 :: digit_bytes ds ++ rest))
  = Ok (true, Z.of_N (digits_value ds)).
Proof.
  intros Hlen Hds. unfold Printer.jet_counter_of. rewrite ack_of_reply.
  change (Byte.eqb x06 x06) with true. cbn [mbind result_bind].
  pose proof (window_of_reply x06 h1 h2 h3 (digit_bytes ds ++ rest) 9)
    as Hwindow.
  change (4 + 9)%nat with 13%nat in Hwindow. rewrite Hwindow by lia.
  cbn [mbind result_bind].
  rewrite take_app_length' by (unfold digit_bytes; by rewrite length_map).
  rewrite hex_to_text_items, codes_of_digit_bytes by done.
  rewrite decode_utf8_ascii.
  - cbn [mbind result_bind]. rewrite int_of_decimal; [done|done|].
    by destruct ds.
  - apply Forall_map. eapply Forall_impl; [exact Hds|].
    intros d Hd. cbn beta in *. lia.
Qed.

(** The theorem at the counter 000001234. *)
Lemma jet_counter_of_digits_witness :
  let ds := [0; 0; 0; 0; 0; 1; 2; 3; 4]%N in
  length ds = 9%nat
  ∧ Forall (λ d, (d < 10)%N) ds
  ∧ Printer.jet_counter_of
      (hex_items ([x06; x00; x00; x00]
                  ++ map byte_of_code (text_of "000001234")))
    = Ok (true, 1234%Z).
Proof.
  intros ds.
  assert (Forall (λ d, (d < 10)%N) ds) as Hds by repeat constructor.
  split; [reflexivity|]. split; [exact Hds|].
  exact (jet_counter_of_digits x00 x00 x00 ds [] eq_refl Hds).
Defined.

(** ** Dates that [strptime] returns *)

(** X15. Every date that [get_autodating_table] returns passed the
    checks of the [datetime] constructor (a day that exists in its month,
    hours below 24, minutes and seconds below 60) and lies in the years
    1969 to 2068, the years a two-digit year stands for; and the text
    window of the reply held at least seven and at most twelve digits.
    The operation returns no date otherwise. *)
Theorem returned_date_is_valid
    (net : transport) (w w' : world) (value : option datetime) :
  Printer.get_autodating_table net w = (Ok (true, value), w') →
  ∃ d h1 h2 h3 window data,
    value = Some d
    ∧ valid_datetime d = true
    ∧ (1969 <= year d <= 2068)%Z
    ∧ net (frames w ++ [date_query]) = Ok (x06 :: h1 :: h2 :: h3 :: window)
    ∧ decode_utf8 (map Byte.to_N (take 22 window)) = Ok data
    ∧ (7 <= length (keep_digits data) <= 12)%nat.
Proof.
  rewrite get_autodating_table_eq. intros [= Hr _]. revert Hr.
  unfold returned. destruct (refused w); [done|]. unfold reply_of.
  destruct (net _) as [[|b bs]|e] eqn:Hnet; [done| |done].
  unfold Printer.autodating_table_of at 1. rewrite ack_of_reply.
  destruct (Byte.eqb b x06) eqn:Hb; [|done].
  apply Byte.byte_dec_bl in Hb as ->. cbn [mbind result_bind].
  destruct bs as [|h1 [|h2 [|h3 window]]].
  - intros Hr. exfalso. revert Hr. by vm_compute.
  - intros Hr. exfalso. revert Hr. destruct h1; by vm_compute.
  - intros Hr. exfalso. revert Hr.
    change (resp_slice 4 26 (hex_items [x06; h1; h2])) with (Ok (A:=list string) []).
    by vm_compute.
  - pose proof (window_of_reply x06 h1 h2 h3 window 22) as Hwindow.
    change (4 + 22)%nat with 26%nat in Hwindow. rewrite Hwindow by lia.
    cbn [mbind result_bind]. rewrite hex_to_text_items.
    destruct (decode_utf8 _) as [data|] eqn:Hdata; [|done].
    cbn [mbind result_bind].
    destruct (strptime_SMHdmy (keep_digits data)) as [d|] eqn:Hdate; [|done].
    intros [= <-]. apply strptime_inv in Hdate as (Hvalid & Hyear & Hlen).
    by exists d, h1, h2, h3, window, data.
Qed.

(** The theorem at a reply whose window is the text [59/59/23/31/12/99]
    padded with spaces. *)
Lemma returned_date_is_valid_witness :
  let window := map byte_of_code (text_of "59/59/23/31/12/99     ") in
  let net : transport := λ _, Ok (x06 :: x00 :: x00 :: x00 :: window) in
  let d := Datetime 1999 12 31 23 59 59 0 None in
  Printer.get_autodating_table net initial_world
    = (Ok (true, Some d), after_send date_query initial_world)
  ∧ ∃ d' h1 h2 h3 window' data,
      Some d = Some d'
      ∧ valid_datetime d' = true
      ∧ (1969 <= year d' <= 2068)%Z
      ∧ net (frames initial_world ++ [date_query])
        = Ok (x06 :: h1 :: h2 :: h3 :: window')
      ∧ decode_utf8 (map Byte.to_N (take 22 window')) = Ok data
      ∧ (7 <= length (keep_digits data) <= 12)%nat.
Proof.
  intros window net d.
  assert (Printer.get_autodating_table net initial_world
          = (Ok (true, Some d), after_send date_query initial_world))
    as Hok by reflexivity.
  split; [exact Hok|].
  exact (returned_date_is_valid net initial_world _ _ Hok).
Defined.

(** ** More on frames *)

(** X16. [get_jet_speed] makes no advisory check: for every jet number
    that fits a byte it makes one exchange.  When the connection is made
    it hands one frame to the socket, 33 00 01, the jet number and the
    checksum, and decodes the reply to it; when [connect] fails it hands
    nothing over and returns [(False, None)].  Either way no fault query
    is made and nothing is printed. *)
Theorem jet_speed_single_exchange (net : transport) (w : world) (jet : byte) :
  let frame := [x33; x00; x01; jet;
                byte_of_code (N.lxor 50 (Byte.to_N jet))] in
  let run := Printer.get_jet_speed net (Z.of_N (Byte.to_N jet)) w in
  run = match refused w with
        | Some _ => (Ok (false, None), after_refusal w)
        | None =>
            (Printer.jet_speed_of (reply_of net frame w), after_send frame w)
        end
  ∧ frames run.2 = match refused w with
                   | Some _ => frames w
                   | None => frames w ++ [frame]
                   end
  ∧ printed run.2 = printed w.
Proof.
  intros frame run.
  assert (run = match refused w with
                | Some _ => (Ok (false, None), after_refusal w)
                | None =>
                    (Printer.jet_speed_of (reply_of net frame w),
                     after_send frame w)
                end) as Hrun.
  { subst run. unfold Printer.get_jet_speed.
    rewrite (after_exchange net _ frame) by apply (frame_of_jet_command jet).
    by apply decoded_exchange. }
  split; [exact Hrun|]. rewrite Hrun.
  by destruct (refused w).
Qed.

Lemma xor_bytes_app (A B : list byte) :
  xor_bytes (A ++ B) = N.lxor (xor_bytes A) (xor_bytes B).
Proof.
  induction B as [|b B IH] using rev_ind.
  - rewrite app_nil_r. unfold xor_bytes at 3. cbn. by rewrite N.lxor_0_r.
  - rewrite app_assoc, !xor_bytes_snoc, IH. by rewrite N.lxor_assoc.
Qed.

Lemma to_N_inj (a b : byte) : Byte.to_N a = Byte.to_N b → a = b.
Proof.
  intros Heq. apply (f_equal Byte.of_N) in Heq.
  rewrite !Byte.of_to_N in Heq. by injection Heq.
Qed.

Lemma byte_of_code_inj (m n : N) :
  (m < 256)%N → (n < 256)%N → byte_of_code m = byte_of_code n → m = n.
Proof.
  intros Hm Hn Heq. apply (f_equal Byte.to_N) in Heq.
  by rewrite !to_N_byte_of_code in Heq.
Qed.

Lemma lxor_cancel_l (a x y : N) : N.lxor a x = N.lxor a y → x = y.
Proof.
  intros Heq. apply (f_equal (N.lxor a)) in Heq.
  by rewrite <- !N.lxor_assoc, N.lxor_nilpotent, !N.lxor_0_l in Heq.
Qed.

(** X17. What the checksum detects.  Two commands that differ in one
    byte get different checksum bytes; two commands with the same bytes
    in another order (here: two parts exchanged) get the same checksum
    byte. *)
Theorem checksum_detection (B1 B2 : list byte) (b b' : byte) :
  b ≠ b' →
  let checksum (B : list byte) := byte_of_code (xor_bytes B) in
  frame_of (escape (B1 ++ b :: B2))
    = Ok ((B1 ++ b :: B2) ++ [checksum (B1 ++ b :: B2)])
  ∧ frame_of (escape (B1 ++ b' :: B2))
    = Ok ((B1 ++ b' :: B2) ++ [checksum (B1 ++ b' :: B2)])
  ∧ checksum (B1 ++ b :: B2) ≠ checksum (B1 ++ b' :: B2)
  ∧ checksum (B1 ++ B2) = checksum (B2 ++ B1).
Proof.
  intros Hne checksum. subst checksum. cbn beta.
  split; [apply frame_of_escape|]. split; [apply frame_of_escape|]. split.
  - intros Heq. apply byte_of_code_inj in Heq;
      [|apply xor_bytes_below_256..].
    change (b :: B2) with ([b] ++ B2) in Heq.
    change (b' :: B2) with ([b'] ++ B2) in Heq.
    rewrite !xor_bytes_app in Heq. apply lxor_cancel_l in Heq.
    rewrite (N.lxor_comm (xor_bytes [b])) in Heq.
    rewrite (N.lxor_comm (xor_bytes [b'])) in Heq.
    apply lxor_cancel_l in Heq.
    unfold xor_bytes in Heq. cbn [foldl] in Heq.
    rewrite !N.lxor_0_l in Heq. by apply Hne, to_N_inj.
  - by rewrite !xor_bytes_app, N.lxor_comm.
Qed.

(** The theorem at the start command with the mode 01 changed to 02. *)
Lemma checksum_detection_witness :
  x01 ≠ x02
  ∧ frame_of (escape [x30; x00; x01; x00]) = Ok [x30; x00; x01; x00; x31]
  ∧ frame_of (escape [x30; x00; x02; x00]) = Ok [x30; x00; x02; x00; x32]
  ∧ x31 ≠ x32.
Proof.
  assert (x01 ≠ x02) as Hne by discriminate.
  split; [exact Hne|].
  destruct (checksum_detection [x30; x00] [x00] x01 x02 Hne)
    as (Hframe & Hframe' & Hdiffer & _).
  split; [exact Hframe|]. split; [exact Hframe'|]. exact Hdiffer.
Defined.

(** X18. The set command does not carry the century: two valid dates
    that differ by a hundred years in the year only are sent as the same
    frame, so [set_autodating_table] behaves the same on both. *)
Theorem century_is_not_sent (net : transport) (w : world) (d : datetime) :
  let later := Datetime (year d + 100) (month d) (day d) (hour d)
                        (minute d) (second d) (microsecond d) (tzinfo d) in
  valid_datetime d = true →
  valid_datetime later = true →
  set_date_frame later = set_date_frame d
  ∧ Printer.set_autodating_table net later w
    = Printer.set_autodating_table net d w.
Proof.
  intros later Hvalid Hlater.
  assert (set_date_frame later = set_date_frame d) as Hframe.
  { unfold set_date_frame, date_payload, date_bytes. subst later.
    cbn [year month day hour minute second].
    replace ((year d + 100) mod 100)%Z with (year d mod 100)%Z; [done|].
    by rewrite <- (Z_mod_plus_full (year d) 1 100), Z.mul_1_l. }
  split; [exact Hframe|].
  by rewrite !set_autodating_table_eq, Hframe.
Qed.

(** The theorem at the last second of 1999 and of 2099. *)
Lemma century_is_not_sent_witness :
  let d := Datetime 1999 12 31 23 59 59 0 None in
  let later := Datetime 2099 12 31 23 59 59 0 None in
  valid_datetime d = true
  ∧ valid_datetime later = true
  ∧ set_date_frame later = set_date_frame d
  ∧ Printer.set_autodating_table (λ _, Ok [x06]) later initial_world
    = Printer.set_autodating_table (λ _, Ok [x06]) d initial_world.
Proof.
  intros d later. split; [reflexivity|]. split; [reflexivity|].
  exact (century_is_not_sent (λ _, Ok [x06]) initial_world d
           eq_refl eq_refl).
Defined.
